(** * Selector resolution and ranking engine

    A shallow embedding of [web_selectors/selector_manager.py]
    ([SelectorManager]) and of [AsyncLangGraphOrchestrator._try_selectors]
    ([agents/orchestrator.py]), with the properties of the selector ranker,
    the selector synthesis and the resolver stated over it.

    Modelling conventions.
    - A Python [str] is a [string]; one [ascii] stands for one code point
      below 256, so [len], [strip], [lower], [split], [in], [count] and
      [startswith] are the Python ones on such strings.
    - A Python [dict] with string keys and values is an association list in
      insertion order; [set(...)] is a [gset string].
    - A Python [int] is a [Z].
    - A coroutine of the orchestrator is a function from a state (the
      outside world, the [state] dictionary, [self.selector_cache]) to a
      result or a raised exception, a new state, and the list of the calls
      it made to the outside with their answers.  The browser, the LLM
      client and [urljoin] are parameters ([Env]); every theorem holds
      for all of them. *)

From Stdlib Require Import ZArith Lia Bool Ascii String List Sorted.
From stdpp Require Import base decidable option list strings gmap sets.

Local Open Scope string_scope.
Local Open Scope Z_scope.

(** ** Python strings *)

Module PyStr.

(** The double quote, written by code so that no literal has to escape it. *)
Definition dq : string := String (ascii_of_nat 34) EmptyString.

(** [sub.startswith(p)], with the receiver as second argument. *)
Fixpoint startswith (p s : string) : bool :=
  match p with
  | EmptyString => true
  | String a p' =>
      match s with
      | EmptyString => false
      | String b s' => if Ascii.eqb a b then startswith p' s' else false
      end
  end.

(** [p in s]. *)
Fixpoint contains (p s : string) : bool :=
  if startswith p s then true
  else match s with
       | EmptyString => false
       | String _ s' => contains p s'
       end.

(** [s.count(p)]: occurrences of [p] counted from the left without
    overlap.  [skip] is the number of characters still covered by the
    last occurrence found. *)
Fixpoint count_from (p s : string) (skip : nat) : Z :=
  match s with
  | EmptyString => 0
  | String _ s' =>
      match skip with
      | S k => count_from p s' k
      | O => if startswith p s
             then 1 + count_from p s' (Nat.pred (String.length p))
             else count_from p s' 0
      end
  end.

Definition count (p s : string) : Z :=
  match p with
  | EmptyString => Z.of_nat (String.length s) + 1
  | _ => count_from p s 0
  end.

(** [len(s)]. *)
Definition len (s : string) : Z := Z.of_nat (String.length s).

(** [c.isspace()] for a code point below 256. *)
Definition isspace (c : ascii) : bool :=
  let n := nat_of_ascii c in
  ((9 <=? n) && (n <=? 13) || (28 <=? n) && (n <=? 32)
   || (n =? 133) || (n =? 160))%nat.

Fixpoint lstrip (s : string) : string :=
  match s with
  | EmptyString => EmptyString
  | String c s' => if isspace c then lstrip s' else s
  end.

Fixpoint rstrip (s : string) : string :=
  match s with
  | EmptyString => EmptyString
  | String c s' =>
      match rstrip s' with
      | EmptyString => if isspace c then EmptyString else String c EmptyString
      | r => String c r
      end
  end.

(** [s.strip()]. *)
Definition strip (s : string) : string := rstrip (lstrip s).

(** [c.lower()] for a code point below 256: the ASCII capitals and the
    Latin-1 capitals (0xC0-0xDE without the multiplication sign 0xD7). *)
Definition lower_char (c : ascii) : ascii :=
  let n := nat_of_ascii c in
  if ((65 <=? n) && (n <=? 90)
      || (192 <=? n) && (n <=? 222) && negb (n =? 215))%nat
  then ascii_of_nat (n + 32) else c.

(** [s.lower()]. *)
Fixpoint lower (s : string) : string :=
  match s with
  | EmptyString => EmptyString
  | String c s' => String (lower_char c) (lower s')
  end.

(** The first word of [s.split()] on an already left-stripped string. *)
Fixpoint take_word (s : string) : string :=
  match s with
  | EmptyString => EmptyString
  | String c s' => if isspace c then EmptyString else String c (take_word s')
  end.

(** [s.split()[0]]; [None] is the [IndexError] of indexing an empty list. *)
Definition split_first (s : string) : option string :=
  match lstrip s with
  | EmptyString => None
  | w => Some (take_word w)
  end.

(** Truth value of a string: [if s:]. *)
Definition truthy (s : string) : bool :=
  match s with EmptyString => false | _ => true end.

End PyStr.

(** ** Python dictionaries with string keys and values *)

Definition dict : Type := list (string * string).

Module Dict.

(** [d.get(k)]. *)
Fixpoint get (k : string) (d : dict) : option string :=
  match d with
  | [] => None
  | (k', v) :: d' => if String.eqb k k' then Some v else get k d'
  end.

(** [d.get(k, dflt)]. *)
Definition get_default (k dflt : string) (d : dict) : string :=
  match get k d with Some v => v | None => dflt end.

(** [k in d]. *)
Definition mem (k : string) (d : dict) : bool :=
  match get k d with Some _ => true | None => false end.

End Dict.

(** ** Results of fallible code *)

(** The exceptions the modelled code can meet: the two raised by Python's
    own indexing, and whatever an external call (browser, LLM) raises. *)
Inductive exn : Type := IndexError | KeyError | External.

Inductive Res (A : Type) : Type :=
| Ok (a : A)
| Raise (e : exn).
Arguments Ok {A} a.
Arguments Raise {A} e.

Definition is_ok {A} (r : Res A) : bool :=
  match r with Ok _ => true | Raise _ => false end.

(** [d[k]]: a missing key raises [KeyError]. *)
Definition dict_index (k : string) (d : dict) : Res string :=
  match Dict.get k d with Some v => Ok v | None => Raise KeyError end.

(** ** [sorted(iterable, key=...)]

    Python's [sorted] is a stable sort in ascending key order; it is
    modelled by the stable insertion sort. *)

Section Sorted.
Context {A : Type} (key : A -> Z).

Fixpoint insert_by (x : A) (l : list A) : list A :=
  match l with
  | [] => [x]
  | y :: l' => if key x <=? key y then x :: y :: l' else y :: insert_by x l'
  end.

Fixpoint sorted (l : list A) : list A :=
  match l with
  | [] => []
  | x :: l' => insert_by x (sorted l')
  end.

(** Ascending in the key, as a relation between any earlier and any later
    element. *)
Definition ascending (l : list A) : Prop :=
  StronglySorted (fun a b => key a <= key b) l.
End Sorted.

(** ** [SelectorManager] *)

Module SelectorManager.
Import PyStr.

(** The inner function [score] of [rank_selectors]: the accumulator [s] is
    threaded through the [if] statements in source order. *)
Definition score (cand : dict) : Z :=
  let s := 0 in
  let sel := Dict.get_default "selector" EmptyString cand in
  let text := Dict.get_default "text" EmptyString cand in
  let s := if startswith "#" (strip sel) then s + 100 else s in
  let s := if contains "data-testid" sel || contains "data-test" sel
           then s + 90 else s in
  let s := if contains "name=" sel || contains "for=" sel
           then s + 80 else s in
  let s := if contains "aria-label" sel then s + 70 else s in
  let s := if contains "[role=" sel then s + 65 else s in
  let s := if contains "data-" sel then s + 60 else s in
  let s := if truthy text
              && (contains "button" (lower sel) || contains "a[" sel
                  || contains "link" (lower sel))
           then s + 55 else s in
  let s := if count "." sel =? 1 then s + 50
           else if count "." sel >? 1 then s + 40 else s in
  let s := if contains "nth-child" sel || contains "nth-of-type" sel
           then s + 30 else s in
  let s := if truthy text && contains ("text()=" ++ dq ++ text ++ dq) sel
           then s + 45
           else if truthy text && contains "contains(text()" sel
                then s + 35 else s in
  let s := if len sel >? 150 then s - 20 else s in
  let s := if count "/" sel >? 5 then s - 15 else s in
  let s := if count " > " sel >? 3 then s - 15 else s in
  s.

(** [rank_selectors]: [sorted(candidates, key=lambda c: -score(c))]. *)
Definition rank_selectors (candidates : list dict) : list dict :=
  sorted (fun c => - score c) candidates.

(** [choose_best]. *)
Definition choose_best (candidates : list dict) : option dict :=
  match rank_selectors candidates with
  | [] => None
  | c :: _ => Some c
  end.

(** The first key of [attrs] that starts with [data-]
    ([for k in attrs: if k.startswith("data-")]). *)
Fixpoint first_data_key (attrs : dict) : option string :=
  match attrs with
  | [] => None
  | (k, _) :: rest => if startswith "data-" k then Some k
                      else first_data_key rest
  end.

Definition attr_selector (tag k v : string) : string :=
  tag ++ "[" ++ k ++ "='" ++ v ++ "']".

(** [generate_selector_from_attrs]. *)
Definition generate_selector_from_attrs (tag : string) (attrs : dict)
  : Res string :=
  if Dict.mem "id" attrs then
    match dict_index "id" attrs with
    | Ok v => Ok (tag ++ "#" ++ v)
    | Raise e => Raise e
    end
  else
    match first_data_key attrs with
    | Some k =>
        match dict_index k attrs with
        | Ok v => Ok (attr_selector tag k v)
        | Raise e => Raise e
        end
    | None =>
        if Dict.mem "aria-label" attrs then
          match dict_index "aria-label" attrs with
          | Ok v => Ok (attr_selector tag "aria-label" v)
          | Raise e => Raise e
          end
        else if Dict.mem "name" attrs then
          match dict_index "name" attrs with
          | Ok v => Ok (attr_selector tag "name" v)
          | Raise e => Raise e
          end
        else if Dict.mem "class" attrs then
          match dict_index "class" attrs with
          | Ok c =>
              match split_first c with
              | Some cls => Ok (tag ++ "." ++ cls)
              | None => Raise IndexError
              end
          | Raise e => Raise e
          end
        else
          match attrs with
          | (k, v) :: _ => Ok (attr_selector tag k v)
          | [] => Ok tag
          end
    end.

(** *** The choice of [generate_selector_from_attrs] in words

    The selector by priority: the id; the first attribute whose name
    starts with [data-]; aria-label; name; the first class token; the
    first attribute; the bare tag.  [None] when the class attribute
    decides and holds no token. *)
Definition selector_by_priority (tag : string) (attrs : dict)
  : option string :=
  match Dict.get "id" attrs with
  | Some v => Some (tag ++ "#" ++ v)
  | None =>
  match List.find (fun kv => startswith "data-" (fst kv)) attrs with
  | Some (k, v) => Some (attr_selector tag k v)
  | None =>
  match Dict.get "aria-label" attrs with
  | Some v => Some (attr_selector tag "aria-label" v)
  | None =>
  match Dict.get "name" attrs with
  | Some v => Some (attr_selector tag "name" v)
  | None =>
  match Dict.get "class" attrs with
  | Some c =>
      match split_first c with
      | Some cls => Some (tag ++ "." ++ cls)
      | None => None
      end
  | None =>
  match attrs with
  | (k, v) :: _ => Some (attr_selector tag k v)
  | [] => Some tag
  end end end end end end.

(** *** The scoring policy as a table

    A signal is a test on the selector string and the text of a
    candidate, with the score delta it contributes.  A table is scored by
    adding the deltas of all signals that match. *)

Definition signal : Type := (string -> string -> bool) * Z.

Definition table_score (table : list signal) (cand : dict) : Z :=
  let sel := Dict.get_default "selector" EmptyString cand in
  let text := Dict.get_default "text" EmptyString cand in
  fold_right (fun (sg : signal) acc =>
                (if fst sg sel text then snd sg else 0) + acc) 0 table.

Definition mentions_clickable (sel : string) : bool :=
  contains "button" (lower sel) || contains "a[" sel
  || contains "link" (lower sel).

Definition exact_text_predicate (sel text : string) : bool :=
  truthy text && contains ("text()=" ++ dq ++ text ++ dq) sel.

(** The table as the specification words it: the ID test on the selector
    as given, three test-id attributes, and both text signals applied
    independently of each other. *)
Definition spec_signals : list signal :=
  [ (fun sel _ => startswith "#" sel, 100);
    (fun sel _ => contains "data-testid" sel || contains "data-test" sel
                  || contains "data-qa" sel, 90);
    (fun sel _ => contains "name=" sel || contains "for=" sel, 80);
    (fun sel _ => contains "aria-label" sel, 70);
    (fun sel _ => contains "[role=" sel, 65);
    (fun sel _ => contains "data-" sel, 60);
    (fun sel text => truthy text && mentions_clickable sel, 55);
    (fun sel _ => count "." sel =? 1, 50);
    (fun sel _ => count "." sel >? 1, 40);
    (fun sel _ => contains "nth-child" sel || contains "nth-of-type" sel, 30);
    (fun sel text => exact_text_predicate sel text, 45);
    (fun sel _ => contains "contains(text()" sel, 35);
    (fun sel _ => len sel >? 150, -20);
    (fun sel _ => count "/" sel >? 5, -15);
    (fun sel _ => count " > " sel >? 3, -15) ].

(** The table the code implements: the ID test after stripping white
    space, two test-id substrings, and the substring text signal only for
    a candidate with text whose exact text predicate did not match. *)
Definition code_signals : list signal :=
  [ (fun sel _ => startswith "#" (strip sel), 100);
    (fun sel _ => contains "data-testid" sel || contains "data-test" sel, 90);
    (fun sel _ => contains "name=" sel || contains "for=" sel, 80);
    (fun sel _ => contains "aria-label" sel, 70);
    (fun sel _ => contains "[role=" sel, 65);
    (fun sel _ => contains "data-" sel, 60);
    (fun sel text => truthy text && mentions_clickable sel, 55);
    (fun sel _ => count "." sel =? 1, 50);
    (fun sel _ => count "." sel >? 1, 40);
    (fun sel _ => contains "nth-child" sel || contains "nth-of-type" sel, 30);
    (fun sel text => exact_text_predicate sel text, 45);
    (fun sel text => truthy text && negb (exact_text_predicate sel text)
                     && contains "contains(text()" sel, 35);
    (fun sel _ => len sel >? 150, -20);
    (fun sel _ => count "/" sel >? 5, -15);
    (fun sel _ => count " > " sel >? 3, -15) ].

(** *** What [rank_selectors] has to achieve *)

(** Scores never increase along the list. *)
Definition descending (l : list dict) : Prop :=
  forall (i j : nat) (a b : dict),
    (i < j)%nat -> l !! i = Some a -> l !! j = Some b -> score b <= score a.

(** Candidates of one score appear in [out] exactly as they do in [inp]. *)
Definition keeps_tie_order (inp out : list dict) : Prop :=
  forall k : Z,
    List.filter (fun c => score c =? k) out
    = List.filter (fun c => score c =? k) inp.

End SelectorManager.

(** ** The external collaborators of the resolver

    The browser automation layer (Playwright), the LLM client and
    [urllib.parse.urljoin] are not code of the orchestrator.  They are an
    arbitrary deterministic machine over a state of type [World]: every
    call may change the world and may raise. *)

Inductive wait_until : Type := NetworkIdle | DomContentLoaded.

Record Env : Type := {
  World : Type;
  PlaywrightH : Type;
  Browser : Type;
  BrowserContext : Type;
  Page : Type;
  Element : Type;
  BBox : Type;
  (** [async_playwright().__aenter__()] and [__aexit__]: the start of the
      Playwright session of the call, and its stop, which ends the driver
      and every browser and page it launched *)
  pw_start : World -> Res PlaywrightH * World;
  pw_stop : PlaywrightH -> World -> Res unit * World;
  (** [p.chromium.launch(...)], [browser.new_context(...)],
      [context.new_page()], [browser.close()] *)
  launch : PlaywrightH -> World -> Res Browser * World;
  new_context : Browser -> World -> Res BrowserContext * World;
  new_page : BrowserContext -> World -> Res Page * World;
  close : Browser -> World -> Res unit * World;
  (** page methods *)
  set_viewport_size : Page -> World -> Res unit * World;
  evaluate : Page -> string -> World -> Res unit * World;
  goto : Page -> string -> wait_until -> World -> Res unit * World;
  content : Page -> World -> Res string * World;
  wait_for_selector : Page -> string -> World -> Res (option Element) * World;
  wait_for_load_state : Page -> World -> Res unit * World;
  page_url : Page -> World -> string;
  (** element methods *)
  is_visible : Element -> World -> Res bool * World;
  is_enabled : Element -> World -> Res bool * World;
  bounding_box : Element -> World -> Res (option BBox) * World;
  get_attribute : Element -> string -> World -> Res (option string) * World;
  click : Element -> World -> Res unit * World;
  (** [asyncio.sleep(secs)] *)
  sleep : Z -> World -> World;
  (** [groq.raw_completion] on the prompt built from a button text,
      followed by [json.loads] and the reading of the ['selector'] and
      ['type'] fields of every entry; any failure there is a raise *)
  llm_selectors : string -> World -> Res (list (string * string)) * World;
  (** [urllib.parse.urljoin] *)
  urljoin : string -> string -> string
}.

(** What the resolver does to the outside, in order, with the answer it
    got.  Element events carry the selector the element was found by; a
    click also carries the value of the local variable [href], the
    attribute read from the element before it is clicked. *)
Inductive Event : Type :=
| EvStart (ok : bool)
| EvStop (ok : bool)
| EvLaunch (ok : bool)
| EvNewContext (ok : bool)
| EvNewPage (ok : bool)
| EvClose (ok : bool)
| EvViewport (ok : bool)
| EvEvaluate (ok : bool)
| EvGoto (url : string) (wait : wait_until) (ok : bool)
| EvSleep (secs : Z)
| EvContent (r : Res string)
| EvLLM (text : string) (ok : bool)
| EvProbe (sel : string) (found : Res bool)
| EvVisible (sel : string) (r : Res bool)
| EvEnabled (sel : string) (r : Res bool)
| EvBBox (sel : string) (r : Res bool)
| EvHref (sel : string) (r : Res (option string))
| EvUrl (u : string)
| EvClick (sel : string) (href : option string) (ok : bool)
| EvWaitIdle (ok : bool).

Definition res_map {A B} (f : A -> B) (r : Res A) : Res B :=
  match r with Ok a => Ok (f a) | Raise e => Raise e end.

Definition is_some {A} (o : option A) : bool :=
  match o with Some _ => true | None => false end.

(** The keys of the LangGraph state that [_try_selectors] reads or
    writes; a key that is absent is [None]. *)
Record GraphState : Type := mkGraphState {
  already_clicked : option (list string);
  visited_urls : option (list string);
  current_url : option string
}.

(** [state.get(key, [])] *)
Definition get_list (o : option (list string)) : list string :=
  match o with Some l => l | None => [] end.

(** [state.setdefault(key, []).append(x)] *)
Definition setdefault_append (o : option (list string)) (x : string)
  : option (list string) :=
  Some (get_list o ++ [x])%list.

(** ** Selector synthesis (the expansion part of [_try_selectors]) *)

Module Synthesis.
Import PyStr.

(** [{"selector": sel, "text": text}] *)
Definition entry (sel text : string) : dict :=
  [("selector", sel); ("text", text)].

(** [f'[{attr}="{value}"]'] *)
Definition attr_equals (attr value : string) : string :=
  "[" ++ attr ++ "=" ++ dq ++ value ++ dq ++ "]".

Definition xpath_button_contains (text : string) : string :=
  "//button[contains(text()," ++ dq ++ text ++ dq ++ ")]".
Definition xpath_a_contains (text : string) : string :=
  "//a[contains(text()," ++ dq ++ text ++ dq ++ ")]".
Definition xpath_input_value (text : string) : string :=
  "//input[@value=" ++ dq ++ text ++ dq ++ "]".
Definition xpath_exact (text : string) : string :=
  "//*[text()=" ++ dq ++ text ++ dq ++ "]".
Definition css_a_has_text (text : string) : string :=
  "a:has-text(" ++ dq ++ text ++ dq ++ ")".
Definition css_button_has_text (text : string) : string :=
  "button:has-text(" ++ dq ++ text ++ dq ++ ")".
Definition css_role_button_has_text (text : string) : string :=
  "[role=" ++ dq ++ "button" ++ dq ++ "]:has-text(" ++ dq ++ text ++ dq ++ ")".
Definition xpath_contains (text : string) : string :=
  "//*[contains(text()," ++ dq ++ text ++ dq ++ ")]".
Definition xpath_normalize_space (text : string) : string :=
  "//*[normalize-space()=" ++ dq ++ text ++ dq ++ "]".
Definition css_title (text : string) : string := attr_equals "title" text.

(** The three [extend] calls under [if text:]. *)
Definition text_selectors (text : string) : list dict :=
  ([ entry (xpath_button_contains text) text;
     entry (xpath_a_contains text) text;
     entry (xpath_input_value text) text;
     entry (xpath_exact text) text ]
   ++ [ entry (css_a_has_text text) text;
        entry (css_button_has_text text) text;
        entry (css_role_button_has_text text) text ]
   ++ [ entry (xpath_contains text) text;
        entry (xpath_normalize_space text) text;
        entry (css_title text) text ])%list.

Definition string_in (x : string) (l : list string) : bool :=
  existsb (String.eqb x) l.

(** [for attr, value in s.items(): if attr in [...]] *)
Fixpoint items_selectors (keep : string -> bool) (text : string) (s : dict)
  : list dict :=
  match s with
  | [] => []
  | (attr, value) :: rest =>
      if keep attr
      then entry (attr_equals attr value) text :: items_selectors keep text rest
      else items_selectors keep text rest
  end.

(** [for attr in attrs: if attr in s] with the lookup [s[attr]] *)
Fixpoint named_selectors (attrs : list string) (text : string) (s : dict)
  : list dict :=
  match attrs with
  | [] => []
  | attr :: rest =>
      match Dict.get attr s with
      | Some value =>
          entry (attr_equals attr value) text :: named_selectors rest text s
      | None => named_selectors rest text s
      end
  end.

(** The list [element_selectors] built for the candidate [s], given the
    selectors [llm] the LLM helper returned for its text (the empty list
    when the candidate has no text). *)
Definition element_selectors (llm : list dict) (s : dict) : list dict :=
  let text := Dict.get_default "text" EmptyString s in
  let base_sel := Dict.get "selector" s in
  ((if truthy text then llm else [])
   ++ match base_sel with
      | Some b => if truthy b then [entry b text] else []
      | None => []
      end
   ++ (if truthy text then text_selectors text else [])
   ++ items_selectors
        (fun attr => string_in attr ["data-testid"; "data-test"; "data-qa"])
        text s
   ++ named_selectors ["aria-label"; "role"; "title"] text s
   ++ named_selectors ["name"; "for"; "placeholder"] text s
   ++ items_selectors (startswith "data-") text s
   ++ match Dict.get "role" s with
      | Some role =>
          if truthy text
          then [entry (attr_equals "role" role
                         ++ "[text()=" ++ dq ++ text ++ dq ++ "]") text]
          else []
      | None => []
      end)%list.

End Synthesis.

(** ** [AsyncLangGraphOrchestrator._try_selectors] *)

Section Orchestrator.
Context (env : Env).

(** What a call can read and change: the outside world, the [state]
    dictionary it was given, and [self.selector_cache]. *)
Record St : Type := mkSt {
  world : World env;
  state : GraphState;
  selector_cache : gmap string (list dict)
}.

(** A computation returns or raises, leaves a new state, and the events
    it caused in order. *)
Definition M (A : Type) : Type := St -> Res A * St * list Event.

Definition ret {A} (a : A) : M A := fun st => (Ok a, st, []).

Definition bind {A B} (m : M A) (k : A -> M B) : M B :=
  fun st =>
    match m st with
    | (Ok a, st1, ev1) =>
        let '(r, st2, ev2) := k a st1 in (r, st2, (ev1 ++ ev2)%list)
    | (Raise e, st1, ev1) => (Raise e, st1, ev1)
    end.

(** [try: m except Exception as e: h e] *)
Definition try_except {A} (m : M A) (h : exn -> M A) : M A :=
  fun st =>
    match m st with
    | (Ok a, st1, ev1) => (Ok a, st1, ev1)
    | (Raise e, st1, ev1) =>
        let '(r, st2, ev2) := h e st1 in (r, st2, (ev1 ++ ev2)%list)
    end.

(** A call to the outside, logged with its answer. *)
Definition call {A} (op : World env -> Res A * World env)
    (ev : Res A -> Event) : M A :=
  fun st =>
    let '(r, w) := op (world st) in
    (r, mkSt w (state st) (selector_cache st), [ev r]).

(** [async with enter as p: body p] *)
Definition async_with {H A} (enter : M H) (exit : H -> M unit)
    (body : H -> M A) : M A :=
  fun st =>
    match enter st with
    | (Raise e, st1, ev1) => (Raise e, st1, ev1)
    | (Ok p, st1, ev1) =>
        let '(r, st2, ev2) := body p st1 in
        let '(x, st3, ev3) := exit p st2 in
        (match x with Ok _ => r | Raise e => Raise e end,
         st3, (ev1 ++ ev2 ++ ev3)%list)
    end.

Notation "'let*' x ':=' m 'in' k" := (bind m (fun x => k))
  (at level 10, x name, m at level 100, k at level 200, only parsing).
Notation "m ';;' k" := (bind m (fun _ => k))
  (at level 100, k at level 200, right associativity, only parsing).

(** The dictionary [_try_selectors] returns after a navigation. *)
Record Outcome : Type := mkOutcome {
  url : string;
  html : string;
  selector : string;
  browser : Browser env;
  page : Page env
}.

(** [_get_llm_selectors]; the prompt is a function of [button_text]
    alone. *)
Definition _get_llm_selectors (html button_text : string) : M (list dict) :=
  fun st =>
    let cache_key := button_text in
    match selector_cache st !! cache_key with
    | Some cached => (Ok cached, st, [])
    | None =>
        try_except
          (let* selectors :=
             call (llm_selectors env button_text)
                  (fun r => EvLLM button_text (is_ok r)) in
           let formatted_selectors :=
             List.map (fun sel : string * string =>
                         [("selector", fst sel); ("text", button_text);
                          ("source", "llm"); ("selector_type", snd sel)])
                      selectors in
           fun st' =>
             (Ok formatted_selectors,
              mkSt (world st') (state st')
                   (<[cache_key := formatted_selectors]> (selector_cache st')),
              []))
          (fun _ => ret [])
          st
    end.

(** [page.url] *)
Definition read_url (pg : Page env) : M string :=
  fun st => let u := page_url env pg (world st) in (Ok u, st, [EvUrl u]).

(** [if href: full_href = urljoin(url, href); if full_href in visited_urls] *)
Definition leads_to_visited (target : string) (visited : gset string)
    (href : option string) : bool :=
  match href with
  | Some h =>
      PyStr.truthy h && bool_decide (urljoin env target h ∈ visited)
  | None => false
  end.

(** The three assignments to [state] after a navigation. *)
Definition record_navigation (sel nav_url : string) : M unit :=
  fun st =>
    (Ok tt,
     mkSt (world st)
          (mkGraphState
             (setdefault_append (already_clicked (state st)) sel)
             (setdefault_append (visited_urls (state st)) nav_url)
             (Some nav_url))
          (selector_cache st),
     []).

(** The body of the [try] of the inner loop, for one selector string;
    [None] is falling out of the [try] without a [return]. *)
Definition attempt (br : Browser env) (pg : Page env) (target : string)
    (visited : gset string) (sel : string) : M (option Outcome) :=
  let* element :=
    call (wait_for_selector env pg sel)
         (fun r => EvProbe sel (res_map is_some r)) in
  match element with
  | None => ret None
  | Some element =>
      let* visible := call (is_visible env element) (EvVisible sel) in
      let* enabled := call (is_enabled env element) (EvEnabled sel) in
      let* bbox :=
        call (bounding_box env element)
             (fun r => EvBBox sel (res_map is_some r)) in
      if visible && enabled && is_some bbox then
        let* href :=
          call (get_attribute env element "href") (EvHref sel) in
        if leads_to_visited target visited href then ret None
        else
          let* pre_click_url := read_url pg in
          call (click env element) (fun r => EvClick sel href (is_ok r));;
          try_except
            (call (wait_for_load_state env pg)
                  (fun r => EvWaitIdle (is_ok r)))
            (fun _ => ret tt);;
          let* nav_url := read_url pg in
          if negb (String.eqb nav_url pre_click_url) then
            let* new_html := call (content env pg) EvContent in
            record_navigation sel nav_url;;
            ret (Some (mkOutcome nav_url new_html sel br pg))
          else ret None
      else ret None
  end.

(** [sel_dict["selector"]] *)
Definition selector_of (sel_dict : dict) : M string :=
  fun st => (dict_index "selector" sel_dict, st, []).

(** [for sel_dict in sorted_selectors: ...]; [Some] is the [return] of
    the function from inside the loop. *)
Fixpoint try_sorted (br : Browser env) (pg : Page env) (target : string)
    (clicked visited : gset string) (sorted_selectors : list dict)
  : M (option Outcome) :=
  match sorted_selectors with
  | [] => ret None
  | sel_dict :: rest =>
      let* sel := selector_of sel_dict in
      if bool_decide (sel ∈ clicked)
      then try_sorted br pg target clicked visited rest
      else
        let* r := try_except (attempt br pg target visited sel)
                             (fun _ => ret None) in
        match r with
        | Some o => ret (Some o)
        | None => try_sorted br pg target clicked visited rest
        end
  end.

(** [for s in ranked_selectors: ...] *)
Fixpoint try_candidates (br : Browser env) (pg : Page env)
    (target page_html : string) (clicked visited : gset string)
    (ranked_selectors : list dict) : M (option Outcome) :=
  match ranked_selectors with
  | [] => ret None
  | s :: rest =>
      let text := Dict.get_default "text" EmptyString s in
      let* llm :=
        (if PyStr.truthy text then _get_llm_selectors page_html text
         else ret []) in
      let element_selectors := Synthesis.element_selectors llm s in
      let sorted_selectors :=
        SelectorManager.rank_selectors element_selectors in
      let* r := try_sorted br pg target clicked visited sorted_selectors in
      match r with
      | Some o => ret (Some o)
      | None => try_candidates br pg target page_html clicked visited rest
      end
  end.

(** The initial page load; [false] is the [return None] of its
    [except] clause, after [browser.close()]. *)
Definition load_page (br : Browser env) (pg : Page env) (target : string)
  : M bool :=
  try_except
    (call (set_viewport_size env pg) (fun r => EvViewport (is_ok r));;
     call (evaluate env pg "document.documentElement.requestFullscreen()")
          (fun r => EvEvaluate (is_ok r));;
     try_except
       (call (goto env pg target NetworkIdle)
             (fun r => EvGoto target NetworkIdle (is_ok r)))
       (fun _ =>
          call (goto env pg target DomContentLoaded)
               (fun r => EvGoto target DomContentLoaded (is_ok r));;
          fun st =>
            (Ok tt,
             mkSt (sleep env 5 (world st)) (state st) (selector_cache st),
             [EvSleep 5]));;
     ret true)
    (fun _ =>
       call (close env br) (fun r => EvClose (is_ok r));;
       ret false).

(** [s.get("selector") not in already_clicked] *)
Definition not_clicked (clicked : gset string) (s : dict) : bool :=
  match Dict.get "selector" s with
  | Some sel => negb (bool_decide (sel ∈ clicked))
  | None => true
  end.

Definition is_nil {A} (l : list A) : bool :=
  match l with [] => true | _ => false end.

(** The block under [async with async_playwright() as p:]. *)
Definition with_browser (target : string) (selectors : list dict)
    (clicked visited : gset string) (p : PlaywrightH env)
  : M (option Outcome) :=
  let* br := call (launch env p) (fun r => EvLaunch (is_ok r)) in
  let* context :=
    call (new_context env br) (fun r => EvNewContext (is_ok r)) in
  let* pg := call (new_page env context) (fun r => EvNewPage (is_ok r)) in
  let* loaded := load_page br pg target in
  if negb loaded then ret None
  else
    let* page_html := call (content env pg) EvContent in
    let ranked_selectors := SelectorManager.rank_selectors selectors in
    let* r :=
      try_candidates br pg target page_html clicked visited
                     ranked_selectors in
    match r with
    | Some o => ret (Some o)
    | None =>
        call (close env br) (fun r => EvClose (is_ok r));;
        ret None
    end.

Definition _try_selectors (target : string) (selectors : list dict)
  : M (option Outcome) :=
  fun st =>
    if negb (PyStr.truthy target) || is_nil selectors
    then (Ok None, st, [])
    else
      let clicked : gset string :=
        list_to_set (get_list (already_clicked (state st))) in
      let visited : gset string :=
        list_to_set (get_list (visited_urls (state st))) in
      let selectors := List.filter (not_clicked clicked) selectors in
      if is_nil selectors then (Ok None, st, [])
      else
        async_with
          (call (pw_start env) (fun r => EvStart (is_ok r)))
          (fun p => call (pw_stop env p) (fun r => EvStop (is_ok r)))
          (with_browser target selectors clicked visited)
          st.

End Orchestrator.

Arguments mkSt {env} _ _ _.
Arguments world {env} _.
Arguments state {env} _.
Arguments selector_cache {env} _.
Arguments mkOutcome {env} _ _ _ _ _.
Arguments url {env} _.
Arguments html {env} _.
Arguments selector {env} _.
Arguments browser {env} _.
Arguments page {env} _.

(** ** A small site to run the resolver on

    The world is the URL the page shows.  A selector finds an element when
    the site lists it as present; the element is visible and enabled and
    has a box; a click leads where the site says, or nowhere.  The LLM
    helper is out of service, as for a client without [raw_completion]. *)

Module Toy.

Record Site : Type := mkSite {
  present : string -> bool;
  href_of : string -> option string;
  click_to : string -> option string;
  unreadable : string -> bool;
  unreachable : string -> bool
}.

Definition join (base href : string) : string :=
  if PyStr.startswith "http" href then href else base ++ href.

Definition env (site : Site) : Env := {|
  World := string;
  PlaywrightH := unit;
  Browser := unit;
  BrowserContext := unit;
  Page := unit;
  Element := string;
  BBox := unit;
  pw_start := fun w => (Ok tt, w);
  pw_stop := fun _ w => (Ok tt, w);
  launch := fun _ w => (Ok tt, w);
  new_context := fun _ w => (Ok tt, w);
  new_page := fun _ w => (Ok tt, w);
  close := fun _ w => (Ok tt, w);
  set_viewport_size := fun _ w => (Ok tt, w);
  evaluate := fun _ _ w => (Ok tt, w);
  goto := fun _ u _ w =>
    if unreachable site u then (Raise External, w) else (Ok tt, u);
  content := fun _ w =>
    if unreadable site w then (Raise External, w)
    else (Ok ("<html>" ++ w ++ "</html>"), w);
  wait_for_selector := fun _ sel w =>
    if present site sel then (Ok (Some sel), w) else (Raise External, w);
  wait_for_load_state := fun _ w => (Ok tt, w);
  page_url := fun _ w => w;
  is_visible := fun _ w => (Ok true, w);
  is_enabled := fun _ w => (Ok true, w);
  bounding_box := fun _ w => (Ok (Some tt), w);
  get_attribute := fun e _ w => (Ok (href_of site e), w);
  click := fun e w =>
    (Ok tt, match click_to site e with Some u => u | None => w end);
  sleep := fun _ w => w;
  llm_selectors := fun _ w => (Raise External, w);
  urljoin := join
|}.

Definition home : string := "https://bank.example/apply/".
Definition form_url : string := "https://bank.example/apply/form".

Definition apply_xpath : string :=
  Synthesis.xpath_contains "Apply for Your First Loan".

Definition candidates : list dict :=
  [ [("selector", "#non-existent-button"); ("text", "Does Not Exist")];
    [("selector", apply_xpath); ("text", "Apply for Your First Loan")] ].

(** Only the element of [apply_xpath] exists; clicking it opens the form. *)
Definition site : Site := {|
  present := String.eqb apply_xpath;
  href_of := fun _ => Some "form";
  click_to := fun _ => Some form_url;
  unreadable := fun _ => false;
  unreachable := fun _ => false
|}.

(** The same site with a form page whose markup cannot be read. *)
Definition site_unreadable_form : Site := {|
  present := String.eqb apply_xpath;
  href_of := fun _ => Some "form";
  click_to := fun _ => Some form_url;
  unreadable := String.eqb form_url;
  unreachable := fun _ => false
|}.

(** The same site with a button that does not navigate. *)
Definition site_inert : Site := {|
  present := String.eqb apply_xpath;
  href_of := fun _ => None;
  click_to := fun _ => None;
  unreadable := fun _ => false;
  unreachable := fun _ => false
|}.

(** A site that cannot be loaded. *)
Definition site_down : Site := {|
  present := fun _ => false;
  href_of := fun _ => None;
  click_to := fun _ => None;
  unreadable := fun _ => false;
  unreachable := fun _ => true
|}.

Definition fresh : GraphState := mkGraphState None None None.

Definition start (s : Site) (gs : GraphState) : St (env s) :=
  mkSt (env:=env s) EmptyString gs ∅.

(** The state once the page of [home] is shown. *)
Definition at_home (s : Site) (gs : GraphState) : St (env s) :=
  mkSt (env:=env s) home gs ∅.

Definition apply_candidate : dict :=
  Synthesis.entry apply_xpath "Apply for Your First Loan".

End Toy.

(** * Vocabulary of the properties *)

(** ** Candidates on which the scoring table of the specification and
       the code differ *)

Module RankerExamples.
Import PyStr.

Definition cand_data_qa : dict := [("selector", "[data-qa='go']")].

Definition cand_both_text : dict :=
  [("selector",
    "//a[text()=" ++ dq ++ "Go" ++ dq ++ "][contains(text()," ++ dq ++ "Go"
      ++ dq ++ ")]");
   ("text", "Go")].

Definition cand_padded_id : dict := [("selector", " #go")].

Definition cand_no_text : dict :=
  [("selector", "//*[contains(text()," ++ dq ++ "Go" ++ dq ++ ")]")].

End RankerExamples.

(** ** Runs of the resolver *)

Module Runs.

Section RunVocabulary.
Context {env : Env}.

(** [set(state.get("already_clicked", []))] and
    [set(state.get("visited_urls", []))] at the entry of a call. *)
Definition clicked_at (st : St env) : gset string :=
  list_to_set (get_list (already_clicked (state st))).
Definition visited_at (st : St env) : gset string :=
  list_to_set (get_list (visited_urls (state st))).

(** Every event of every run of [m] satisfies [Q]. *)
Definition emits {A} (Q : Event -> Prop) (m : M env A) : Prop :=
  forall st, Forall Q (m st).2.

(** No run of [m] changes the [state] dictionary. *)
Definition keeps_state {A} (m : M env A) : Prop :=
  forall st, state (m st).1.2 = state st.

(** The events of the two loops: probes, checks and clicks on selectors
    outside [clicked], a click only on an element whose [href] does not
    lead to a visited URL, and reads of the page and of the LLM.  No event
    of the browser's life cycle is among them. *)
Definition loop_event (clicked visited : gset string) (target : string)
    (e : Event) : Prop :=
  match e with
  | EvProbe s _ | EvVisible s _ | EvEnabled s _ | EvBBox s _
  | EvHref s _ => s ∉ clicked
  | EvClick s href _ =>
      (s ∉ clicked) /\ leads_to_visited env target visited href = false
  | EvUrl _ | EvWaitIdle _ | EvContent _ | EvLLM _ _ => True
  | _ => False
  end.

(** The events of a whole call: what [loop_event] says of probes, checks
    and clicks, and anything else. *)
Definition run_event (clicked visited : gset string) (target : string)
    (e : Event) : Prop :=
  match e with
  | EvProbe s _ | EvVisible s _ | EvEnabled s _ | EvBBox s _
  | EvHref s _ => s ∉ clicked
  | EvClick s href _ =>
      (s ∉ clicked) /\ leads_to_visited env target visited href = false
  | _ => True
  end.

(** The [state] after the three assignments made for the outcome [o]. *)
Definition recorded (gs : GraphState) (o : Outcome env) : GraphState :=
  mkGraphState (setdefault_append (already_clicked gs) (selector o))
               (setdefault_append (visited_urls gs) (url o))
               (Some (url o)).

(** The events end with the click on the selector of [o], made while the
    page showed another URL than the one of [o], and the reading of the
    new markup. *)
Definition confirmed (o : Outcome env) (evs : list Event) : Prop :=
  exists pre u0 href ok,
    evs = (pre ++ [EvUrl u0; EvClick (selector o) href true; EvWaitIdle ok;
                   EvUrl (url o); EvContent (Ok (html o))])%list
    /\ u0 <> url o.

(** The same five events somewhere among [evs]. *)
Definition navigated (o : Outcome env) (evs : list Event) : Prop :=
  exists pre u0 href ok post,
    evs = (pre ++ [EvUrl u0; EvClick (selector o) href true; EvWaitIdle ok;
                   EvUrl (url o); EvContent (Ok (html o))] ++ post)%list
    /\ u0 <> url o.

(** What a run of one of the loops, started in [st], does to [state]. *)
Definition loop_effect (st : St env)
    (x : Res (option (Outcome env)) * St env * list Event) : Prop :=
  match x.1.1 with
  | Ok (Some o) => state x.1.2 = recorded (state st) o /\ confirmed o x.2
  | _ => state x.1.2 = state st
  end.

End RunVocabulary.

Arguments loop_event : clear implicits.
Arguments run_event : clear implicits.

(** No probe, check or click on a selector of [clicked]. *)
Definition untouched (clicked : gset string) (e : Event) : Prop :=
  match e with
  | EvProbe s _ | EvVisible s _ | EvEnabled s _ | EvBBox s _
  | EvHref s _ | EvClick s _ _ => s ∉ clicked
  | _ => True
  end.

Definition is_close (e : Event) : bool :=
  match e with EvClose _ => true | _ => false end.
Definition is_start (e : Event) : bool :=
  match e with EvStart _ => true | _ => false end.
Definition is_stop (e : Event) : bool :=
  match e with EvStop _ => true | _ => false end.

(** The number of calls of [browser.close()]. *)
Definition closes (evs : list Event) : nat :=
  length (List.filter is_close evs).

(** Events of the block under [async with]: neither the entry nor the
    exit of the Playwright session. *)
Definition inner_event (e : Event) : Prop :=
  is_start e = false /\ is_stop e = false.

End Runs.

(** ** The example site behind a redirect

    A request for [entry] shows the page of [Toy.home]: after the load
    the URL of the page and the URL given to the call differ. *)

Module Redirect.

Definition entry : string := "https://bank.example/go/".

Definition landing (u : string) : string :=
  if String.eqb u entry then Toy.home else u.

Definition env : Env := {|
  World := string;
  PlaywrightH := unit;
  Browser := unit;
  BrowserContext := unit;
  Page := unit;
  Element := string;
  BBox := unit;
  pw_start := fun w => (Ok tt, w);
  pw_stop := fun _ w => (Ok tt, w);
  launch := fun _ w => (Ok tt, w);
  new_context := fun _ w => (Ok tt, w);
  new_page := fun _ w => (Ok tt, w);
  close := fun _ w => (Ok tt, w);
  set_viewport_size := fun _ w => (Ok tt, w);
  evaluate := fun _ _ w => (Ok tt, w);
  goto := fun _ u _ w => (Ok tt, landing u);
  content := fun _ w => (Ok ("<html>" ++ w ++ "</html>"), w);
  wait_for_selector := fun _ sel w =>
    if Toy.present Toy.site sel then (Ok (Some sel), w)
    else (Raise External, w);
  wait_for_load_state := fun _ w => (Ok tt, w);
  page_url := fun _ w => w;
  is_visible := fun _ w => (Ok true, w);
  is_enabled := fun _ w => (Ok true, w);
  bounding_box := fun _ w => (Ok (Some tt), w);
  get_attribute := fun e _ w => (Ok (Toy.href_of Toy.site e), w);
  click := fun e w =>
    (Ok tt, match Toy.click_to Toy.site e with Some u => u | None => w end);
  sleep := fun _ w => w;
  llm_selectors := fun _ w => (Raise External, w);
  urljoin := Toy.join
|}.

(** The form page has been visited before. *)
Definition start : St env :=
  mkSt (env:=env) EmptyString
       (mkGraphState None (Some [Toy.form_url]) None) ∅.



End Redirect.

(** ** Proof automation *)

(** Case analysis on every test and every answer met along a run. *)
Ltac crunch_step :=
  match goal with
  | |- context [match ?x with _ => _ end] =>
      lazymatch x with
      | context [match _ with _ => _ end] => fail
      | _ => destruct x eqn:?
      end
  end.
Ltac crunch := cbn; repeat (crunch_step; cbn).


(** Inversion of a list of events split around a pattern. *)
Ltac split_inv :=
  repeat match goal with
    | H : _ :: _ = (?pre ++ _)%list |- _ =>
        is_var pre; destruct pre; cbn in H; simplify_eq
    | H : [] = (?pre ++ _)%list |- _ =>
        is_var pre; destruct pre; cbn in H; simplify_eq
    end.


(** * Further code of the repository *)

(** ** Candidates that reach the extreme scores *)

Module ScoreExtremes.
Import PyStr.

(** A selector that matches every positive signal and no penalty. *)
Definition cand_highest : dict :=
  [("selector",
    "#a.b[data-testid][name=x][aria-label][role=button]:nth-child(1)text()="
      ++ dq ++ "t" ++ dq);
   ("text", "t")].

(** A selector that matches the three penalties and no positive signal:
    six '/', four ' > ' and more than 150 characters. *)
Definition cand_lowest : dict :=
  [("selector",
    "/ > / > / > / > //xxxxxxxxxxxxxxxxxxxxxxxxxxxxxxxxxxxxxxxxxxxxxxxxxxxxxxxxxxxxxxxxxxxxxxxxxxxxxxxxxxxxxxxxxxxxxxxxxxxxxxxxxxxxxxxxxxxxxxxxxxxxxxxxxxxxxxxxxxxxxxxxxxxxxxxxxxxxxxxxxxx")].

End ScoreExtremes.

(** ** [app/scraper.py]: the name of the result file *)

Module Scraper.
Import PyStr.

(** [s.replace(old, new)] for a non-empty [old]: the occurrences of [old]
    found from the left without overlap are replaced.  [skip] is the
    number of characters still covered by the occurrence just replaced. *)
Fixpoint replace_from (old new s : string) (skip : nat) : string :=
  match s with
  | EmptyString => EmptyString
  | String c s' =>
      match skip with
      | S k => replace_from old new s' k
      | O => if startswith old s
             then new ++ replace_from old new s' (Nat.pred (String.length old))
             else String c (replace_from old new s' 0)
      end
  end.

(** [new] before every character and at the end: what Python does for
    an empty [old]. *)
Fixpoint intersperse (new s : string) : string :=
  match s with
  | EmptyString => new
  | String c s' => new ++ String c (intersperse new s')
  end.

(** [s.replace(old, new)] *)
Definition replace (old new s : string) : string :=
  match old with
  | EmptyString => intersperse new s
  | _ => replace_from old new s 0
  end.

(** Replacing one character by another, character by character. *)
Fixpoint subst_char (c d : ascii) (s : string) : string :=
  match s with
  | EmptyString => EmptyString
  | String x s' => String (if Ascii.eqb c x then d else x) (subst_char c d s')
  end.

(** [AppScraper._sanitize_filename] *)
Definition _sanitize_filename (url : string) : string :=
  replace "=" "_"
    (replace "&" "_"
       (replace "?" "_"
          (replace "/" "_"
             (replace "://" "_" url)))).

End Scraper.

(** ** More vocabulary for runs of the resolver *)

Module RunChecks.

(** The dictionary has a ['selector'] key. *)
Definition has_selector (d : dict) : Prop := Dict.mem "selector" d = true.

(** Every list in [self.selector_cache] holds dictionaries with a
    ['selector'] key.  The cache of a new orchestrator is empty. *)
Definition cache_ok {env} (st : St env) : Prop :=
  forall text l, selector_cache st !! text = Some l -> Forall has_selector l.

(** A call that failed among those made outside every [try] block: the
    start and the stop of the Playwright session, the launch of the
    browser, the opening of the context and of the page,
    [browser.close()], and [page.content()]. *)
Definition lifecycle_failure (e : Event) : Prop :=
  match e with
  | EvStart false | EvStop false | EvLaunch false | EvNewContext false
  | EvNewPage false | EvClose false => True
  | EvContent (Raise _) => True
  | _ => False
  end.

(** An event of the dialogue with the page or with the LLM: everything
    after the page load. *)
Definition is_page_work (e : Event) : bool :=
  match e with
  | EvContent _ | EvLLM _ _ | EvProbe _ _ | EvVisible _ _ | EvEnabled _ _
  | EvBBox _ _ | EvHref _ _ | EvUrl _ | EvClick _ _ _ | EvWaitIdle _ => true
  | _ => false
  end.

(** A step of the initial page load that failed with no fallback left:
    [page.set_viewport_size], [page.evaluate], or the second
    [page.goto]. *)
Definition load_failure (e : Event) : bool :=
  match e with
  | EvViewport false | EvEvaluate false
  | EvGoto _ DomContentLoaded false => true
  | _ => false
  end.

(** One of the two [page.goto] calls went through. *)
Definition page_loaded (e : Event) : bool :=
  match e with EvGoto _ _ true => true | _ => false end.

(** What a run does to [self.selector_cache]: the entries at its start
    are kept, and an entry at its end was there at the start or belongs
    to a text for which the LLM answered during the run. *)
Definition cache_grows {env} (st st' : St env) (evs : list Event) : Prop :=
  (forall t l, selector_cache st !! t = Some l ->
               selector_cache st' !! t = Some l)
  /\ (forall t l, selector_cache st' !! t = Some l ->
                  selector_cache st !! t = Some l \/ In (EvLLM t true) evs).

(** The example site with a home page whose markup cannot be read. *)
Definition site_unreadable_home : Toy.Site := {|
  Toy.present := String.eqb Toy.apply_xpath;
  Toy.href_of := fun _ => Some "form";
  Toy.click_to := fun _ => Some Toy.form_url;
  Toy.unreadable := String.eqb Toy.home;
  Toy.unreachable := fun _ => false
|}.

(** One candidate: the text of the link, with a selector that finds
    nothing. *)
Definition mislabelled_candidates : list dict :=
  [ [("selector", "#non-existent-button");
     ("text", "Apply for Your First Loan")] ].

(** The outcome of the call on the example site. *)
Definition form_outcome : Outcome (Toy.env Toy.site) :=
  mkOutcome (env:=Toy.env Toy.site) Toy.form_url
            ("<html>" ++ Toy.form_url ++ "</html>") Toy.apply_xpath tt tt.

End RunChecks.

(** ** Form extraction ([utils/parser.py]) and the CSV of form fields
       ([save_form_fields_csv])

    The dictionaries handled here hold JSON from the LLM and attributes of
    the markup, so their values are Python values of several types.  A
    number stands for [int] and [float] alike: all that is asked of one
    is whether it is zero. *)

Module Forms.

#[warnings="-register-all"]
Inductive pyval : Type :=
| PNone
| PBool (b : bool)
| PInt (z : Z)
| PStr (s : string)
| PList (l : list pyval)
| PDict (d : list (string * pyval)).

(** The two exceptions of the operations below: [.get] on a value that
    is no dictionary, and iteration over a value that cannot be iterated
    or [str.join] over an item that is no string. *)
Inductive pyerr : Type := AttributeError | TypeError.

Inductive Result (A : Type) : Type :=
| Done (a : A)
| Err (e : pyerr).
Arguments Done {A} a.
Arguments Err {A} e.

Definition and_then {A B} (r : Result A) (k : A -> Result B) : Result B :=
  match r with Done a => k a | Err e => Err e end.

(** [for x in l: ...] with a body that may raise. *)
Fixpoint traverse {A B} (f : A -> Result B) (l : list A) : Result (list B) :=
  match l with
  | [] => Done []
  | x :: l' =>
      and_then (f x) (fun y =>
      and_then (traverse f l') (fun ys => Done (y :: ys)))
  end.

(** [if v:] *)
Definition truthy (v : pyval) : bool :=
  match v with
  | PNone => false
  | PBool b => b
  | PInt z => negb (z =? 0)
  | PStr s => PyStr.truthy s
  | PList [] => false
  | PList _ => true
  | PDict [] => false
  | PDict _ => true
  end.

Fixpoint lookup (k : string) (d : list (string * pyval)) : option pyval :=
  match d with
  | [] => None
  | (k', v) :: d' => if String.eqb k k' then Some v else lookup k d'
  end.

(** [d.get(k, dflt)] on a dictionary [d]. *)
Definition dict_get (d : list (string * pyval)) (k : string) (dflt : pyval)
  : pyval :=
  match lookup k d with Some v => v | None => dflt end.

(** [v.get(k, dflt)] on any value. *)
Definition get (v : pyval) (k : string) (dflt : pyval) : Result pyval :=
  match v with
  | PDict d => Done (dict_get d k dflt)
  | _ => Err AttributeError
  end.

(** The items of [for x in v]: the elements of a list, the keys of a
    dictionary, the characters of a string. *)
Definition iter (v : pyval) : Result (list pyval) :=
  match v with
  | PList l => Done l
  | PDict d => Done (List.map (fun kv => PStr (fst kv)) d)
  | PStr s =>
      Done (List.map (fun c => PStr (String c EmptyString))
                     (list_ascii_of_string s))
  | _ => Err TypeError
  end.

Definition as_str (v : pyval) : Result string :=
  match v with PStr s => Done s | _ => Err TypeError end.

(** [sep.join(v)] *)
Definition join (sep : string) (v : pyval) : Result string :=
  and_then (iter v) (fun items =>
  and_then (traverse as_str items) (fun strs =>
  Done (String.concat sep strs))).

(** *** [extract_forms] *)

(** An element of the tree BeautifulSoup builds: its name, its
    attributes and its child elements.  Text nodes are left out, since
    [extract_forms] reads none. *)
#[warnings="-register-all"]
Inductive tag : Type :=
| Tag (name : string) (attrs : list (string * pyval)) (children : list tag).

Definition tag_name (t : tag) : string :=
  match t with Tag name _ _ => name end.
Definition tag_attrs (t : tag) : list (string * pyval) :=
  match t with Tag _ attrs _ => attrs end.

(** The elements below [t], in document order. *)
Fixpoint descendants (t : tag) : list tag :=
  match t with
  | Tag _ _ children =>
      List.flat_map (fun c => c :: descendants c) children
  end.

(** [t.find_all(names)] *)
Definition find_all (names : list string) (t : tag) : list tag :=
  List.filter (fun d => existsb (String.eqb (tag_name d)) names)
              (descendants t).

(** The dictionary made for one [input], [select] or [textarea]. *)
Definition control_dict (inp : tag) : pyval :=
  let attrs := tag_attrs inp in
  let input_type :=
    if String.eqb (tag_name inp) "input"
    then dict_get attrs "type" (PStr "text")
    else PStr (tag_name inp) in
  PDict [("tag", PStr (tag_name inp));
         ("type", input_type);
         ("name", dict_get attrs "name" PNone);
         ("id", dict_get attrs "id" PNone);
         ("attrs", PDict attrs)].

(** The dictionary made for one [form]. *)
Definition form_dict (f : tag) : pyval :=
  let inputs :=
    List.map control_dict (find_all ["input"; "select"; "textarea"] f) in
  PDict [("action", dict_get (tag_attrs f) "action" PNone);
         ("method", dict_get (tag_attrs f) "method" PNone);
         ("inputs", PList inputs)].

Section Parser.
(** [BeautifulSoup(html, "html.parser")]: the document as the element
    that holds the top-level elements, or [None] when it raises. *)
Variable soup_of : string -> option tag.

Definition extract_forms (html_or_text : string) : list pyval :=
  match soup_of html_or_text with
  | Some soup => List.map form_dict (find_all ["form"] soup)
  | None => []
  end.

(** The entry [extract_form_fields_node] adds to [forms]. *)
Definition forms_entry (llm_resp : pyval) (html : string) : pyval :=
  PDict [("form_llm", llm_resp);
         ("parsed_forms", PList (extract_forms html))].

End Parser.

(** *** [save_form_fields_csv] *)

(** The row appended for one [field]. *)
Definition field_row (field : pyval) : Result (list pyval) :=
  and_then (get field "name" PNone) (fun name0 =>
  and_then (if truthy name0 then Done name0
            else and_then (get field "label" PNone) (fun label =>
                 Done (if truthy label then label else PStr "unknown")))
           (fun name =>
  and_then (get field "type" (PStr "unknown")) (fun ftype =>
  and_then (get field "options" (PList [])) (fun options =>
  and_then (if truthy options then join ", " options else Done "N/A")
           (fun options_str =>
  Done [name; ftype; PStr options_str]))))).

(** The rows of one [form]. *)
Definition form_rows (form : pyval) : Result (list (list pyval)) :=
  and_then (get form "parsed_forms" (PList [])) (fun fields =>
  and_then (iter fields) (fun items => traverse field_row items)).

(** [rows] after the two loops. *)
Definition field_rows (forms_data : pyval) : Result (list (list pyval)) :=
  and_then (iter forms_data) (fun forms =>
  and_then (traverse form_rows forms) (fun rss => Done (List.concat rss))).

(** What is handed to the CSV writer: the header, then the rows. *)
Definition save_form_fields_csv (forms_data : pyval)
  : Result (list (list pyval)) :=
  and_then (field_rows forms_data) (fun rows =>
  Done ([PStr "field_name"; PStr "type"; PStr "options"] :: rows)).

(** The row of a field without name, label, type and options. *)
Definition unknown_row : list pyval :=
  [PStr "unknown"; PStr "unknown"; PStr "N/A"].

(** A small page: one form with two inputs and a select. *)
Definition loan_form : tag :=
  Tag "form" [("action", PStr "/apply"); ("method", PStr "post")]
    [ Tag "input" [("type", PStr "email"); ("name", PStr "email")] [];
      Tag "div" []
        [ Tag "input" [("name", PStr "amount")] [];
          Tag "select" [("name", PStr "term")]
            [ Tag "option" [("value", PStr "12")] [] ] ] ].

Definition loan_page : tag :=
  Tag "[document]" [] [ Tag "html" [] [ Tag "body" [] [ loan_form ] ] ].

End Forms.

(** ** The nodes that call [_try_selectors]

    [landing_page_node] and [intermediate_page_node] (without a human in
    the loop) ask the LLM for candidates, hand them to [_try_selectors]
    with the [state] they were given, and close the browser of the
    outcome.  What a node reads from [state] beside the keys of
    [GraphState] is an argument; an absent [url] is the empty string,
    which [_try_selectors] treats alike. *)

Module Nodes.

(** The entry of [_new_actions] in the dictionary a node returns. *)
Inductive Action : Type :=
| FoundLoanApplication (selector_used : string)
| LoanApplicationNotFound (candidates : list dict)
| IntermediateOptionSelected (selector_used : string)
| NoOptionSelected.

(** The dictionary a node returns; [None] is a key left out. *)
Record Update : Type := mkUpdate {
  upd_url : option string;
  upd_html : option string;
  upd_snippet : option string;
  upd_action : Action;
  upd_intermediate_visits : option Z;
  upd_current_url : option string
}.

(** [browser.launch()] went through. *)
Definition is_launched (e : Event) : bool :=
  match e with EvLaunch true => true | _ => false end.

Section Nodes.
Context (env : Env).

(** [html_to_text] *)
Variable html_to_text : string -> string.

(** The list under [loan_application_buttons] in the answer of
    [groq.find_loan_application_nav(snippet)], and the list under
    [options] in the answer of [groq.analyze_intermediate_options(snippet)];
    the empty list when the key is missing. *)
Variable loan_application_buttons :
  string -> World env -> Res (list dict) * World env.
Variable intermediate_options :
  string -> World env -> Res (list dict) * World env.

(** [try: await nav_result["browser"].close() except Exception: pass] *)
Definition close_quietly (br : Browser env) : M env unit :=
  try_except env
    (call env (close env br) (fun r => EvClose (is_ok r)))
    (fun _ => ret env tt).

(** [state_url] and [state_snippet] are [state.get("url")] and
    [state.get("snippet", "")]. *)
Definition landing_page_node (state_url state_snippet : string)
  : M env Update :=
  bind env
    (call env (loan_application_buttons state_snippet)
          (fun r => EvLLM state_snippet (is_ok r)))
    (fun nav_buttons =>
  bind env (_try_selectors env state_url nav_buttons) (fun nav_result =>
  match nav_result with
  | Some o =>
      bind env (close_quietly (browser o)) (fun _ =>
      ret env
        (mkUpdate (Some (url o)) (Some (html o))
                  (Some (substring 0 4000 (html_to_text (html o))))
                  (FoundLoanApplication (selector o)) None None))
  | None =>
      ret env
        (mkUpdate None None None (LoanApplicationNotFound nav_buttons)
                  None None)
  end)).

(** [state.get("current_url") or state.get("url")] *)
Definition current_or_url (gs : GraphState) (state_url : string) : string :=
  match current_url gs with
  | Some u => if PyStr.truthy u then u else state_url
  | None => state_url
  end.

(** The node with [self.human_in_loop] false; [visits] is
    [state.get("intermediate_visits", 0)]. *)
Definition intermediate_page_node (state_url state_snippet : string)
    (visits : Z) : M env Update :=
  let intermediate_visits := visits + 1 in
  bind env
    (call env (intermediate_options state_snippet)
          (fun r => EvLLM state_snippet (is_ok r)))
    (fun options =>
  bind env (fun st => _try_selectors env
                        (current_or_url (state st) state_url) options st)
       (fun nav_result =>
  match nav_result with
  | Some o =>
      bind env (close_quietly (browser o)) (fun _ =>
      ret env
        (mkUpdate (Some (url o)) (Some (html o))
                  (Some (substring 0 4000 (html_to_text (html o))))
                  (IntermediateOptionSelected (selector o))
                  (Some intermediate_visits) (Some (url o))))
  | None =>
      ret env
        (mkUpdate None None None NoOptionSelected
                  (Some intermediate_visits) None)
  end)).

End Nodes.

(** The LLM names the candidates of the example site. *)
Definition toy_buttons (site : Toy.Site) (snippet : string)
    (w : World (Toy.env site)) : Res (list dict) * World (Toy.env site) :=
  (Ok Toy.candidates, w).

End Nodes.

(** ** Classification and the edge that follows it *)

Module Graph.
Import Forms.

(** [v == s] for a string [s]. *)
Definition eq_str (v : pyval) (s : string) : bool :=
  match v with PStr t => String.eqb t s | _ => false end.

(** The value [classify_page_node] returns under [classification], for
    the answer [llm_result] of the LLM. *)
Definition classification (llm_result : list (string * pyval)) : pyval :=
  let page_type := dict_get llm_result "page_type" PNone in
  if negb (existsb (eq_str page_type) ["intermediate"; "form"])
  then PStr "intermediate"
  else page_type.

(** [v >= 2]; a boolean counts as 0 or 1, and a value that is no number
    cannot be compared. *)
Definition at_least_two (v : pyval) : Result bool :=
  match v with
  | PInt z => Done (2 <=? z)
  | PBool _ => Done false
  | _ => Err TypeError
  end.

(** The conditional edge after [classify_page_node]. *)
Definition after_classify (state : list (string * pyval)) : Result string :=
  and_then (at_least_two (dict_get state "intermediate_visits" (PInt 0)))
    (fun enough =>
  Done (if enough then "end_node"
        else if eq_str (dict_get state "classification" PNone) "intermediate"
             then "intermediate_page_node"
             else "extract_form_fields_node")).

End Graph.

(** * Properties *)

(** ** The ranker *)

Module RankerFacts.
Import PyStr SelectorManager RankerExamples.

(** The accumulation of [score] over arbitrary test results, against the
    sum of the deltas of the tests that hold. *)
Lemma accumulate_deltas
    (is_id test_id form aria role data clickable one_dot many_dots nth
       has_text exact substring long deep_xpath deep_css : bool) :
  (one_dot = true -> many_dots = false) ->
  (let s := 0 in
   let s := if is_id then s + 100 else s in
   let s := if test_id then s + 90 else s in
   let s := if form then s + 80 else s in
   let s := if aria then s + 70 else s in
   let s := if role then s + 65 else s in
   let s := if data then s + 60 else s in
   let s := if has_text && clickable then s + 55 else s in
   let s := if one_dot then s + 50 else if many_dots then s + 40 else s in
   let s := if nth then s + 30 else s in
   let s := if has_text && exact then s + 45
            else if has_text && substring then s + 35 else s in
   let s := if long then s - 20 else s in
   let s := if deep_xpath then s - 15 else s in
   let s := if deep_css then s - 15 else s in
   s)
  = (if is_id then 100 else 0) + ((if test_id then 90 else 0)
    + ((if form then 80 else 0) + ((if aria then 70 else 0)
    + ((if role then 65 else 0) + ((if data then 60 else 0)
    + ((if has_text && clickable then 55 else 0)
    + ((if one_dot then 50 else 0) + ((if many_dots then 40 else 0)
    + ((if nth then 30 else 0) + ((if has_text && exact then 45 else 0)
    + ((if has_text && negb (has_text && exact) && substring then 35 else 0)
    + ((if long then -20 else 0) + ((if deep_xpath then -15 else 0)
    + ((if deep_css then -15 else 0) + 0)))))))))))))).
Proof.
  intros Excl. cbv zeta.
  destruct one_dot; [rewrite (Excl eq_refl)|];
    destruct has_text, exact, substring; cbn [andb negb];
    repeat match goal with
      | |- context [if ?b then ?s + ?d else ?s] =>
          replace (if b then s + d else s) with (s + (if b then d else 0))
            by (destruct b; lia)
      | |- context [if ?b then ?s - ?d else ?s] =>
          replace (if b then s - d else s) with (s + (if b then - d else 0))
            by (destruct b; lia)
      end;
    change (- (20)) with (-20); change (- (15)) with (-15); lia.
Qed.

Lemma one_dot_not_many (n : Z) : (n =? 1) = true -> (n >? 1) = false.
Proof. rewrite Z.eqb_eq. intros ->. reflexivity. Qed.

(** C1, as amended: the score of a candidate is the sum, starting at 0, of
    the deltas of all matching signals of the table [code_signals]: +100
    when the selector begins with '#' after white space is stripped, +90
    when it contains data-testid or data-test, +80 for name= or for=, +70
    for aria-label, +65 for [role=, +60 for data-, +55 for a candidate
    with text whose selector mentions button, a[ or link, +50 for one '.',
    +40 for more than one, +30 for nth-child or nth-of-type, +45 for the
    exact text predicate of the candidate's text, +35 for contains(text()
    only when the candidate has text and the exact predicate did not
    match, -20 above 150 characters, -15 above 5 '/', -15 above 3 ' > '. *)
Theorem score_is_code_table (cand : dict) :
  score cand = table_score code_signals cand.
Proof.
  pose (sel := Dict.get_default "selector" EmptyString cand).
  pose (text := Dict.get_default "text" EmptyString cand).
  exact (accumulate_deltas
           (startswith "#" (strip sel))
           (contains "data-testid" sel || contains "data-test" sel)
           (contains "name=" sel || contains "for=" sel)
           (contains "aria-label" sel)
           (contains "[role=" sel)
           (contains "data-" sel)
           (mentions_clickable sel)
           (count "." sel =? 1)
           (count "." sel >? 1)
           (contains "nth-child" sel || contains "nth-of-type" sel)
           (truthy text)
           (contains ("text()=" ++ dq ++ text ++ dq) sel)
           (contains "contains(text()" sel)
           (len sel >? 150)
           (count "/" sel >? 5)
           (count " > " sel >? 3)
           (one_dot_not_many (count "." sel))).
Qed.

(** C1, as stated, fails: a data-qa selector scores 60 and not 150; a
    selector with both text predicates scores 100 and not 135; a selector
    with white space before '#' scores 100 and not 0; a contains(text()
    selector of a candidate without text scores 0 and not 35. *)
Lemma score_differs_from_spec_table :
  (score cand_data_qa = 60 /\ table_score spec_signals cand_data_qa = 150)
  /\ (score cand_both_text = 100
      /\ table_score spec_signals cand_both_text = 135)
  /\ (score cand_padded_id = 100
      /\ table_score spec_signals cand_padded_id = 0)
  /\ (score cand_no_text = 0 /\ table_score spec_signals cand_no_text = 35).
Proof. vm_compute. repeat split. Qed.

(** *** Sorting *)

Section SortedFacts.
Context {A : Type} (key : A -> Z).

Lemma insert_by_perm (x : A) (l : list A) : insert_by key x l ≡ₚ x :: l.
Proof.
  induction l as [|y l IH]; cbn; [done|].
  destruct (key x <=? key y); [done|].
  rewrite IH. apply Permutation_swap.
Qed.

Lemma sorted_perm (l : list A) : sorted key l ≡ₚ l.
Proof.
  induction l as [|x l IH]; cbn; [done|].
  by rewrite insert_by_perm, IH.
Qed.

Lemma insert_by_ascending (x : A) (l : list A) :
  ascending key l -> ascending key (insert_by key x l).
Proof.
  unfold ascending. induction 1 as [|y l Hs IH Hy]; cbn.
  - repeat constructor.
  - destruct (key x <=? key y) eqn:Le.
    + apply Z.leb_le in Le. constructor; [by constructor|].
      constructor; [done|].
      eapply Forall_impl; [exact Hy|]. cbn. intros; lia.
    + apply Z.leb_gt in Le. constructor; [done|].
      rewrite insert_by_perm. constructor; [lia|done].
Qed.

Lemma sorted_ascending (l : list A) : ascending key (sorted key l).
Proof.
  induction l as [|x l IH]; cbn; [constructor|].
  by apply insert_by_ascending.
Qed.

Lemma insert_by_filter (k : Z) (x : A) (l : list A) :
  List.filter (fun c => key c =? k) (insert_by key x l)
  = List.filter (fun c => key c =? k) (x :: l).
Proof.
  induction l as [|y l IH]; [done|].
  cbn [insert_by]. destruct (key x <=? key y) eqn:Le; [done|].
  apply Z.leb_gt in Le.
  cbn [List.filter] in *. rewrite IH.
  destruct (key y =? k) eqn:Ey, (key x =? k) eqn:Ex; try done.
  apply Z.eqb_eq in Ey, Ex. lia.
Qed.

Lemma sorted_filter (k : Z) (l : list A) :
  List.filter (fun c => key c =? k) (sorted key l)
  = List.filter (fun c => key c =? k) l.
Proof.
  induction l as [|x l IH]; [done|].
  cbn [sorted]. rewrite insert_by_filter. cbn [List.filter].
  by rewrite IH.
Qed.

(** Two ascending lists with the same elements of every key, in the
    same order, are the same list. *)
Lemma ascending_same_filters (l1 l2 : list A) :
  ascending key l1 -> ascending key l2 ->
  (forall k, List.filter (fun c => key c =? k) l1
             = List.filter (fun c => key c =? k) l2) ->
  l1 = l2.
Proof.
  unfold ascending. intros H1. revert l2.
  induction H1 as [|a l1 Hs1 IH Ha]; intros l2 H2 Hf.
  - destruct l2 as [|b l2]; [done|].
    specialize (Hf (key b)). cbn in Hf. by rewrite Z.eqb_refl in Hf.
  - destruct H2 as [|b l2 Hs2 Hb].
    { specialize (Hf (key a)). cbn in Hf. by rewrite Z.eqb_refl in Hf. }
    assert (In a (b :: l2)) as Ina.
    { pose proof (Hf (key a)) as E. cbn [List.filter] in E.
      rewrite Z.eqb_refl in E.
      assert (In a (List.filter (fun c => key c =? key a) (b :: l2))) as I
        by (cbn [List.filter]; rewrite <- E; left; done).
      apply filter_In in I. tauto. }
    assert (In b (a :: l1)) as Inb.
    { pose proof (Hf (key b)) as E. cbn [List.filter] in E.
      rewrite (Z.eqb_refl (key b)) in E.
      assert (In b (List.filter (fun c => key c =? key b) (a :: l1))) as I
        by (cbn [List.filter]; rewrite E; left; done).
      apply filter_In in I. tauto. }
    assert (key a = key b) as Eab.
    { apply Z.le_antisymm.
      - destruct Inb as [->|Inb]; [lia|].
        rewrite List.Forall_forall in Ha. by apply Ha.
      - destruct Ina as [->|Ina]; [lia|].
        rewrite List.Forall_forall in Hb. by apply Hb. }
    pose proof (Hf (key a)) as E. cbn [List.filter] in E.
    rewrite Z.eqb_refl in E.
    replace (key b =? key a) with true in E
      by (symmetry; apply Z.eqb_eq; lia).
    injection E as -> E.
    f_equal. apply IH; [done|]. intros k.
    specialize (Hf k). cbn [List.filter] in Hf.
    destruct (key b =? k); [by injection Hf|done].
Qed.
End SortedFacts.

Lemma descending_ascending (l : list dict) :
  descending l <-> ascending (fun c => - score c) l.
Proof.
  unfold descending, ascending. split.
  - induction l as [|a l IH]; intros H; constructor.
    + apply IH. intros i j x y Hij Hi Hj.
      apply (H (S i) (S j)); [lia|done..].
    + apply List.Forall_forall. intros b Hb.
      apply list_elem_of_In, list_elem_of_lookup in Hb as [j Hj].
      specialize (H O (S j) a b). cbn in H.
      assert (score b <= score a) by (apply H; [lia|done..]). lia.
  - induction 1 as [|a l Hs IH Ha]; intros i j x y Hij Hi Hj.
    + done.
    + destruct j as [|j]; [lia|]. cbn in Hj.
      destruct i as [|i]; cbn in Hi.
      * injection Hi as ->. rewrite List.Forall_forall in Ha.
        assert (- score x <= - score y); [|lia].
        apply Ha. apply list_elem_of_In. by eapply list_elem_of_lookup_2.
      * apply (IH i j); [lia|done..].
Qed.

Lemma filter_neg_key (k : Z) (l : list dict) :
  List.filter (fun c => - score c =? k) l
  = List.filter (fun c => score c =? - k) l.
Proof.
  apply List.filter_ext. intros c.
  destruct (- score c =? k) eqn:E1, (score c =? - k) eqn:E2; try done;
    rewrite ?Z.eqb_eq, ?Z.eqb_neq in *; lia.
Qed.

(** C2: for every list of candidates, [rank_selectors] returns a
    rearrangement of it in which scores never increase (a candidate of
    higher score comes first) and candidates of equal score keep their
    input order; and it is the only list with these properties, so that
    the output order is fixed by the input. *)
Theorem rank_selectors_stable_descending (candidates : list dict) :
  rank_selectors candidates ≡ₚ candidates
  /\ descending (rank_selectors candidates)
  /\ keeps_tie_order candidates (rank_selectors candidates)
  /\ (forall out : list dict,
        descending out -> keeps_tie_order candidates out ->
        out = rank_selectors candidates).
Proof.
  unfold rank_selectors. repeat split.
  - apply sorted_perm.
  - apply descending_ascending, sorted_ascending.
  - intros k. replace k with (- - k) by lia.
    rewrite <- !filter_neg_key. apply sorted_filter.
  - intros out Hd Hk.
    apply (ascending_same_filters (fun c => - score c)).
    + by apply descending_ascending.
    + apply sorted_ascending.
    + intros k. rewrite sorted_filter, !filter_neg_key. apply Hk.
Qed.

(** The ranking scenario of the specification: the ID selector first,
    the data attribute second, the anchor with two classes last. *)
Example rank_selectors_scenario :
  rank_selectors
    [ [("selector", "button[data-action='apply']")];
      [("selector", "#apply-now")];
      [("selector", "a.apply-now-btn.some-long-class-names")] ]
  = [ [("selector", "#apply-now")];
      [("selector", "button[data-action='apply']")];
      [("selector", "a.apply-now-btn.some-long-class-names")] ]
  /\ List.map score
       [ [("selector", "#apply-now")];
         [("selector", "button[data-action='apply']")];
         [("selector", "a.apply-now-btn.some-long-class-names")] ]
     = [100; 60; 40].
Proof. split; vm_compute; reflexivity. Qed.

(** *** [generate_selector_from_attrs] *)

Lemma startswith_refl_app (p s : string) : startswith p (p ++ s) = true.
Proof.
  induction p as [|c p IH]; [done|].
  change (String c p ++ s) with (String c (p ++ s)).
  cbn [startswith]. by rewrite Ascii.eqb_refl.
Qed.

Lemma first_data_key_find (attrs : dict) :
  match List.find (fun kv => startswith "data-" (fst kv)) attrs with
  | Some (k, v) =>
      first_data_key attrs = Some k /\ dict_index k attrs = Ok v
  | None => first_data_key attrs = None
  end.
Proof.
  induction attrs as [|[k' v'] rest IH]; [done|].
  cbn [List.find first_data_key fst].
  destruct (startswith "data-" k') eqn:Hk.
  - split; [done|]. unfold dict_index. cbn. by rewrite String.eqb_refl.
  - destruct (List.find _ rest) as [[k v]|]; [|done].
    destruct IH as [IH1 IH2]. split; [done|].
    unfold dict_index in *. cbn.
    destruct (String.eqb k k') eqn:E; [|done].
    apply String.eqb_eq in E. subst k'.
    assert (startswith "data-" k = true) as Hd; [|congruence].
    clear -IH1. induction rest as [|[k2 v2] rest IHr]; [done|].
    cbn [first_data_key] in IH1.
    destruct (startswith "data-" k2) eqn:E2; [congruence|auto].
Qed.

(** What holds of C10: [generate_selector_from_attrs] returns the
    selector chosen by the priority of [selector_by_priority], which
    starts with the tag, and raises [IndexError] exactly when that
    priority reaches a class attribute without a token. *)
Lemma generate_selector_priority (tag : string) (attrs : dict) :
  generate_selector_from_attrs tag attrs
  = match selector_by_priority tag attrs with
    | Some s => Ok s
    | None => Raise IndexError
    end
  /\ (forall s, selector_by_priority tag attrs = Some s ->
                startswith tag s = true).
Proof.
  unfold generate_selector_from_attrs, selector_by_priority, Dict.mem.
  pose proof (first_data_key_find attrs) as Hf.
  destruct (Dict.get "id" attrs) as [v|] eqn:Eid.
  { unfold dict_index. rewrite Eid. split; [done|].
    intros s [= <-]. apply startswith_refl_app. }
  destruct (List.find _ attrs) as [[k v]|].
  { destruct Hf as [-> ->]. split; [done|].
    intros s [= <-]. apply startswith_refl_app. }
  rewrite Hf.
  destruct (Dict.get "aria-label" attrs) as [v|] eqn:Earia.
  { unfold dict_index. rewrite Earia. split; [done|].
    intros s [= <-]. apply startswith_refl_app. }
  destruct (Dict.get "name" attrs) as [v|] eqn:Ename.
  { unfold dict_index. rewrite Ename. split; [done|].
    intros s [= <-]. apply startswith_refl_app. }
  destruct (Dict.get "class" attrs) as [c|] eqn:Eclass.
  { unfold dict_index. rewrite Eclass.
    destruct (split_first c) as [cls|]; (split; [done|]); [|done].
    intros s [= <-]. apply startswith_refl_app. }
  destruct attrs as [|[k v] rest]; (split; [done|]); intros s [= <-].
  - clear. induction tag as [|c t IH]; [done|].
    cbn [startswith]. by rewrite Ascii.eqb_refl.
  - apply startswith_refl_app.
Qed.

(** C10 at an element with an empty class attribute, and at one with a
    blank class attribute and a title: the code raises [IndexError] (from
    [attrs["class"].split()[0]]) instead of returning a selector string. *)
Theorem generate_selector_empty_class_raises :
  generate_selector_from_attrs "div" [("class", EmptyString)]
  = Raise IndexError
  /\ generate_selector_from_attrs "div" [("class", "  "); ("title", "x")]
     = Raise IndexError.
Proof. split; reflexivity. Qed.

End RankerFacts.

(** ** Selector synthesis *)

Module SynthesisFacts.
Import PyStr Synthesis.

Lemma selectors_of_text_selectors (text : string) :
  List.map (Dict.get "selector") (text_selectors text)
  = List.map Some
      [ xpath_button_contains text; xpath_a_contains text;
        xpath_input_value text; xpath_exact text;
        css_a_has_text text; css_button_has_text text;
        css_role_button_has_text text;
        xpath_contains text; xpath_normalize_space text; css_title text ].
Proof. reflexivity. Qed.

(** C8: for a candidate with a non-empty text, whatever its other fields
    and whatever the LLM helper returned, the synthesized list contains
    the selectors written out below, with the text between double quotes
    (character 34): the exact-text, contains-text and normalize-space
    XPaths, the XPaths scoped to button, a and input[@value=], and the
    has-text selectors for a, button and [role="button"].  A candidate
    with a text and nothing else yields exactly the LLM selectors
    followed by the ten text selectors in the order of the source, each
    paired with the text; a candidate with a selector and nothing else
    yields that selector alone, and a candidate with no field at all
    yields the empty list: a missing field removes selectors and nothing
    fails. *)
Theorem synthesis_text_variants (llm : list dict) (s : dict) (text : string) :
  Dict.get "text" s = Some text ->
  text <> EmptyString ->
  let q := String "034"%char EmptyString in
  Forall (fun sel =>
            In (Some sel)
               (List.map (Dict.get "selector") (element_selectors llm s)))
         [ "//*[text()=" ++ q ++ text ++ q ++ "]";
           "//*[contains(text()," ++ q ++ text ++ q ++ ")]";
           "//*[normalize-space()=" ++ q ++ text ++ q ++ "]";
           "//button[contains(text()," ++ q ++ text ++ q ++ ")]";
           "//a[contains(text()," ++ q ++ text ++ q ++ ")]";
           "//input[@value=" ++ q ++ text ++ q ++ "]";
           "a:has-text(" ++ q ++ text ++ q ++ ")";
           "button:has-text(" ++ q ++ text ++ q ++ ")";
           "[role=" ++ q ++ "button" ++ q ++ "]:has-text("
             ++ q ++ text ++ q ++ ")" ]
  /\ element_selectors llm [("text", text)]
     = app llm
         (List.map (fun sel => [("selector", sel); ("text", text)])
             [ "//button[contains(text()," ++ q ++ text ++ q ++ ")]";
               "//a[contains(text()," ++ q ++ text ++ q ++ ")]";
               "//input[@value=" ++ q ++ text ++ q ++ "]";
               "//*[text()=" ++ q ++ text ++ q ++ "]";
               "a:has-text(" ++ q ++ text ++ q ++ ")";
               "button:has-text(" ++ q ++ text ++ q ++ ")";
               "[role=" ++ q ++ "button" ++ q ++ "]:has-text("
                 ++ q ++ text ++ q ++ ")";
               "//*[contains(text()," ++ q ++ text ++ q ++ ")]";
               "//*[normalize-space()=" ++ q ++ text ++ q ++ "]";
               "[title=" ++ q ++ text ++ q ++ "]" ])
  /\ (forall b, b <> EmptyString ->
       element_selectors llm [("selector", b)]
       = [[("selector", b); ("text", EmptyString)]])
  /\ element_selectors llm [] = [].
Proof.
  intros Ht Hne. cbv zeta.
  assert (truthy text = true) as Tr by (destruct text; [done|reflexivity]).
  split; [|split; [|split]].
  - unfold element_selectors, Dict.get_default. rewrite Ht, Tr.
    rewrite !List.map_app, selectors_of_text_selectors.
    repeat constructor;
      apply in_or_app; right; apply in_or_app; right;
      apply in_or_app; left; cbn; tauto.
  - unfold element_selectors, Dict.get_default. cbn. rewrite Tr. cbn.
    reflexivity.
  - intros b Hb. unfold element_selectors, Dict.get_default. cbn.
    destruct b; [done|reflexivity].
  - reflexivity.
Qed.

(** C8 at the candidate with only the text "Apply Now", for which the
    LLM helper returned nothing: the list holds the ten text selectors,
    among them the nine of the claim. *)
Lemma synthesis_text_variants_witness :
  let q := String "034"%char EmptyString in
  Forall (fun sel =>
            In (Some sel)
               (List.map (Dict.get "selector")
                         (element_selectors [] [("text", "Apply Now")])))
         [ "//*[text()=" ++ q ++ "Apply Now" ++ q ++ "]";
           "//*[contains(text()," ++ q ++ "Apply Now" ++ q ++ ")]";
           "//*[normalize-space()=" ++ q ++ "Apply Now" ++ q ++ "]";
           "//button[contains(text()," ++ q ++ "Apply Now" ++ q ++ ")]";
           "//a[contains(text()," ++ q ++ "Apply Now" ++ q ++ ")]";
           "//input[@value=" ++ q ++ "Apply Now" ++ q ++ "]";
           "a:has-text(" ++ q ++ "Apply Now" ++ q ++ ")";
           "button:has-text(" ++ q ++ "Apply Now" ++ q ++ ")";
           "[role=" ++ q ++ "button" ++ q ++ "]:has-text("
             ++ q ++ "Apply Now" ++ q ++ ")" ]
  /\ length (element_selectors [] [("text", "Apply Now")]) = 10%nat
  /\ String.length ("//*[text()=" ++ q ++ "Apply Now" ++ q ++ "]") = 23%nat.
Proof.
  cbv zeta.
  split; [|split; reflexivity].
  apply (synthesis_text_variants [] [("text", "Apply Now")] "Apply Now").
  - reflexivity.
  - discriminate.
Defined.

End SynthesisFacts.

(** ** The resolver *)

Module ResolverFacts.
Import PyStr Runs.

Lemma filter_all_clicked (clicked : gset string) (selectors : list dict) :
  Forall (fun s => exists sel,
            Dict.get "selector" s = Some sel /\ sel ∈ clicked) selectors ->
  List.filter (not_clicked clicked) selectors = [].
Proof.
  induction 1 as [|s l (sel & Hs & Hin) _ IH]; [done|].
  cbn. unfold not_clicked at 1. rewrite Hs.
  by rewrite bool_decide_eq_true_2.
Qed.

(** C3: when the URL is empty, or the candidate list is empty, or every
    candidate has a selector string that is already in the set of clicked
    selectors, the call returns [None], changes nothing and causes no
    event: no browser is started and no page is loaded. *)
Theorem no_outcome_without_page_load
    (env : Env) (target : string) (selectors : list dict) (st : St env) :
  target = EmptyString
  \/ selectors = []
  \/ Forall (fun s => exists sel,
               Dict.get "selector" s = Some sel /\ sel ∈ clicked_at st)
            selectors ->
  _try_selectors env target selectors st = (Ok None, st, []).
Proof.
  intros [-> | [-> | Hall]]; unfold _try_selectors.
  - reflexivity.
  - by rewrite orb_true_r.
  - destruct (negb (truthy target) || is_nil selectors); [done|].
    fold (clicked_at st). by rewrite filter_all_clicked.
Qed.

(** C3 on the site of the example: an empty URL, an empty candidate list,
    and a single candidate that was already clicked. *)
Lemma no_outcome_without_page_load_witness :
  _try_selectors (Toy.env Toy.site) EmptyString Toy.candidates
                 (Toy.start Toy.site Toy.fresh)
  = (Ok None, Toy.start Toy.site Toy.fresh, [])
  /\ _try_selectors (Toy.env Toy.site) Toy.home []
                    (Toy.start Toy.site Toy.fresh)
     = (Ok None, Toy.start Toy.site Toy.fresh, [])
  /\ _try_selectors (Toy.env Toy.site) Toy.home
       [[("selector", Toy.apply_xpath)]]
       (Toy.start Toy.site (mkGraphState (Some [Toy.apply_xpath]) None None))
     = (Ok None,
        Toy.start Toy.site (mkGraphState (Some [Toy.apply_xpath]) None None),
        []).
Proof.
  split; [|split]; apply no_outcome_without_page_load.
  - left. reflexivity.
  - right; left. reflexivity.
  - right; right. constructor; [|constructor].
    exists Toy.apply_xpath. split; [reflexivity|].
    unfold clicked_at. cbn. set_solver.
Defined.

End ResolverFacts.

Module ResolverTraces.
Import PyStr Runs ResolverFacts.

Local Arguments leads_to_visited : simpl never.
Local Arguments String.eqb : simpl never.

Section Runs.
Context {env : Env}.
Implicit Types (st : St env) (Q : Event -> Prop).

Lemma emits_ret {A} Q (a : A) : emits Q (ret env a).
Proof. intros st. constructor. Qed.

Lemma emits_bind {A B} Q (m : M env A) (k : A -> M env B) :
  emits Q m -> (forall a, emits Q (k a)) -> emits Q (bind env m k).
Proof.
  intros Hm Hk st. unfold bind. specialize (Hm st).
  destruct (m st) as [[[a|e] st1] ev1]; [|done].
  specialize (Hk a st1). destruct (k a st1) as [[r st2] ev2].
  cbn in *. by apply Forall_app.
Qed.

Lemma emits_try_except {A} Q (m : M env A) (h : exn -> M env A) :
  emits Q m -> (forall e, emits Q (h e)) -> emits Q (try_except env m h).
Proof.
  intros Hm Hh st. unfold try_except. specialize (Hm st).
  destruct (m st) as [[[a|e] st1] ev1]; [done|].
  specialize (Hh e st1). destruct (h e st1) as [[r st2] ev2].
  cbn in *. by apply Forall_app.
Qed.

Lemma emits_call {A} Q (op : World env -> Res A * World env)
    (ev : Res A -> Event) :
  (forall r, Q (ev r)) -> emits Q (call env op ev).
Proof.
  intros H st. unfold call. destruct (op (world st)) as [r w].
  cbn. by repeat constructor.
Qed.

Lemma emits_impl {A} Q Q' (m : M env A) :
  (forall e, Q e -> Q' e) -> emits Q m -> emits Q' m.
Proof. intros H Hm st. eapply Forall_impl; [apply Hm|done]. Qed.

Lemma keeps_ret {A} (a : A) : keeps_state (ret env a).
Proof. done. Qed.

Lemma keeps_bind {A B} (m : M env A) (k : A -> M env B) :
  keeps_state m -> (forall a, keeps_state (k a)) ->
  keeps_state (bind env m k).
Proof.
  intros Hm Hk st. unfold bind. specialize (Hm st).
  destruct (m st) as [[[a|e] st1] ev1]; [|done].
  specialize (Hk a st1). destruct (k a st1) as [[r st2] ev2].
  cbn in *. congruence.
Qed.

Lemma keeps_try_except {A} (m : M env A) (h : exn -> M env A) :
  keeps_state m -> (forall e, keeps_state (h e)) ->
  keeps_state (try_except env m h).
Proof.
  intros Hm Hh st. unfold try_except. specialize (Hm st).
  destruct (m st) as [[[a|e] st1] ev1]; [done|].
  specialize (Hh e st1). destruct (h e st1) as [[r st2] ev2].
  cbn in *. congruence.
Qed.

Lemma keeps_call {A} (op : World env -> Res A * World env)
    (ev : Res A -> Event) : keeps_state (call env op ev).
Proof. intros st. unfold call. by destruct (op (world st)). Qed.

(** *** One attempt *)

Lemma attempt_emits (br : Browser env) (pg : Page env) (target : string)
    (clicked visited : gset string) (sel : string) :
  sel ∉ clicked ->
  emits (loop_event env clicked visited target)
        (attempt env br pg target visited sel).
Proof.
  intros Hsel st.
  unfold attempt, bind, call, try_except, ret, read_url, record_navigation.
  crunch; repeat constructor; done.
Qed.

Lemma try_sorted_emits (br : Browser env) (pg : Page env) (target : string)
    (clicked visited : gset string) (sorted_selectors : list dict) :
  emits (loop_event env clicked visited target)
        (try_sorted env br pg target clicked visited sorted_selectors).
Proof.
  induction sorted_selectors as [|d rest IH]; cbn [try_sorted].
  - apply emits_ret.
  - apply emits_bind.
    { intros st. constructor. }
    intros sel. destruct (bool_decide (sel ∈ clicked)) eqn:Hc; [done|].
    apply bool_decide_eq_false in Hc.
    apply emits_bind.
    + apply emits_try_except; [by apply attempt_emits|].
      intros _. apply emits_ret.
    + intros [o|]; [apply emits_ret|done].
Qed.

Lemma get_llm_selectors_emits Q (page_html text : string) :
  (forall ok, Q (EvLLM text ok)) ->
  emits Q (_get_llm_selectors env page_html text).
Proof.
  intros HQ st. unfold _get_llm_selectors.
  destruct (selector_cache st !! text); [constructor|].
  unfold try_except, bind, call, ret.
  crunch; repeat constructor; done.
Qed.

Lemma get_llm_selectors_keeps (page_html text : string) :
  keeps_state (_get_llm_selectors env page_html text).
Proof.
  intros st. unfold _get_llm_selectors.
  destruct (selector_cache st !! text); [done|].
  unfold try_except, bind, call, ret.
  by crunch.
Qed.

Lemma try_candidates_emits (br : Browser env) (pg : Page env)
    (target page_html : string) (clicked visited : gset string)
    (ranked : list dict) :
  emits (loop_event env clicked visited target)
        (try_candidates env br pg target page_html clicked visited ranked).
Proof.
  induction ranked as [|s rest IH]; cbn [try_candidates].
  - apply emits_ret.
  - apply emits_bind.
    { destruct (truthy _); [|apply emits_ret].
      by apply get_llm_selectors_emits. }
    intros llm. apply emits_bind; [apply try_sorted_emits|].
    intros [o|]; [apply emits_ret|done].
Qed.

(** *** The effect of a run on the [state] dictionary *)

Lemma loop_effect_after (st st1 st2 : St env) (ev1 ev2 : list Event)
    (r : Res (option (Outcome env))) :
  state st1 = state st ->
  loop_effect st1 (r, st2, ev2) ->
  loop_effect st (r, st2, (ev1 ++ ev2)%list).
Proof.
  unfold loop_effect. cbn. intros E.
  destruct r as [[o|]|]; rewrite E; [|done..].
  intros [-> (pre & u0 & h & ok & -> & Hne)]. split; [done|].
  exists (ev1 ++ pre)%list, u0, h, ok. by rewrite <- app_assoc.
Qed.

Lemma attempt_effect (br : Browser env) (pg : Page env) (target : string)
    (visited : gset string) (sel : string) (st : St env) :
  loop_effect st (attempt env br pg target visited sel st).
Proof.
  unfold attempt, bind, call, try_except, ret, read_url, record_navigation,
    loop_effect.
  crunch; try done.
  all: split; [done|].
  all: eexists [_; _; _; _; _], _, _, _; (split; [reflexivity|]).
  all: cbn; intros E.
  all: match goal with
       | H : negb (_ =? _)%string = true |- _ =>
           rewrite E, String.eqb_refl in H; discriminate H
       end.
Qed.

Lemma try_sorted_effect (br : Browser env) (pg : Page env)
    (target : string) (clicked visited : gset string)
    (sorted_selectors : list dict) (st : St env) :
  loop_effect st
    (try_sorted env br pg target clicked visited sorted_selectors st).
Proof.
  revert st. induction sorted_selectors as [|d rest IH]; intros st.
  - done.
  - cbn [try_sorted]. unfold bind at 1, selector_of.
    destruct (dict_index "selector" d) as [sel|e]; [|done].
    destruct (bool_decide (sel ∈ clicked)).
    { specialize (IH st).
      destruct (try_sorted env br pg target clicked visited rest st)
        as [[r st2] ev2]. done. }
    unfold bind, try_except, ret.
    pose proof (attempt_effect br pg target visited sel st) as Ha.
    destruct (attempt env br pg target visited sel st)
      as [[[[o|]|e] st1] ev1]; unfold loop_effect in Ha; cbn in Ha.
    + unfold loop_effect. cbn. by rewrite !app_nil_r.
    + specialize (IH st1).
      destruct (try_sorted env br pg target clicked visited rest st1)
        as [[r st2] ev2].
      rewrite app_nil_l. by apply loop_effect_after with (st1 := st1).
    + specialize (IH st1).
      destruct (try_sorted env br pg target clicked visited rest st1)
        as [[r st2] ev2].
      rewrite app_nil_l, app_nil_r.
      by apply loop_effect_after with (st1 := st1).
Qed.

Lemma try_candidates_effect (br : Browser env) (pg : Page env)
    (target page_html : string) (clicked visited : gset string)
    (ranked : list dict) (st : St env) :
  loop_effect st
    (try_candidates env br pg target page_html clicked visited ranked st).
Proof.
  revert st. induction ranked as [|s rest IH]; intros st.
  - done.
  - cbn [try_candidates]. unfold bind at 1.
    set (text := Dict.get_default "text" EmptyString s).
    assert (keeps_state
              (if truthy text then _get_llm_selectors env page_html text
               else ret env [])) as Hk.
    { destruct (truthy text); [apply get_llm_selectors_keeps|done]. }
    specialize (Hk st).
    destruct ((if truthy text then _get_llm_selectors env page_html text
               else ret env []) st) as [[[llm|e] st0] ev0];
      cbn in Hk; [|done].
    unfold bind.
    pose proof (try_sorted_effect br pg target clicked visited
                  (SelectorManager.rank_selectors
                     (Synthesis.element_selectors llm s)) st0) as Hs.
    destruct (try_sorted env br pg target clicked visited _ st0)
      as [[[[o|]|e] st1] ev1]; unfold loop_effect in Hs; cbn in Hs.
    + unfold ret. rewrite app_nil_r.
      apply loop_effect_after with (st1 := st0); [done|].
      by unfold loop_effect.
    + specialize (IH st1).
      destruct (try_candidates env br pg target page_html clicked visited
                               rest st1) as [[r st2] ev2].
      apply loop_effect_after with (st1 := st0); [done|].
      apply loop_effect_after with (st1 := st1); [done|]. done.
    + apply loop_effect_after with (st1 := st0); [done|].
      by unfold loop_effect.
Qed.

(** In the loops only a missing ['selector'] key can raise, and no
    expanded selector lacks that key; a raise leaves [state] alone in
    any case, as [loop_effect] says. *)

(** *** The life cycle of the browser *)

Lemma loop_event_inner (clicked visited : gset string) (target : string)
    (e : Event) :
  loop_event env clicked visited target e -> inner_event e /\ is_close e = false.
Proof. by destruct e. Qed.

Lemma closes_app (a b : list Event) : closes (a ++ b) = (closes a + closes b)%nat.
Proof. unfold closes. by rewrite List.filter_app, length_app. Qed.

Lemma closes_loop (clicked visited : gset string) (target : string)
    (evs : list Event) :
  Forall (loop_event env clicked visited target) evs -> closes evs = 0%nat.
Proof.
  unfold closes. induction 1 as [|e l He _ IH]; [done|].
  cbn. apply loop_event_inner in He as [_ ->]. done.
Qed.

Lemma loop_event_run (clicked visited : gset string) (target : string)
    (e : Event) :
  loop_event env clicked visited target e -> run_event env clicked visited target e.
Proof. by destruct e. Qed.

Lemma confirmed_cons (o : Outcome env) (e : Event) (evs : list Event) :
  confirmed o evs -> confirmed o (e :: evs).
Proof.
  intros (pre & u0 & h & ok & -> & Hne). by exists (e :: pre), u0, h, ok.
Qed.

Lemma with_browser_emits (target : string) (selectors : list dict)
    (clicked visited : gset string) (p : PlaywrightH env) :
  emits (fun e => run_event env clicked visited target e /\ inner_event e)
        (with_browser env target selectors clicked visited p).
Proof.
  unfold with_browser, load_page.
  repeat first
    [ apply emits_ret
    | apply emits_call; intros ?; by cbn
    | apply emits_bind; [|intros ?]
    | apply emits_try_except; [|intros ?]
    | match goal with
      | |- emits _ (match ?x with _ => _ end) => destruct x
      | |- emits _ (try_candidates _ _ _ _ _ _ _ _) =>
          eapply emits_impl; [|apply try_candidates_emits];
          intros e He; split;
          [by apply loop_event_run|by eapply loop_event_inner]
      | |- emits _ (fun _ => _) => intros st; by repeat constructor
      end ].
Qed.

Lemma with_browser_run (target : string) (selectors : list dict)
    (clicked visited : gset string) (p : PlaywrightH env) (st : St env) :
  let x := with_browser env target selectors clicked visited p st in
  loop_effect st x
  /\ (closes x.2 <= 1)%nat
  /\ (x.1.1 = Ok None -> closes x.2 = 1%nat)
  /\ (forall o, x.1.1 = Ok (Some o) -> closes x.2 = 0%nat).
Proof.
  unfold with_browser, load_page, bind, call, try_except, ret, loop_effect.
  crunch.
  all: repeat match goal with
       | H : try_candidates env ?br ?pg ?t ?h ?c ?v ?l ?s = _ |- _ =>
           pose proof (try_candidates_effect br pg t h c v l s) as Eff;
           pose proof (closes_loop c v t _ (try_candidates_emits br pg t h c v l s)) as Cl;
           rewrite H in Eff, Cl; clear H;
           unfold loop_effect in Eff; cbn in Eff, Cl
       end.
  all: rewrite ?app_nil_r, ?List.filter_app, ?length_app, ?Cl; cbn.
  all: repeat split; try (intros; simplify_eq); try lia; try tauto.
  all: try (repeat apply confirmed_cons; tauto).
Qed.
End Runs.
End ResolverTraces.

Module ResolverClaims.
Import PyStr Runs ResolverFacts ResolverTraces.

Local Arguments leads_to_visited : simpl never.
Local Arguments String.eqb : simpl never.

(** The events of a whole call satisfy [run_event] for the sets read
    from [state] at entry. *)
Lemma try_selectors_events (env : Env) (target : string)
    (selectors : list dict) (st : St env) :
  Forall (run_event env (clicked_at st) (visited_at st) target)
         (_try_selectors env target selectors st).2.
Proof.
  unfold _try_selectors.
  destruct (negb (truthy target) || is_nil selectors); [constructor|].
  fold (clicked_at st) (visited_at st).
  destruct (is_nil _); [constructor|].
  unfold async_with, call.
  destruct (pw_start env (world st)) as [[p|e] w]; cbn; [|by repeat constructor].
  match goal with
  | |- context [with_browser env ?t ?l ?c ?v ?p ?s] =>
      pose proof (with_browser_emits t l c v p s) as Hb;
      destruct (with_browser env t l c v p s) as [[r st2] ev2]
  end.
  cbn in *. destruct (pw_stop env p (world st2)) as [x w3]. cbn.
  constructor; [done|]. apply Forall_app. split.
  - eapply Forall_impl; [exact Hb|]. by intros e [? _].
  - by repeat constructor.
Qed.

(** C4: no candidate that passes the initial filter has a selector
    string of the set of clicked selectors read at entry, and no event of
    the call is a probe, a check or a click on such a selector string,
    whatever the candidates are. *)
Theorem clicked_selector_never_tried (env : Env) (target : string)
    (selectors : list dict) (st : St env) :
  (forall s sel,
     In s (List.filter (not_clicked (clicked_at st)) selectors) ->
     Dict.get "selector" s = Some sel -> sel ∉ clicked_at st)
  /\ Forall (untouched (clicked_at st))
            (_try_selectors env target selectors st).2.
Proof.
  split.
  - intros s sel Hin Hs. apply filter_In in Hin as [_ Hk].
    unfold not_clicked in Hk. rewrite Hs in Hk.
    apply negb_true_iff, bool_decide_eq_false in Hk. done.
  - eapply Forall_impl; [apply try_selectors_events|].
    intros e He. destruct e; cbn in *; tauto.
Qed.



Lemma confirmed_navigated {env} (o : Outcome env) (a evs b : list Event) :
  confirmed o evs -> navigated o (a ++ evs ++ b).
Proof.
  intros (pre & u0 & h & ok & -> & Hne).
  exists (a ++ pre)%list, u0, h, ok, b. split; [|done].
  by rewrite <- !app_assoc.
Qed.

(** C7: a call that returns an outcome has appended the selector of the
    outcome, and nothing else, to [already_clicked], and its URL, and
    nothing else, to [visited_urls] (and set [current_url] to that URL),
    and its events show the click on that selector between a reading of
    the page URL and a reading that gave another URL, the one of the
    outcome; a call that returns [None] has left [state] as it was; a
    call that raises has done one or the other.  In every case the two
    lists at entry are prefixes of the lists at exit.  A missing list
    counts as the empty list. *)
Theorem session_grows_only_on_success (env : Env) (target : string)
    (selectors : list dict) (st : St env) :
  let x := _try_selectors env target selectors st in
  let clicked0 :=
    match already_clicked (state st) with Some l => l | None => [] end in
  let visited0 :=
    match visited_urls (state st) with Some l => l | None => [] end in
  let clicked1 :=
    match already_clicked (state x.1.2) with Some l => l | None => [] end in
  let visited1 :=
    match visited_urls (state x.1.2) with Some l => l | None => [] end in
  let grown (o : Outcome env) :=
    already_clicked (state x.1.2) = Some (clicked0 ++ [selector o])%list
    /\ visited_urls (state x.1.2) = Some (visited0 ++ [url o])%list
    /\ current_url (state x.1.2) = Some (url o)
    /\ exists pre u0 href ok post,
         x.2 = (pre ++ [EvUrl u0; EvClick (selector o) href true;
                        EvWaitIdle ok; EvUrl (url o);
                        EvContent (Ok (html o))] ++ post)%list
         /\ u0 <> url o in
  match x.1.1 with
  | Ok (Some o) => grown o
  | Ok None => state x.1.2 = state st
  | Raise _ => state x.1.2 = state st \/ exists o : Outcome env, grown o
  end
  /\ (exists more, clicked1 = (clicked0 ++ more)%list)
  /\ (exists more, visited1 = (visited0 ++ more)%list).
Proof.
  cbv zeta.
  assert (forall o : Outcome env,
            state (_try_selectors env target selectors st).1.2
            = recorded (state st) o ->
            navigated o (_try_selectors env target selectors st).2 ->
            (already_clicked (state (_try_selectors env target selectors st).1.2)
             = Some (match already_clicked (state st) with
                     | Some l => l | None => [] end ++ [selector o])%list
             /\ visited_urls (state (_try_selectors env target selectors st).1.2)
                = Some (match visited_urls (state st) with
                        | Some l => l | None => [] end ++ [url o])%list
             /\ current_url (state (_try_selectors env target selectors st).1.2)
                = Some (url o)
             /\ exists pre u0 href ok post,
                  (_try_selectors env target selectors st).2
                  = (pre ++ [EvUrl u0; EvClick (selector o) href true;
                             EvWaitIdle ok; EvUrl (url o);
                             EvContent (Ok (html o))] ++ post)%list
                  /\ u0 <> url o)
            /\ (exists more,
                  match already_clicked
                          (state (_try_selectors env target selectors st).1.2)
                  with Some l => l | None => [] end
                  = (match already_clicked (state st) with
                     | Some l => l | None => [] end ++ more)%list)
            /\ (exists more,
                  match visited_urls
                          (state (_try_selectors env target selectors st).1.2)
                  with Some l => l | None => [] end
                  = (match visited_urls (state st) with
                     | Some l => l | None => [] end ++ more)%list))
    as Grow.
  { intros o -> Hnav. cbn. unfold get_list.
    split; [by repeat split|]. split; by eexists. }
  assert (state (_try_selectors env target selectors st).1.2 = state st ->
          (exists more,
             match already_clicked
                     (state (_try_selectors env target selectors st).1.2)
             with Some l => l | None => [] end
             = (match already_clicked (state st) with
                | Some l => l | None => [] end ++ more)%list)
          /\ (exists more,
                match visited_urls
                        (state (_try_selectors env target selectors st).1.2)
                with Some l => l | None => [] end
                = (match visited_urls (state st) with
                   | Some l => l | None => [] end ++ more)%list))
    as Same.
  { intros ->. split; exists []; by rewrite app_nil_r. }
  assert (match (_try_selectors env target selectors st).1.1 with
          | Ok (Some o) =>
              state (_try_selectors env target selectors st).1.2
              = recorded (state st) o
              /\ navigated o (_try_selectors env target selectors st).2
          | Ok None =>
              state (_try_selectors env target selectors st).1.2 = state st
          | Raise _ =>
              state (_try_selectors env target selectors st).1.2 = state st
              \/ exists o : Outcome env,
                   state (_try_selectors env target selectors st).1.2
                   = recorded (state st) o
                   /\ navigated o (_try_selectors env target selectors st).2
          end) as Eff.
  { unfold _try_selectors.
    destruct (negb (truthy target) || is_nil selectors); [done|].
    destruct (is_nil _); [done|].
    unfold async_with, call.
    destruct (pw_start env (world st)) as [[p|e] w]; cbn; [|by auto].
    match goal with
    | |- context [with_browser env ?t ?l ?c ?v ?p ?s] =>
        pose proof (with_browser_run t l c v p s) as (Eff & _);
        destruct (with_browser env t l c v p s) as [[r st2] ev2]
    end.
    unfold loop_effect in Eff. cbn in Eff.
    destruct (pw_stop env p (world st2)) as [[[]|e] w3]; cbn.
    - destruct r as [[o|]|e]; cbn.
      + destruct Eff as [-> Hc]. split; [done|].
        by apply (confirmed_navigated o [EvStart true] ev2 [EvStop true]).
      + by rewrite Eff.
      + rewrite Eff. auto.
    - destruct r as [[o|]|e']; cbn.
      + destruct Eff as [-> Hc]. right. exists o. split; [done|].
        by apply (confirmed_navigated o [EvStart true] ev2 [EvStop false]).
      + rewrite Eff. auto.
      + rewrite Eff. auto. }
  destruct ((_try_selectors env target selectors st).1.1) as [[o|]|e].
  - destruct Eff as [Hs Hn]. destruct (Grow o Hs Hn) as [G P]. by split.
  - by split; [|apply Same].
  - destruct Eff as [Hs|(o & Hs & Hn)].
    + split; [by left|by apply Same].
    + destruct (Grow o Hs Hn) as [G P]. split; [|done]. right. by exists o.
Qed.

(** C9: a call causes no event at all, or fails to enter the Playwright
    session, or enters it once and leaves it once, as its last action:
    nothing in between enters or leaves the session, [browser.close()] is
    called at most once there, exactly once when the call returns [None],
    and not at all when it returns an outcome, which carries the browser
    and the page to the caller. *)
Theorem session_released_exactly_once (env : Env) (target : string)
    (selectors : list dict) (st : St env) :
  let x := _try_selectors env target selectors st in
  x.2 = []
  \/ x.2 = [EvStart false]
  \/ exists mid ok,
       x.2 = (EvStart true :: mid ++ [EvStop ok])%list
       /\ Forall inner_event mid
       /\ (closes mid <= 1)%nat
       /\ (x.1.1 = Ok None -> closes mid = 1%nat)
       /\ (forall o, x.1.1 = Ok (Some o) -> closes mid = 0%nat).
Proof.
  cbv zeta. unfold _try_selectors.
  destruct (negb (truthy target) || is_nil selectors); [by left|].
  destruct (is_nil _); [by left|].
  unfold async_with, call.
  destruct (pw_start env (world st)) as [[p|e] w]; cbn; [|by auto].
  right; right.
  match goal with
  | |- context [with_browser env ?t ?l ?c ?v ?p ?s] =>
      pose proof (with_browser_run t l c v p s) as (_ & C1 & C2 & C3);
      pose proof (with_browser_emits t l c v p s) as Hb;
      destruct (with_browser env t l c v p s) as [[r st2] ev2]
  end.
  cbn in *.
  destruct (pw_stop env p (world st2)) as [x w3]. cbn.
  exists ev2, (is_ok x). split; [done|]. split.
  { eapply Forall_impl; [exact Hb|]. by intros e [_ ?]. }
  split; [done|].
  destruct x as [[]|e]; cbn; [done|].
  split; [done|]. intros o Ho. discriminate Ho.
Qed.


(** One attempt, in general (the part of C5 that holds): for a selector
    that is tried, the attempt returns an outcome exactly when its events
    end with a click that succeeded, a page URL after the click that
    differs from the one read before it, and a successful reading of the
    new markup; the outcome then carries that URL, that markup and the
    selector.  When the URL read after the click equals the one read
    before, the attempt ends there with no outcome.  The loop returns the
    outcome of the attempt when there is one, and otherwise goes on with
    the selectors that follow, from the state the attempt left. *)
Theorem outcome_iff_url_changed_and_read (env : Env) (br : Browser env)
    (pg : Page env) (target : string) (clicked visited : gset string)
    (d : dict) (rest : list dict) (sel : string) (st : St env) :
  dict_index "selector" d = Ok sel ->
  sel ∉ clicked ->
  let a := attempt env br pg target visited sel st in
  (forall o : Outcome env,
     a.1.1 = Ok (Some o)
     <-> (selector o = sel /\ browser o = br /\ page o = pg
          /\ confirmed o a.2))
  /\ (forall pre u0 href ok u1 post,
        a.2 = (pre ++ [EvUrl u0; EvClick sel href true; EvWaitIdle ok;
                       EvUrl u1] ++ post)%list ->
        u0 = u1 -> a.1.1 = Ok None /\ post = [])
  /\ try_sorted env br pg target clicked visited (d :: rest) st
     = match a.1.1 with
       | Ok (Some o) => (Ok (Some o), a.1.2, a.2)
       | _ =>
           let y := try_sorted env br pg target clicked visited rest a.1.2 in
           (y.1.1, y.1.2, (a.2 ++ y.2)%list)
       end.
Proof.
  intros Hd Hsel. cbv zeta. split; [|split].
  - intros o. unfold confirmed.
    unfold attempt, bind, call, try_except, ret, read_url, record_navigation.
    crunch.
    all: split;
      [ intros Ho; simplify_eq;
        try (cbn; repeat split;
             eexists [_; _; _; _; _], _, _, _; (split; [reflexivity|]); cbn;
             intros E;
             match goal with
             | H : negb (_ =? _)%string = true |- _ =>
                 rewrite E, String.eqb_refl in H; discriminate H
             end)
      | intros (Hs & Hb & Hp & pre & u0 & h & ok & Heq & Hne);
        destruct o; cbn in *; split_inv; done ].
  - intros pre u0 href ok u1 post.
    unfold attempt, bind, call, try_except, ret, read_url, record_navigation.
    crunch.
    all: intros Heq Hu; split_inv; try done.
    all: match goal with
         | H : negb (_ =? _)%string = true |- _ =>
             apply negb_true_iff, String.eqb_neq in H; congruence
         end.
  - cbn [try_sorted]. unfold bind at 1, selector_of. rewrite Hd.
    rewrite bool_decide_eq_false_2 by done.
    unfold bind, try_except, ret.
    destruct (attempt env br pg target visited sel st)
      as [[[[o|]|e] st1] ev1]; cbn.
    + by rewrite app_nil_r.
    + by destruct (try_sorted env br pg target clicked visited rest st1)
        as [[r st2] ev2].
    + rewrite app_nil_r.
      by destruct (try_sorted env br pg target clicked visited rest st1)
        as [[r st2] ev2].
Qed.

End ResolverClaims.

(** ** The resolver on the example site *)

Module ResolverExamples.
Import PyStr Runs ResolverClaims.

(** C5 fails on the code: on the site whose form page cannot be read,
    the click on the link changes the URL of the page from [home] to
    [form_url], the reading of the new markup raises, and the attempt
    ends without an outcome.  The call goes on with the selectors that
    follow, on the page the click opened, and returns [None] with
    [state] unchanged: the URL changed after the click, and no outcome
    is reported. *)
Lemma url_changed_without_outcome :
  (attempt (Toy.env Toy.site_unreadable_form) tt tt Toy.home ∅
           Toy.apply_xpath
           (Toy.at_home Toy.site_unreadable_form Toy.fresh)).1.1
  = Raise External
  /\ (attempt (Toy.env Toy.site_unreadable_form) tt tt Toy.home ∅
              Toy.apply_xpath
              (Toy.at_home Toy.site_unreadable_form Toy.fresh)).2
     = [ EvProbe Toy.apply_xpath (Ok true);
         EvVisible Toy.apply_xpath (Ok true);
         EvEnabled Toy.apply_xpath (Ok true);
         EvBBox Toy.apply_xpath (Ok true);
         EvHref Toy.apply_xpath (Ok (Some "form"));
         EvUrl Toy.home;
         EvClick Toy.apply_xpath (Some "form") true;
         EvWaitIdle true;
         EvUrl Toy.form_url;
         EvContent (Raise External) ]
  /\ Toy.home <> Toy.form_url
  /\ (_try_selectors (Toy.env Toy.site_unreadable_form) Toy.home
                     Toy.candidates
                     (Toy.start Toy.site_unreadable_form Toy.fresh)).1.1
     = Ok None
  /\ state (_try_selectors (Toy.env Toy.site_unreadable_form) Toy.home
                           Toy.candidates
                           (Toy.start Toy.site_unreadable_form Toy.fresh)).1.2
     = Toy.fresh
  /\ (exists pre post,
        (_try_selectors (Toy.env Toy.site_unreadable_form) Toy.home
                        Toy.candidates
                        (Toy.start Toy.site_unreadable_form Toy.fresh)).2
        = (pre ++ [ EvUrl Toy.home;
                    EvClick Toy.apply_xpath (Some "form") true;
                    EvWaitIdle true;
                    EvUrl Toy.form_url;
                    EvContent (Raise External) ] ++ post)%list).
Proof.
  split; [vm_compute; reflexivity|].
  split; [vm_compute; reflexivity|].
  split; [discriminate|].
  split; [vm_compute; reflexivity|].
  split; [vm_compute; reflexivity|].
  exists (firstn 31
            (_try_selectors (Toy.env Toy.site_unreadable_form) Toy.home
               Toy.candidates
               (Toy.start Toy.site_unreadable_form Toy.fresh)).2),
         (skipn 36
            (_try_selectors (Toy.env Toy.site_unreadable_form) Toy.home
               Toy.candidates
               (Toy.start Toy.site_unreadable_form Toy.fresh)).2).
  vm_compute. reflexivity.
Qed.

(** One attempt on the example site, for the selector of the link. *)
Lemma outcome_iff_url_changed_and_read_witness :
  dict_index "selector" Toy.apply_candidate = Ok Toy.apply_xpath
  /\ (Toy.apply_xpath ∉ (∅ : gset string))
  /\ ((forall o : Outcome (Toy.env Toy.site),
         (attempt (Toy.env Toy.site) tt tt Toy.home ∅ Toy.apply_xpath
                  (Toy.at_home Toy.site Toy.fresh)).1.1 = Ok (Some o)
         <-> (selector o = Toy.apply_xpath /\ browser o = tt /\ page o = tt
              /\ confirmed o
                   (attempt (Toy.env Toy.site) tt tt Toy.home ∅
                            Toy.apply_xpath
                            (Toy.at_home Toy.site Toy.fresh)).2))
      /\ (forall pre u0 href ok u1 post,
            (attempt (Toy.env Toy.site) tt tt Toy.home ∅ Toy.apply_xpath
                     (Toy.at_home Toy.site Toy.fresh)).2
            = (pre ++ [EvUrl u0; EvClick Toy.apply_xpath href true;
                       EvWaitIdle ok; EvUrl u1] ++ post)%list ->
            u0 = u1 ->
            (attempt (Toy.env Toy.site) tt tt Toy.home ∅ Toy.apply_xpath
                     (Toy.at_home Toy.site Toy.fresh)).1.1 = Ok None
            /\ post = [])
      /\ try_sorted (Toy.env Toy.site) tt tt Toy.home ∅ ∅
                    [Toy.apply_candidate] (Toy.at_home Toy.site Toy.fresh)
         = match (attempt (Toy.env Toy.site) tt tt Toy.home ∅
                          Toy.apply_xpath
                          (Toy.at_home Toy.site Toy.fresh)).1.1 with
           | Ok (Some o) =>
               (Ok (Some o),
                (attempt (Toy.env Toy.site) tt tt Toy.home ∅ Toy.apply_xpath
                         (Toy.at_home Toy.site Toy.fresh)).1.2,
                (attempt (Toy.env Toy.site) tt tt Toy.home ∅ Toy.apply_xpath
                         (Toy.at_home Toy.site Toy.fresh)).2)
           | _ =>
               ((try_sorted (Toy.env Toy.site) tt tt Toy.home ∅ ∅ []
                   (attempt (Toy.env Toy.site) tt tt Toy.home ∅
                            Toy.apply_xpath
                            (Toy.at_home Toy.site Toy.fresh)).1.2).1.1,
                (try_sorted (Toy.env Toy.site) tt tt Toy.home ∅ ∅ []
                   (attempt (Toy.env Toy.site) tt tt Toy.home ∅
                            Toy.apply_xpath
                            (Toy.at_home Toy.site Toy.fresh)).1.2).1.2,
                ((attempt (Toy.env Toy.site) tt tt Toy.home ∅ Toy.apply_xpath
                          (Toy.at_home Toy.site Toy.fresh)).2
                 ++ (try_sorted (Toy.env Toy.site) tt tt Toy.home ∅ ∅ []
                       (attempt (Toy.env Toy.site) tt tt Toy.home ∅
                                Toy.apply_xpath
                                (Toy.at_home Toy.site Toy.fresh)).1.2).2)%list)
           end).
Proof.
  split; [reflexivity|]. split; [apply not_elem_of_empty|].
  apply (outcome_iff_url_changed_and_read (Toy.env Toy.site) tt tt Toy.home
           ∅ ∅ Toy.apply_candidate [] Toy.apply_xpath
           (Toy.at_home Toy.site Toy.fresh)).
  - reflexivity.
  - apply not_elem_of_empty.
Defined.


(** On the example site the call clicks the link and returns the form
    page; [state] gets the selector and the new URL. *)
Example resolver_finds_the_link :
  (_try_selectors (Toy.env Toy.site) Toy.home Toy.candidates
                  (Toy.start Toy.site Toy.fresh)).1.1
  = Ok (Some (mkOutcome (env:=Toy.env Toy.site) Toy.form_url
                ("<html>" ++ Toy.form_url ++ "</html>") Toy.apply_xpath tt tt))
  /\ state (_try_selectors (Toy.env Toy.site) Toy.home Toy.candidates
                           (Toy.start Toy.site Toy.fresh)).1.2
     = mkGraphState (Some [Toy.apply_xpath]) (Some [Toy.form_url])
                    (Some Toy.form_url)
  /\ closes (_try_selectors (Toy.env Toy.site) Toy.home Toy.candidates
                            (Toy.start Toy.site Toy.fresh)).2 = 0%nat
  /\ last (_try_selectors (Toy.env Toy.site) Toy.home Toy.candidates
                          (Toy.start Toy.site Toy.fresh)).2
     = Some (EvStop true).
Proof.
  split; [vm_compute; reflexivity|].
  split; [vm_compute; reflexivity|].
  split; vm_compute; reflexivity.
Qed.

(** With the URL of the form already visited, the link is found and
    checked but never clicked, and the call returns [None] after closing
    the browser. *)
Example resolver_skips_visited_link :
  let gs := mkGraphState None (Some [Toy.form_url]) None in
  let x := _try_selectors (Toy.env Toy.site) Toy.home Toy.candidates
                          (Toy.start Toy.site gs) in
  x.1.1 = Ok None
  /\ state x.1.2 = gs
  /\ In (EvHref Toy.apply_xpath (Ok (Some "form"))) x.2
  /\ List.filter (fun e => match e with EvClick _ _ _ => true | _ => false end)
                 x.2 = []
  /\ closes x.2 = 1%nat.
Proof.
  cbv zeta.
  split; [vm_compute; reflexivity|].
  split; [vm_compute; reflexivity|].
  split; [vm_compute; tauto|].
  split; vm_compute; reflexivity.
Qed.

(** A button that does not navigate is clicked, and [state] stays as it
    was; a site that cannot be loaded costs one [browser.close()]. *)
Example resolver_noop_click_and_load_failure :
  let x := _try_selectors (Toy.env Toy.site_inert) Toy.home Toy.candidates
                          (Toy.start Toy.site_inert Toy.fresh) in
  let y := _try_selectors (Toy.env Toy.site_down) Toy.home Toy.candidates
                          (Toy.start Toy.site_down Toy.fresh) in
  x.1.1 = Ok None
  /\ state x.1.2 = Toy.fresh
  /\ In (EvClick Toy.apply_xpath None true) x.2
  /\ closes x.2 = 1%nat
  /\ y.1.1 = Ok None
  /\ y.2 = [ EvStart true; EvLaunch true; EvNewContext true; EvNewPage true;
             EvViewport true; EvEvaluate true;
             EvGoto Toy.home NetworkIdle false;
             EvGoto Toy.home DomContentLoaded false;
             EvClose true; EvStop true ].
Proof.
  cbv zeta.
  split; [vm_compute; reflexivity|].
  split; [vm_compute; reflexivity|].
  split; [vm_compute; tauto|].
  split; [vm_compute; reflexivity|].
  split; vm_compute; reflexivity.
Qed.

End ResolverExamples.

(** * Further properties *)

(** ** The ranker *)

Module RankerExtras.
Import PyStr SelectorManager RankerFacts ScoreExtremes.

Lemma filter_head_split {A} (p : A -> bool) (l : list A) (c : A)
    (rest : list A) :
  List.filter p l = c :: rest ->
  exists pre post,
    l = (pre ++ c :: post)%list
    /\ Forall (fun x => p x = false) pre /\ p c = true.
Proof.
  induction l as [|x l IH]; [done|]. cbn.
  destruct (p x) eqn:Hx.
  - intros [= -> _]. by exists [], l.
  - intros (pre & post & -> & Hpre & Hc)%IH.
    exists (x :: pre), post. repeat split; [|done]. by constructor.
Qed.

(** [choose_best] returns [None] exactly on the empty list; otherwise it
    returns the first candidate, in input order, among those of the
    highest score: every candidate before it scores strictly less and
    every candidate after it scores at most as much. *)
Theorem choose_best_first_maximal (candidates : list dict) :
  match choose_best candidates with
  | None => candidates = []
  | Some c =>
      exists pre post,
        candidates = (pre ++ c :: post)%list
        /\ Forall (fun x => score x < score c) pre
        /\ Forall (fun x => score x <= score c) post
  end.
Proof.
  unfold choose_best, rank_selectors.
  set (key := fun c : dict => - score c).
  pose proof (sorted_perm key candidates) as Hp.
  pose proof (sorted_ascending key candidates) as Ha.
  destruct (sorted key candidates) as [|c r] eqn:E.
  - by apply Permutation_nil in Hp.
  - pose proof (sorted_filter key (key c) candidates) as Hf.
    rewrite E in Hf. cbn [List.filter] in Hf. rewrite Z.eqb_refl in Hf.
    symmetry in Hf. apply filter_head_split in Hf
      as (pre & post & -> & Hpre & _).
    assert (forall x, In x (pre ++ c :: post) -> score x <= score c) as Hle.
    { intros x Hx. apply list_elem_of_In in Hx. rewrite <- Hp in Hx.
      apply list_elem_of_In in Hx. inversion Ha as [|? ? _ Hall]; subst.
      destruct Hx as [->|Hx]; [lia|].
      rewrite List.Forall_forall in Hall. specialize (Hall x Hx).
      unfold key in Hall. lia. }
    exists pre, post. split; [done|]. split.
    + apply List.Forall_forall. intros x Hx.
      assert (score x <= score c) by (apply Hle, in_or_app; by left).
      rewrite List.Forall_forall in Hpre. specialize (Hpre x Hx).
      apply Z.eqb_neq in Hpre. unfold key in Hpre. lia.
    + apply List.Forall_forall. intros x Hx.
      apply Hle, in_or_app. right. by right.
Qed.

Lemma sorted_of_ascending {A} (key : A -> Z) (l : list A) :
  ascending key l -> sorted key l = l.
Proof.
  unfold ascending. induction 1 as [|a l Hs IH Ha]; [done|].
  cbn. rewrite IH. destruct l as [|y l]; [done|]. cbn.
  inversion Ha as [|? ? Hay _]; subst.
  by rewrite (proj2 (Z.leb_le _ _) Hay).
Qed.

(** Ranking a ranked list changes nothing: [rank_selectors] returns a
    list that is already in descending score order as it is, so ranking
    twice is ranking once; and it neither drops nor adds a candidate. *)
Theorem rank_selectors_idempotent (candidates : list dict) :
  rank_selectors (rank_selectors candidates) = rank_selectors candidates
  /\ length (rank_selectors candidates) = length candidates
  /\ (forall l, descending l -> rank_selectors l = l).
Proof.
  assert (forall l, descending l -> rank_selectors l = l) as Hfix.
  { intros l Hl. apply sorted_of_ascending. by apply descending_ascending. }
  split; [|split; [|done]].
  - apply Hfix. apply descending_ascending, sorted_ascending.
  - unfold rank_selectors. by rewrite (sorted_perm _ candidates).
Qed.

(** The sum of the deltas lies between the three penalties together and
    the ten positive signals that can hold together. *)
Lemma deltas_bounds
    (is_id test_id form aria role data clickable one_dot many_dots nth
       has_text exact substring long deep_xpath deep_css : bool) :
  (one_dot = true -> many_dots = false) ->
  -50 <=
  (if is_id then 100 else 0) + ((if test_id then 90 else 0)
    + ((if form then 80 else 0) + ((if aria then 70 else 0)
    + ((if role then 65 else 0) + ((if data then 60 else 0)
    + ((if has_text && clickable then 55 else 0)
    + ((if one_dot then 50 else 0) + ((if many_dots then 40 else 0)
    + ((if nth then 30 else 0) + ((if has_text && exact then 45 else 0)
    + ((if has_text && negb (has_text && exact) && substring then 35 else 0)
    + ((if long then -20 else 0) + ((if deep_xpath then -15 else 0)
    + ((if deep_css then -15 else 0) + 0))))))))))))))
  <= 645.
Proof.
  intros Excl.
  destruct one_dot; [rewrite (Excl eq_refl)|];
    destruct has_text, exact, substring, many_dots; cbn [andb negb];
    repeat match goal with
      | |- context [if ?b then ?x else ?y] =>
          let t := fresh "t" in
          set (t := if b then x else y) in *;
          assert (Z.min x y <= t <= Z.max x y)
            by (subst t; destruct b; lia);
          clearbody t
      end; lia.
Qed.

(** The score of every candidate lies between -50 and 645, and both
    bounds are reached. *)
Theorem score_bounds (cand : dict) :
  -50 <= score cand <= 645
  /\ score cand_lowest = -50
  /\ score cand_highest = 645.
Proof.
  split; [|split; vm_compute; reflexivity].
  pose (sel := Dict.get_default "selector" EmptyString cand).
  pose (text := Dict.get_default "text" EmptyString cand).
  pose proof (accumulate_deltas
           (startswith "#" (strip sel))
           (contains "data-testid" sel || contains "data-test" sel)
           (contains "name=" sel || contains "for=" sel)
           (contains "aria-label" sel)
           (contains "[role=" sel)
           (contains "data-" sel)
           (mentions_clickable sel)
           (count "." sel =? 1)
           (count "." sel >? 1)
           (contains "nth-child" sel || contains "nth-of-type" sel)
           (truthy text)
           (contains ("text()=" ++ dq ++ text ++ dq) sel)
           (contains "contains(text()" sel)
           (len sel >? 150)
           (count "/" sel >? 5)
           (count " > " sel >? 3)
           (one_dot_not_many (count "." sel))) as Hs.
  pose proof (deltas_bounds
           (startswith "#" (strip sel))
           (contains "data-testid" sel || contains "data-test" sel)
           (contains "name=" sel || contains "for=" sel)
           (contains "aria-label" sel)
           (contains "[role=" sel)
           (contains "data-" sel)
           (mentions_clickable sel)
           (count "." sel =? 1)
           (count "." sel >? 1)
           (contains "nth-child" sel || contains "nth-of-type" sel)
           (truthy text)
           (contains ("text()=" ++ dq ++ text ++ dq) sel)
           (contains "contains(text()" sel)
           (len sel >? 150)
           (count "/" sel >? 5)
           (count " > " sel >? 3)
           (one_dot_not_many (count "." sel))) as Hb.
  change (score cand) with
    (let s := 0 in
     let s := if startswith "#" (strip sel) then s + 100 else s in
     let s := if contains "data-testid" sel || contains "data-test" sel
              then s + 90 else s in
     let s := if contains "name=" sel || contains "for=" sel
              then s + 80 else s in
     let s := if contains "aria-label" sel then s + 70 else s in
     let s := if contains "[role=" sel then s + 65 else s in
     let s := if contains "data-" sel then s + 60 else s in
     let s := if truthy text && mentions_clickable sel
              then s + 55 else s in
     let s := if count "." sel =? 1 then s + 50
              else if count "." sel >? 1 then s + 40 else s in
     let s := if contains "nth-child" sel || contains "nth-of-type" sel
              then s + 30 else s in
     let s := if truthy text
                 && contains ("text()=" ++ dq ++ text ++ dq) sel
              then s + 45
              else if truthy text && contains "contains(text()" sel
                   then s + 35 else s in
     let s := if len sel >? 150 then s - 20 else s in
     let s := if count "/" sel >? 5 then s - 15 else s in
     let s := if count " > " sel >? 3 then s - 15 else s in
     s).
  rewrite Hs. exact Hb.
Qed.

Lemma lstrip_head (s : string) (c : ascii) (rest : string) :
  lstrip s = String c rest -> isspace c = false.
Proof.
  induction s as [|x s IH]; [done|]. cbn [lstrip].
  destruct (isspace x) eqn:Hx; [done|]. by intros [= <- _].
Qed.

Lemma lstrip_app (s r : string) (c : ascii) (rest : string) :
  lstrip s = String c rest -> lstrip (s ++ r) = String c (rest ++ r).
Proof.
  induction s as [|x s IH]; [done|].
  change (String x s ++ r) with (String x (s ++ r)). cbn [lstrip].
  destruct (isspace x); [done|]. by intros [= <- <-].
Qed.

Lemma rstrip_head (c : ascii) (s : string) :
  isspace c = false -> exists y, rstrip (String c s) = String c y.
Proof.
  intros Hc. cbn [rstrip]. rewrite Hc. destruct (rstrip s); eauto.
Qed.

(** The selector that [generate_selector_from_attrs] makes for an
    element with an id is the tag followed by '#' and the id, so for any
    tag that does not itself begin with '#' (after white space) the test
    of the ranker for ID selectors, [sel.strip().startswith("#")], fails
    on it: the generated ID selector does not get the +100 of an ID. *)
Theorem generated_id_selector_not_ranked_as_id
    (tag : string) (attrs : dict) (v : string) (c : ascii) (rest : string) :
  Dict.get "id" attrs = Some v ->
  lstrip tag = String c rest ->
  c <> "#"%char ->
  generate_selector_from_attrs tag attrs = Ok (tag ++ "#" ++ v)
  /\ startswith "#" (strip (tag ++ "#" ++ v)) = false.
Proof.
  intros Hid Htag Hc. split.
  - unfold generate_selector_from_attrs, Dict.mem, dict_index.
    by rewrite Hid.
  - unfold strip. rewrite (lstrip_app _ _ _ _ Htag).
    destruct (rstrip_head c (rest ++ "#" ++ v) (lstrip_head _ _ _ Htag))
      as [y ->].
    cbn [startswith]. destruct (Ascii.eqb_spec "#" c); [congruence|done].
Qed.

(** For a button with the id apply-now: the generated selector scores 0,
    the bare ID selector 100. *)
Lemma generated_id_selector_not_ranked_as_id_witness :
  Dict.get "id" [("id", "apply-now")] = Some "apply-now"
  /\ lstrip "button" = String "b" "utton"
  /\ "b"%char <> "#"%char
  /\ (generate_selector_from_attrs "button" [("id", "apply-now")]
      = Ok ("button" ++ "#" ++ "apply-now")
      /\ startswith "#" (strip ("button" ++ "#" ++ "apply-now")) = false)
  /\ score [("selector", "button#apply-now")] = 0
  /\ score [("selector", "#apply-now")] = 100.
Proof.
  split; [reflexivity|]. split; [reflexivity|]. split; [discriminate|].
  split; [|split; vm_compute; reflexivity].
  apply (generated_id_selector_not_ranked_as_id
           "button" [("id", "apply-now")] "apply-now" "b" "utton").
  - reflexivity.
  - reflexivity.
  - discriminate.
Defined.

End RankerExtras.

(** ** The name of the result file *)

Module ScraperExtras.
Import PyStr Scraper.

Lemma replace_char (c d : ascii) (s : string) :
  replace (String c EmptyString) (String d EmptyString) s = subst_char c d s.
Proof.
  unfold replace. induction s as [|x s IH]; [done|].
  cbn [replace_from startswith String.length Nat.pred subst_char].
  destruct (Ascii.eqb c x); by rewrite IH.
Qed.

Lemma contains_char (c : ascii) (s : string) :
  contains (String c EmptyString) s = false
  <-> (forall x, In x (list_ascii_of_string s) -> x <> c).
Proof.
  induction s as [|y s IH].
  - cbn. split; [intros _ x []|done].
  - cbn [contains startswith list_ascii_of_string].
    destruct (Ascii.eqb_spec c y) as [->|Hne].
    + split; [done|]. intros H. exfalso. apply (H y); [by left|done].
    + rewrite IH. split.
      * intros H x [<-|Hx]; [congruence|by apply H].
      * intros H x Hx. apply H. by right.
Qed.

Lemma subst_char_chars (c d : ascii) (s : string) (x : ascii) :
  In x (list_ascii_of_string (subst_char c d s)) ->
  (x = d /\ In c (list_ascii_of_string s))
  \/ (x <> c /\ In x (list_ascii_of_string s)).
Proof.
  induction s as [|y s IH]; [done|]. cbn.
  destruct (Ascii.eqb_spec c y) as [->|Hne].
  - intros [<-|Hx]; [left; auto|]. destruct (IH Hx) as [[]|[]]; auto.
  - intros [<-|Hx]; [right; split; [congruence|auto]|].
    destruct (IH Hx) as [[]|[]]; auto.
Qed.

Lemma subst_char_absent (c d : ascii) (s : string) :
  (forall x, In x (list_ascii_of_string s) -> x <> c) ->
  subst_char c d s = s.
Proof.
  induction s as [|y s IH]; [done|]. cbn. intros H.
  destruct (Ascii.eqb_spec c y) as [->|Hne].
  - exfalso. apply (H y); [by left|done].
  - rewrite IH; [done|]. intros x Hx. apply H. by right.
Qed.

Lemma subst_char_length (c d : ascii) (s : string) :
  String.length (subst_char c d s) = String.length s.
Proof. induction s as [|y s IH]; [done|]. cbn. by rewrite IH. Qed.

Lemma replace_from_absent (old new s : string) :
  contains old s = false -> replace_from old new s 0 = s.
Proof.
  induction s as [|y s IH]; [done|].
  cbn [contains replace_from].
  destruct (startswith old (String y s)); [done|].
  intros H. by rewrite IH.
Qed.

Lemma replace_from_length (s : string) (skip : nat) :
  (String.length (replace_from "://" "_" s skip) <= String.length s)%nat.
Proof.
  revert skip. induction s as [|y s IH]; intros skip; [done|].
  cbn [replace_from]. destruct skip as [|k].
  - destruct (startswith "://" (String y s)).
    + specialize (IH (Nat.pred (String.length "://"))).
      change (String.length ("_" ++ ?r)) with (S (String.length r)).
      cbn [String.length] in *. lia.
    + specialize (IH 0%nat). cbn [String.length]. lia.
  - specialize (IH k). cbn [String.length]. lia.
Qed.

Lemma startswith_scheme_has_slash (s : string) :
  startswith "://" s = true -> In "/"%char (list_ascii_of_string s).
Proof.
  destruct s as [|a [|b s]]; cbn [startswith list_ascii_of_string].
  - done.
  - by destruct (Ascii.eqb ":" a).
  - destruct (Ascii.eqb ":" a); [|done].
    destruct (Ascii.eqb_spec "/" b) as [<-|]; [|done].
    intros _. right. by left.
Qed.

Lemma contains_scheme_has_slash (s : string) :
  (forall x, In x (list_ascii_of_string s) -> x <> "/"%char) ->
  contains "://" s = false.
Proof.
  induction s as [|y s IH]; [done|]. intros H.
  cbn [contains].
  destruct (startswith "://" (String y s)) eqn:E.
  - apply startswith_scheme_has_slash in E. by apply H in E.
  - apply IH. intros x Hx. apply H. by right.
Qed.

(** The file name made from a URL holds none of the characters '/', '?',
    '&' and '='; it is never longer than the URL, and as long when the
    URL holds no "://"; sanitizing it again changes nothing.  Different
    URLs can get the same name. *)
Theorem sanitize_filename_safe (url : string) :
  (forall x, In x (list_ascii_of_string (_sanitize_filename url)) ->
             x <> "/"%char /\ x <> "?"%char /\ x <> "&"%char /\ x <> "="%char)
  /\ (String.length (_sanitize_filename url) <= String.length url)%nat
  /\ (contains "://" url = false ->
      String.length (_sanitize_filename url) = String.length url)
  /\ _sanitize_filename (_sanitize_filename url) = _sanitize_filename url
  /\ _sanitize_filename "a/b?c" = _sanitize_filename "a?b/c".
Proof.
  assert (forall u x,
            In x (list_ascii_of_string (_sanitize_filename u)) ->
            x <> "/"%char /\ x <> "?"%char /\ x <> "&"%char /\ x <> "="%char)
    as Hsafe.
  { intros u x. unfold _sanitize_filename.
    change "=" with (String "="%char EmptyString).
    change "&" with (String "&"%char EmptyString).
    change "?" with (String "?"%char EmptyString).
    change "/" with (String "/"%char EmptyString).
    change "_" with (String "_"%char EmptyString).
    rewrite !replace_char. intros H.
    apply subst_char_chars in H as [[-> H]|[N1 H]];
      [repeat split; discriminate|].
    apply subst_char_chars in H as [[-> H]|[N2 H]];
      [repeat split; discriminate|].
    apply subst_char_chars in H as [[-> H]|[N3 H]];
      [repeat split; discriminate|].
    apply subst_char_chars in H as [[-> H]|[N4 H]];
      [repeat split; discriminate|].
    done. }
  split; [apply Hsafe|]. split; [|split; [|split]].
  - unfold _sanitize_filename.
    change "=" with (String "="%char EmptyString).
    change "&" with (String "&"%char EmptyString).
    change "?" with (String "?"%char EmptyString).
    change "/" with (String "/"%char EmptyString).
    change "_" with (String "_"%char EmptyString).
    rewrite !replace_char, !subst_char_length.
    apply replace_from_length.
  - intros Hno. unfold _sanitize_filename.
    change "=" with (String "="%char EmptyString).
    change "&" with (String "&"%char EmptyString).
    change "?" with (String "?"%char EmptyString).
    change "/" with (String "/"%char EmptyString).
    change "_" with (String "_"%char EmptyString) at 1 2 3 4.
    rewrite !replace_char, !subst_char_length.
    unfold replace. by rewrite replace_from_absent.
  - specialize (Hsafe url).
    set (out := _sanitize_filename url) in *.
    unfold _sanitize_filename at 1.
    assert (replace "://" "_" out = out) as ->.
    { unfold replace. apply replace_from_absent, contains_scheme_has_slash.
      intros x Hx. by apply Hsafe in Hx as (? & _). }
    change "=" with (String "="%char EmptyString).
    change "&" with (String "&"%char EmptyString).
    change "?" with (String "?"%char EmptyString).
    change "/" with (String "/"%char EmptyString).
    change "_" with (String "_"%char EmptyString).
    rewrite !replace_char.
    rewrite (subst_char_absent "/"); [|intros x Hx; by apply Hsafe in Hx as (? & ? & ? & ?)].
    rewrite (subst_char_absent "?"); [|intros x Hx; by apply Hsafe in Hx as (? & ? & ? & ?)].
    rewrite (subst_char_absent "&"); [|intros x Hx; by apply Hsafe in Hx as (? & ? & ? & ?)].
    rewrite (subst_char_absent "="); [|intros x Hx; by apply Hsafe in Hx as (? & ? & ? & ?)].
    done.
  - reflexivity.
Qed.

End ScraperExtras.

(** ** The resolver: the LLM helper and its cache *)

Module ResolverExtras.
Import PyStr Runs RunChecks ResolverFacts ResolverTraces RankerFacts.

Local Arguments leads_to_visited : simpl never.
Local Arguments String.eqb : simpl never.

(** [_get_llm_selectors] never raises and leaves [state] alone.  With
    the text in the cache it returns the cached list without calling the
    LLM.  Otherwise it calls the LLM once.  When the call fails, or its
    answer cannot be read, the result is the empty list and nothing is
    cached.  When the answer is a list of suggestions, the result has one
    dictionary per suggestion, in the order of the answer, made of the
    selector of the suggestion, the text, the source "llm" and the type
    of the suggestion; that list is put in the cache under the text, so
    that the next call for the text returns it without calling the
    LLM. *)
Theorem llm_selectors_cached (env : Env) (page_html text : string)
    (st : St env) :
  let x := _get_llm_selectors env page_html text st in
  exists l,
    x.1.1 = Ok l
    /\ state x.1.2 = state st
    /\ ((selector_cache st !! text = Some l /\ x.2 = [] /\ x.1.2 = st)
        \/ (selector_cache st !! text = None
            /\ (exists e, (llm_selectors env text (world st)).1 = Raise e)
            /\ x.2 = [EvLLM text false]
            /\ l = []
            /\ world x.1.2 = (llm_selectors env text (world st)).2
            /\ selector_cache x.1.2 = selector_cache st)
        \/ (selector_cache st !! text = None
            /\ (exists suggestions,
                  (llm_selectors env text (world st)).1 = Ok suggestions
                  /\ l = List.map
                           (fun sel : string * string =>
                              [("selector", fst sel); ("text", text);
                               ("source", "llm");
                               ("selector_type", snd sel)])
                           suggestions)
            /\ x.2 = [EvLLM text true]
            /\ world x.1.2 = (llm_selectors env text (world st)).2
            /\ selector_cache x.1.2 = <[text := l]> (selector_cache st)
            /\ forall page_html2,
                 _get_llm_selectors env page_html2 text x.1.2
                 = (Ok l, x.1.2, []))).
Proof.
  cbv zeta. unfold _get_llm_selectors.
  destruct (selector_cache st !! text) as [cached|] eqn:Hc.
  { exists cached. cbn. split; [done|]. split; [done|]. by left. }
  unfold try_except, bind, call, ret.
  destruct (llm_selectors env text (world st)) as [[sels|e] w]; cbn.
  - eexists. split; [reflexivity|]. split; [done|].
    right; right. split; [done|]. split; [by exists sels|].
    split; [done|]. split; [done|]. split; [done|].
    intros _. cbn. by rewrite lookup_insert_eq.
  - exists []. split; [done|]. split; [done|]. right; left.
    split; [done|]. split; [by exists e|]. done.
Qed.


(** *** Failures that the loops absorb *)

Lemma entry_has_selector (sel text : string) :
  has_selector (Synthesis.entry sel text).
Proof. done. Qed.

Lemma items_selectors_have_selector (keep : string -> bool) (text : string)
    (s : dict) :
  Forall has_selector (Synthesis.items_selectors keep text s).
Proof.
  induction s as [|[k v] s IH]; cbn; [done|].
  destruct (keep k); [by constructor|done].
Qed.

Lemma named_selectors_have_selector (attrs : list string) (text : string)
    (s : dict) :
  Forall has_selector (Synthesis.named_selectors attrs text s).
Proof.
  induction attrs as [|a attrs IH]; cbn; [done|].
  destruct (Dict.get a s); [by constructor|done].
Qed.

Lemma element_selectors_have_selector (llm : list dict) (s : dict) :
  Forall has_selector llm ->
  Forall has_selector (Synthesis.element_selectors llm s).
Proof.
  intros Hllm. unfold Synthesis.element_selectors.
  repeat (apply Forall_app; split).
  - by destruct (truthy _).
  - destruct (Dict.get "selector" s) as [b|]; [|done].
    destruct (truthy b); [|done]. by repeat constructor.
  - destruct (truthy _); [|done]. by repeat constructor.
  - apply items_selectors_have_selector.
  - apply named_selectors_have_selector.
  - apply named_selectors_have_selector.
  - apply items_selectors_have_selector.
  - destruct (Dict.get "role" s); [|done].
    destruct (truthy _); [|done]. by repeat constructor.
Qed.

Lemma attempt_keeps_cache {env} (br : Browser env) (pg : Page env)
    (target : string) (visited : gset string) (sel : string) (st : St env) :
  selector_cache (attempt env br pg target visited sel st).1.2
  = selector_cache st.
Proof.
  unfold attempt, bind, call, try_except, ret, read_url, record_navigation.
  by crunch.
Qed.

(** One turn of the inner loop. *)
Lemma try_sorted_step {env} (br : Browser env) (pg : Page env)
    (target : string) (clicked visited : gset string) (d : dict)
    (rest : list dict) (sel : string) (st : St env) :
  dict_index "selector" d = Ok sel ->
  try_sorted env br pg target clicked visited (d :: rest) st
  = if bool_decide (sel ∈ clicked)
    then try_sorted env br pg target clicked visited rest st
    else
      match (attempt env br pg target visited sel st).1.1 with
      | Ok (Some o) =>
          (Ok (Some o), (attempt env br pg target visited sel st).1.2,
           (attempt env br pg target visited sel st).2)
      | _ =>
          ((try_sorted env br pg target clicked visited rest
              (attempt env br pg target visited sel st).1.2).1.1,
           (try_sorted env br pg target clicked visited rest
              (attempt env br pg target visited sel st).1.2).1.2,
           ((attempt env br pg target visited sel st).2
            ++ (try_sorted env br pg target clicked visited rest
                  (attempt env br pg target visited sel st).1.2).2)%list)
      end.
Proof.
  intros Hd. cbn [try_sorted]. unfold bind at 1, selector_of. rewrite Hd.
  destruct (bool_decide (sel ∈ clicked)).
  { by destruct (try_sorted env br pg target clicked visited rest st)
      as [[r st2] ev2]. }
  unfold bind, try_except, ret.
  destruct (attempt env br pg target visited sel st)
    as [[[[o|]|e] st1] ev1]; cbn.
  - by rewrite app_nil_r.
  - by destruct (try_sorted env br pg target clicked visited rest st1)
      as [[r st2] ev2].
  - rewrite app_nil_r.
    by destruct (try_sorted env br pg target clicked visited rest st1)
      as [[r st2] ev2].
Qed.

Lemma try_sorted_returns {env} (br : Browser env) (pg : Page env)
    (target : string) (clicked visited : gset string)
    (sorted_selectors : list dict) (st : St env) :
  Forall has_selector sorted_selectors ->
  is_ok (try_sorted env br pg target clicked visited sorted_selectors st).1.1
  = true
  /\ selector_cache
       (try_sorted env br pg target clicked visited sorted_selectors st).1.2
     = selector_cache st.
Proof.
  intros Hall. revert st.
  induction Hall as [|d rest Hd _ IH]; intros st; [done|].
  unfold has_selector, Dict.mem in Hd.
  destruct (Dict.get "selector" d) as [sel|] eqn:Hg; [|done].
  rewrite (try_sorted_step br pg target clicked visited d rest sel)
    by (unfold dict_index; by rewrite Hg).
  destruct (bool_decide (sel ∈ clicked)); [apply IH|].
  pose proof (attempt_keeps_cache br pg target visited sel st) as Hc.
  destruct (attempt env br pg target visited sel st)
    as [[[[o|]|e] st1] ev1]; cbn in *; [done| |];
    rewrite <- Hc; apply IH.
Qed.

Lemma get_llm_selectors_ok {env} (page_html text : string) (st : St env) :
  cache_ok st ->
  let x := _get_llm_selectors env page_html text st in
  cache_ok x.1.2
  /\ exists l, x.1.1 = Ok l /\ Forall has_selector l.
Proof.
  intros Hok. cbv zeta. unfold _get_llm_selectors.
  destruct (selector_cache st !! text) as [cached|] eqn:Hc.
  { cbn. split; [done|]. exists cached. split; [done|]. by eapply Hok. }
  unfold try_except, bind, call, ret.
  destruct (llm_selectors env text (world st)) as [[sels|e] w]; cbn.
  - assert (Forall has_selector
              (List.map (fun sel : string * string =>
                           [("selector", sel.1); ("text", text);
                            ("source", "llm"); ("selector_type", sel.2)])
                        sels)) as Hall.
    { apply List.Forall_forall. intros d Hd.
      by apply in_map_iff in Hd as (p & <- & _). }
    split; [|eauto].
    intros t l. cbn. destruct (decide (text = t)) as [->|Hne].
    + rewrite lookup_insert_eq. by intros [= <-].
    + rewrite lookup_insert_ne by done. apply Hok.
  - split; [|by exists []]. intros t l. cbn. apply Hok.
Qed.

(** One turn of the outer loop. *)
Lemma try_candidates_step {env} (br : Browser env) (pg : Page env)
    (target page_html : string) (clicked visited : gset string)
    (s : dict) (rest : list dict) (st st0 : St env)
    (rl : Res (list dict)) (ev0 : list Event) :
  (if truthy (Dict.get_default "text" EmptyString s)
   then _get_llm_selectors env page_html
          (Dict.get_default "text" EmptyString s)
   else ret env []) st = (rl, st0, ev0) ->
  try_candidates env br pg target page_html clicked visited (s :: rest) st
  = match rl with
    | Raise e => (Raise e, st0, ev0)
    | Ok llm =>
        match try_sorted env br pg target clicked visited
                (SelectorManager.rank_selectors
                   (Synthesis.element_selectors llm s)) st0 with
        | (Ok (Some o), st1, ev1) => (Ok (Some o), st1, (ev0 ++ ev1)%list)
        | (Ok None, st1, ev1) =>
            let '(r, st2, ev2) :=
              try_candidates env br pg target page_html clicked visited
                             rest st1 in
            (r, st2, (ev0 ++ ev1 ++ ev2)%list)
        | (Raise e, st1, ev1) => (Raise e, st1, (ev0 ++ ev1)%list)
        end
    end.
Proof.
  intros E. cbn [try_candidates]. unfold bind at 1. rewrite E.
  destruct rl as [llm|e]; [|done]. unfold bind, ret.
  destruct (try_sorted env br pg target clicked visited _ st0)
    as [[[[o|]|e] st1] ev1]; [by rewrite app_nil_r| |done].
  by destruct (try_candidates env br pg target page_html clicked visited
                              rest st1) as [[r st2] ev2].
Qed.

Lemma try_candidates_returns {env} (br : Browser env) (pg : Page env)
    (target page_html : string) (clicked visited : gset string)
    (ranked : list dict) (st : St env) :
  cache_ok st ->
  is_ok (try_candidates env br pg target page_html clicked visited
                        ranked st).1.1 = true
  /\ cache_ok (try_candidates env br pg target page_html clicked visited
                              ranked st).1.2.
Proof.
  revert st. induction ranked as [|s rest IH]; intros st Hok; [done|].
  set (text := Dict.get_default "text" EmptyString s).
  assert (let y := (if truthy text
                    then _get_llm_selectors env page_html text
                    else ret env []) st in
          cache_ok y.1.2 /\ exists l, y.1.1 = Ok l /\ Forall has_selector l)
    as Hllm.
  { destruct (truthy text); [by apply get_llm_selectors_ok|].
    cbn. split; [done|]. by exists []. }
  cbv zeta in Hllm.
  destruct ((if truthy text then _get_llm_selectors env page_html text
             else ret env []) st) as [[rl st0] ev0] eqn:E.
  cbn in Hllm. destruct Hllm as (Hok0 & llm & -> & Hl).
  rewrite (try_candidates_step br pg target page_html clicked visited
             s rest st st0 (Ok llm) ev0 E).
  pose proof (try_sorted_returns br pg target clicked visited
                (SelectorManager.rank_selectors
                   (Synthesis.element_selectors llm s)) st0) as Hs.
  destruct (try_sorted env br pg target clicked visited _ st0)
    as [[rs st1] ev1].
  cbn in Hs. destruct Hs as [Hr Hc].
  { unfold SelectorManager.rank_selectors. rewrite sorted_perm.
    by apply element_selectors_have_selector. }
  assert (cache_ok st1) as Hok1.
  { intros t l. rewrite Hc. apply Hok0. }
  destruct rs as [[o|]|e]; cbn in Hr |- *; [done| |done].
  specialize (IH st1 Hok1).
  by destruct (try_candidates env br pg target page_html clicked visited
                              rest st1) as [[r st2] ev2].
Qed.

Lemma with_browser_raises {env} (target : string) (selectors : list dict)
    (clicked visited : gset string) (p : PlaywrightH env) (st : St env) :
  cache_ok st ->
  let x := with_browser env target selectors clicked visited p st in
  cache_ok x.1.2
  /\ (is_ok x.1.1 = false -> Exists lifecycle_failure x.2).
Proof.
  intros Hok. cbv zeta.
  unfold with_browser, load_page, bind, call, try_except, ret.
  crunch.
  all: repeat match goal with
       | H : try_candidates _ ?br ?pg ?t ?h ?c ?v ?l ?s = _ |- _ =>
           let C := fresh "C" in
           assert (cache_ok s) as C by (intros ? ?; cbn; apply Hok);
           pose proof (try_candidates_returns br pg t h c v l s C) as Ret;
           rewrite H in Ret; clear H; cbn in Ret;
           destruct Ret as [Ret1 Ret2]
       end.
  all: try discriminate.
  all: split;
    [ first [ done | intros ? ?; cbn; first [apply Ret2 | apply Hok] ] |].
  all: intros Hf; try discriminate Hf; clear Hf.
  all: rewrite ?Exists_cons, ?Exists_app, ?Exists_cons; cbn; tauto.
Qed.

(** For candidates and LLM suggestions whose fields are strings (the
    dictionaries of this development) and a cache whose lists hold only
    dictionaries with a ['selector'] key, which the call keeps so, the
    call raises only when a call outside every [try] block failed: the
    start or stop of the Playwright session, the launch, the context, the
    page, [browser.close()] or [page.content()].  A failed probe, check,
    click, page load or LLM request never makes it raise, and no
    dictionary built along the way lacks the ['selector'] key read from
    it. *)
Theorem resolver_raises_only_on_lifecycle (env : Env) (target : string)
    (selectors : list dict) (st : St env) :
  cache_ok st ->
  let x := _try_selectors env target selectors st in
  cache_ok x.1.2
  /\ (is_ok x.1.1 = false -> Exists lifecycle_failure x.2).
Proof.
  intros Hok. cbv zeta. unfold _try_selectors.
  destruct (negb (truthy target) || is_nil selectors); [done|].
  destruct (is_nil _); [done|].
  unfold async_with, call.
  destruct (pw_start env (world st)) as [[p|e] w]; cbn.
  2: { split; [intros ? ?; cbn; apply Hok|]. intros _. by left. }
  match goal with
  | |- context [with_browser env ?t ?l ?c ?v ?p ?s] =>
      assert (cache_ok s) as Hok1 by (intros ? ?; cbn; apply Hok);
      pose proof (with_browser_raises t l c v p s Hok1) as Hb;
      destruct (with_browser env t l c v p s) as [[r st2] ev2]
  end.
  cbv zeta in Hb. cbn in Hb. destruct Hb as [Hc Hr].
  destruct (pw_stop env p (world st2)) as [[[]|e] w3]; cbn.
  - split; [intros ? ?; cbn; apply Hc|].
    intros Hf. right. apply Exists_app. left. by apply Hr.
  - split; [intros ? ?; cbn; apply Hc|].
    intros _. right. apply Exists_app. right. by left.
Qed.

(** On the example site with a home page whose markup cannot be read,
    with the empty cache of a new orchestrator: the call raises, and
    [page.content()] is the call that failed. *)
Lemma resolver_raises_only_on_lifecycle_witness :
  cache_ok (Toy.start site_unreadable_home Toy.fresh)
  /\ is_ok (_try_selectors (Toy.env site_unreadable_home) Toy.home
                           Toy.candidates
                           (Toy.start site_unreadable_home Toy.fresh)).1.1
     = false
  /\ Exists lifecycle_failure
            (_try_selectors (Toy.env site_unreadable_home) Toy.home
                            Toy.candidates
                            (Toy.start site_unreadable_home Toy.fresh)).2
  /\ In (EvContent (Raise External))
        (_try_selectors (Toy.env site_unreadable_home) Toy.home
                        Toy.candidates
                        (Toy.start site_unreadable_home Toy.fresh)).2.
Proof.
  assert (cache_ok (Toy.start site_unreadable_home Toy.fresh)) as Hok.
  { intros t l. cbn. by rewrite lookup_empty. }
  split; [exact Hok|].
  split; [vm_compute; reflexivity|].
  split; [|vm_compute; tauto].
  exact (proj2 (resolver_raises_only_on_lifecycle
                  (Toy.env site_unreadable_home) Toy.home Toy.candidates
                  (Toy.start site_unreadable_home Toy.fresh) Hok)
               eq_refl).
Defined.


(** *** Where the selector of an outcome comes from *)

(** The three shapes of a call: an early return, a failed start of the
    Playwright session, or the block under [async with] between the start
    and the stop of the session. *)
Lemma try_selectors_unfold (env : Env) (target : string)
    (selectors : list dict) (st : St env) :
  _try_selectors env target selectors st = (Ok None, st, [])
  \/ (exists e w,
        _try_selectors env target selectors st
        = (Raise e, mkSt w (state st) (selector_cache st), [EvStart false]))
  \/ (exists p w r st2 ev2 (x : Res unit) w3,
        List.filter (not_clicked (clicked_at st)) selectors <> []
        /\ with_browser env target
             (List.filter (not_clicked (clicked_at st)) selectors)
             (clicked_at st) (visited_at st) p
             (mkSt w (state st) (selector_cache st)) = (r, st2, ev2)
        /\ _try_selectors env target selectors st
           = (match x with Ok _ => r | Raise e => Raise e end,
              mkSt w3 (state st2) (selector_cache st2),
              (EvStart true :: ev2 ++ [EvStop (is_ok x)])%list)).
Proof.
  unfold _try_selectors.
  destruct (negb (truthy target) || is_nil selectors); [by left|].
  fold (clicked_at st) (visited_at st).
  destruct (List.filter (not_clicked (clicked_at st)) selectors)
    as [|s0 sels] eqn:Hf; [by left|].
  cbn [is_nil]. unfold async_with, call.
  destruct (pw_start env (world st)) as [[p|e] w]; cbn.
  2: { right; left. by exists e, w. }
  right; right.
  destruct (with_browser env target (s0 :: sels) (clicked_at st)
              (visited_at st) p _) as [[r st2] ev2] eqn:Hb.
  destruct (pw_stop env p (world st2)) as [x w3] eqn:Hs. cbn.
  exists p, w, r, st2, ev2, x, w3. by rewrite Hb.
Qed.

Lemma attempt_outcome_selector {env} (br : Browser env) (pg : Page env)
    (target : string) (visited : gset string) (sel : string) (st : St env)
    (o : Outcome env) :
  (attempt env br pg target visited sel st).1.1 = Ok (Some o) ->
  selector o = sel.
Proof.
  unfold attempt, bind, call, try_except, ret, read_url, record_navigation.
  crunch; intros [=]; by subst.
Qed.

Lemma try_sorted_outcome_selector {env} (br : Browser env) (pg : Page env)
    (target : string) (clicked visited : gset string)
    (sorted_selectors : list dict) (st : St env) (o : Outcome env) :
  (try_sorted env br pg target clicked visited sorted_selectors st).1.1
  = Ok (Some o) ->
  exists d, In d sorted_selectors
            /\ Dict.get "selector" d = Some (selector o).
Proof.
  revert st. induction sorted_selectors as [|d rest IH]; intros st; [done|].
  destruct (dict_index "selector" d) as [sel|e] eqn:Hd.
  2: { cbn [try_sorted]. unfold bind, selector_of. by rewrite Hd. }
  rewrite (try_sorted_step br pg target clicked visited d rest sel st Hd).
  assert (Dict.get "selector" d = Some sel) as Hg.
  { unfold dict_index in Hd. by destruct (Dict.get "selector" d) as [?|];
      simplify_eq. }
  destruct (bool_decide (sel ∈ clicked)).
  { intros (d' & Hin & Hs)%IH. exists d'. split; [by right|done]. }
  pose proof (attempt_outcome_selector br pg target visited sel st) as Ha.
  destruct (attempt env br pg target visited sel st)
    as [[[[o'|]|e] st1] ev1]; cbn in *.
  - intros [= ->]. exists d. split; [by left|]. by rewrite (Ha o eq_refl).
  - intros (d' & Hin & Hs)%IH. exists d'. split; [by right|done].
  - intros (d' & Hin & Hs)%IH. exists d'. split; [by right|done].
Qed.

Lemma cache_grows_same {env} (st st' : St env) (evs : list Event) :
  selector_cache st' = selector_cache st -> cache_grows st st' evs.
Proof. intros E. unfold cache_grows. rewrite E. split; auto. Qed.

Lemma cache_grows_trans {env} (st st1 st2 : St env) (ev1 ev2 : list Event) :
  cache_grows st st1 ev1 -> cache_grows st1 st2 ev2 ->
  cache_grows st st2 (ev1 ++ ev2).
Proof.
  intros [A1 A2] [B1 B2]. split.
  - intros t l H. by apply B1, A1.
  - intros t l H. destruct (B2 t l H) as [H1|H1].
    + destruct (A2 t l H1) as [H0|H0]; [by left|].
      right. apply in_or_app. by left.
    + right. apply in_or_app. by right.
Qed.

Lemma try_sorted_keeps_cache {env} (br : Browser env) (pg : Page env)
    (target : string) (clicked visited : gset string)
    (sorted_selectors : list dict) (st : St env) :
  selector_cache
    (try_sorted env br pg target clicked visited sorted_selectors st).1.2
  = selector_cache st.
Proof.
  revert st. induction sorted_selectors as [|d rest IH]; intros st; [done|].
  destruct (dict_index "selector" d) as [sel|e] eqn:Hd.
  2: { cbn [try_sorted]. unfold bind, selector_of. by rewrite Hd. }
  rewrite (try_sorted_step br pg target clicked visited d rest sel st Hd).
  destruct (bool_decide (sel ∈ clicked)); [apply IH|].
  pose proof (attempt_keeps_cache br pg target visited sel st) as Hc.
  destruct (attempt env br pg target visited sel st)
    as [[[[o|]|e] st1] ev1]; cbn in *; [done| |];
    rewrite <- Hc; apply IH.
Qed.

Lemma get_llm_selectors_cache {env} (page_html text : string) (st : St env) :
  let x := _get_llm_selectors env page_html text st in
  cache_grows st x.1.2 x.2
  /\ exists l, x.1.1 = Ok l
               /\ (l = [] \/ selector_cache x.1.2 !! text = Some l).
Proof.
  cbv zeta. unfold _get_llm_selectors.
  destruct (selector_cache st !! text) as [cached|] eqn:Hc.
  { cbn. split; [by apply cache_grows_same|]. exists cached. auto. }
  unfold try_except, bind, call, ret.
  destruct (llm_selectors env text (world st)) as [[sels|e] w]; cbn.
  - split.
    + split; cbn.
      * intros t l Ht. destruct (decide (text = t)) as [->|Hne];
          [congruence|]. by rewrite lookup_insert_ne.
      * intros t l. destruct (decide (text = t)) as [->|Hne].
        -- intros _. right. by left.
        -- rewrite lookup_insert_ne by done. by left.
    + eexists. split; [reflexivity|]. right. by rewrite lookup_insert_eq.
  - split; [by apply cache_grows_same|]. exists []. auto.
Qed.

Lemma try_candidates_provenance {env} (br : Browser env) (pg : Page env)
    (target page_html : string) (clicked visited : gset string)
    (ranked : list dict) (st st' : St env)
    (r : Res (option (Outcome env))) (evs : list Event) :
  try_candidates env br pg target page_html clicked visited ranked st
  = (r, st', evs) ->
  cache_grows st st' evs
  /\ forall o, r = Ok (Some o) ->
       exists s llm,
         In s ranked
         /\ (llm = []
             \/ (Dict.get_default "text" EmptyString s <> EmptyString
                 /\ selector_cache st'
                      !! Dict.get_default "text" EmptyString s = Some llm))
         /\ In (Some (selector o))
               (List.map (Dict.get "selector")
                         (Synthesis.element_selectors llm s)).
Proof.
  revert st st' r evs.
  induction ranked as [|s rest IH]; intros st st' r evs.
  { intros [= <- <- <-]. split; [by apply cache_grows_same|done]. }
  set (text := Dict.get_default "text" EmptyString s).
  assert (let y := (if truthy text
                    then _get_llm_selectors env page_html text
                    else ret env []) st in
          cache_grows st y.1.2 y.2
          /\ exists l, y.1.1 = Ok l
                       /\ (l = [] \/ (text <> EmptyString
                                      /\ selector_cache y.1.2 !! text
                                         = Some l))) as Hllm.
  { destruct (truthy text) eqn:Tr.
    - destruct (get_llm_selectors_cache page_html text st)
        as (G & l & Hl & Hc).
      split; [done|]. exists l. split; [done|].
      destruct Hc as [->|Hc]; [by left|]. right. split; [|done].
      intros E. by rewrite E in Tr.
    - cbn. split; [by apply cache_grows_same|]. exists []. auto. }
  cbv zeta in Hllm.
  destruct ((if truthy text then _get_llm_selectors env page_html text
             else ret env []) st) as [[rl st0] ev0] eqn:E.
  cbn in Hllm. destruct Hllm as (G0 & llm & -> & Hl).
  rewrite (try_candidates_step br pg target page_html clicked visited
             s rest st st0 (Ok llm) ev0 E).
  pose proof (try_sorted_keeps_cache br pg target clicked visited
                (SelectorManager.rank_selectors
                   (Synthesis.element_selectors llm s)) st0) as Kc.
  pose proof (try_sorted_outcome_selector br pg target clicked visited
                (SelectorManager.rank_selectors
                   (Synthesis.element_selectors llm s)) st0) as Hs.
  destruct (try_sorted env br pg target clicked visited _ st0)
    as [[[[o'|]|e] st1] ev1]; cbn in Kc, Hs.
  - intros [= <- <- <-]. split.
    { apply (cache_grows_trans st st0); [done|by apply cache_grows_same]. }
    intros o [= <-]. destruct (Hs o' eq_refl) as (d & Hin & Hd).
    exists s, llm. split; [by left|]. split.
    { destruct Hl as [->|[Hne Hc]]; [by left|]. right. by rewrite Kc. }
    apply in_map_iff. exists d. split; [done|].
    apply list_elem_of_In. apply list_elem_of_In in Hin.
    unfold SelectorManager.rank_selectors in Hin.
    by rewrite sorted_perm in Hin.
  - destruct (try_candidates env br pg target page_html clicked visited
                             rest st1) as [[r2 st2] ev2] eqn:Er.
    destruct (IH st1 st2 r2 ev2 Er) as [G2 P2].
    intros [= <- <- <-]. split.
    { apply (cache_grows_trans st st0); [done|].
      apply (cache_grows_trans st0 st1); [by apply cache_grows_same|done]. }
    intros o Ho. destruct (P2 o Ho) as (s' & llm' & Hin & Hc & Hs').
    exists s', llm'. split; [by right|done].
  - intros [= <- <- <-]. split; [|done].
    apply (cache_grows_trans st st0); [done|by apply cache_grows_same].
Qed.

Lemma with_browser_provenance {env} (target : string)
    (selectors : list dict) (clicked visited : gset string)
    (p : PlaywrightH env) (st : St env) :
  let x := with_browser env target selectors clicked visited p st in
  cache_grows st x.1.2 x.2
  /\ forall o, x.1.1 = Ok (Some o) ->
       exists s llm,
         In s selectors
         /\ (llm = []
             \/ (Dict.get_default "text" EmptyString s <> EmptyString
                 /\ selector_cache x.1.2
                      !! Dict.get_default "text" EmptyString s = Some llm))
         /\ In (Some (selector o))
               (List.map (Dict.get "selector")
                         (Synthesis.element_selectors llm s)).
Proof.
  unfold with_browser, load_page, bind, call, try_except, ret.
  crunch.
  all: repeat match goal with
       | H : try_candidates _ ?br ?pg ?t ?h ?c ?v ?l ?s = _ |- _ =>
           pose proof (try_candidates_provenance
                         br pg t h c v l s _ _ _ H) as [[G1 G2] Prov];
           clear H; cbn in G1, G2, Prov
       end.
  all: split;
    [ split; cbn;
      [ first [ exact G1 | by auto ]
      | first [ intros t' l' Hl'; destruct (G2 t' l' Hl') as [?|?];
                [ by left
                | right; rewrite ?in_app_iff; cbn; tauto ]
              | by auto ] ]
    | ].
  all: intros o' Ho'; try discriminate Ho'.
  all: injection Ho' as <-.
  all: destruct (Prov _ eq_refl) as (s' & llm & Hin & Hl & Hs).
  all: exists s', llm; split; [|done].
  all: apply list_elem_of_In; apply list_elem_of_In in Hin.
  all: unfold SelectorManager.rank_selectors in Hin.
  all: by rewrite sorted_perm in Hin.
Qed.

(** The selector of a returned outcome was not in [already_clicked] at
    entry, and it is among the selectors synthesized for a candidate of
    the call that passed the initial filter, from its fields and from
    the list [llm] of LLM suggestions for its text.  That list is empty,
    or the candidate has a text and [llm] is the list cached under that
    text at the end of the call, which was in the cache at entry or was
    stored after the LLM answered a request for that text during the
    call. *)
Theorem outcome_selector_provenance (env : Env) (target : string)
    (selectors : list dict) (st : St env) (o : Outcome env) :
  (_try_selectors env target selectors st).1.1 = Ok (Some o) ->
  (selector o ∉ clicked_at st)
  /\ exists s llm,
       In s selectors
       /\ not_clicked (clicked_at st) s = true
       /\ (llm = []
           \/ (Dict.get_default "text" EmptyString s <> EmptyString
               /\ selector_cache (_try_selectors env target selectors st).1.2
                    !! Dict.get_default "text" EmptyString s = Some llm
               /\ (selector_cache st
                     !! Dict.get_default "text" EmptyString s = Some llm
                   \/ In (EvLLM (Dict.get_default "text" EmptyString s) true)
                         (_try_selectors env target selectors st).2)))
       /\ In (Some (selector o))
             (List.map (Dict.get "selector")
                       (Synthesis.element_selectors llm s)).
Proof.
  intros Ho. split.
  - pose proof (ResolverClaims.try_selectors_events env target selectors st) as Hev.
    destruct (try_selectors_unfold env target selectors st)
      as [E|[(e & w & E)|(p & w & r & st2 & ev2 & x & w3 & _ & Hb & E)]];
      rewrite E in Ho, Hev; cbn in Ho, Hev; [done..|].
    pose proof (with_browser_run target
                  (List.filter (not_clicked (clicked_at st)) selectors)
                  (clicked_at st) (visited_at st) p
                  (mkSt w (state st) (selector_cache st))) as (Eff & _).
    rewrite Hb in Eff. unfold loop_effect in Eff. cbn in Eff.
    destruct x as [[]|]; [|done]. subst r.
    destruct Eff as (_ & pre & u0 & h & ok & -> & _).
    rewrite List.Forall_forall in Hev.
    assert (In (EvClick (selector o) h true)
               (EvStart true
                :: (pre ++ [EvUrl u0; EvClick (selector o) h true;
                            EvWaitIdle ok; EvUrl (url o);
                            EvContent (Ok (html o))]) ++ [EvStop true]))
      as Hin.
    { right. apply in_or_app. left. apply in_or_app. right.
      right. by left. }
    by apply Hev in Hin as [? _].
  - destruct (try_selectors_unfold env target selectors st)
      as [E|[(e & w & E)|(p & w & r & st2 & ev2 & x & w3 & _ & Hb & E)]];
      rewrite E in Ho |- *; cbn in Ho |- *; [done..|].
    destruct x as [[]|]; [|done]. subst r.
    pose proof (with_browser_provenance target
                  (List.filter (not_clicked (clicked_at st)) selectors)
                  (clicked_at st) (visited_at st) p
                  (mkSt w (state st) (selector_cache st))) as Hp.
    cbv zeta in Hp. rewrite Hb in Hp. cbn in Hp.
    destruct Hp as [[G1 G2] Hp].
    destruct (Hp o eq_refl) as (s & llm & Hin & Hl & Hs).
    apply filter_In in Hin as [Hin Hk]. exists s, llm.
    split; [done|]. split; [done|]. split; [|done].
    destruct Hl as [->|[Hne Hc]]; [by left|]. right.
    split; [done|]. split; [done|].
    destruct (G2 _ _ Hc) as [H0|H0]; [by left|]. right.
    right. apply in_or_app. by left.
Qed.

(** On the example site, for a candidate whose own selector finds
    nothing: the selector returned is the XPath made from the text of
    the candidate, and is the selector of no candidate as given. *)
Lemma outcome_selector_provenance_witness :
  (_try_selectors (Toy.env Toy.site) Toy.home mislabelled_candidates
                  (Toy.start Toy.site Toy.fresh)).1.1
  = Ok (Some form_outcome)
  /\ Forall (fun s => Dict.get "selector" s <> Some (selector form_outcome))
            mislabelled_candidates
  /\ (selector form_outcome ∉ clicked_at (Toy.start Toy.site Toy.fresh))
  /\ exists s llm,
       In s mislabelled_candidates
       /\ not_clicked (clicked_at (Toy.start Toy.site Toy.fresh)) s = true
       /\ (llm = []
           \/ (Dict.get_default "text" EmptyString s <> EmptyString
               /\ selector_cache
                    (_try_selectors (Toy.env Toy.site) Toy.home
                       mislabelled_candidates
                       (Toy.start Toy.site Toy.fresh)).1.2
                    !! Dict.get_default "text" EmptyString s = Some llm
               /\ (selector_cache (Toy.start Toy.site Toy.fresh)
                     !! Dict.get_default "text" EmptyString s = Some llm
                   \/ In (EvLLM (Dict.get_default "text" EmptyString s) true)
                         (_try_selectors (Toy.env Toy.site) Toy.home
                            mislabelled_candidates
                            (Toy.start Toy.site Toy.fresh)).2)))
       /\ In (Some (selector form_outcome))
             (List.map (Dict.get "selector")
                       (Synthesis.element_selectors llm s)).
Proof.
  split; [vm_compute; reflexivity|].
  split; [repeat constructor; discriminate|].
  apply (outcome_selector_provenance (Toy.env Toy.site) Toy.home
           mislabelled_candidates (Toy.start Toy.site Toy.fresh)
           form_outcome).
  vm_compute; reflexivity.
Defined.

(** *** From one call to the next *)





(** *** The initial page load *)

Lemma loop_event_not_load (env : Env) (c v : gset string) (t : string)
    (l : list Event) :
  Forall (loop_event env c v t) l ->
  existsb load_failure l = false /\ existsb page_loaded l = false.
Proof.
  induction 1 as [|e l He _ [IH1 IH2]]; [done|].
  cbn. rewrite IH1, IH2. by destruct e.
Qed.

Lemma with_browser_load {env} (target : string) (selectors : list dict)
    (clicked visited : gset string) (p : PlaywrightH env) (st : St env) :
  let x := with_browser env target selectors clicked visited p st in
  (existsb load_failure x.2 = true ->
   List.filter is_page_work x.2 = []
   /\ closes x.2 = 1%nat
   /\ state x.1.2 = state st
   /\ selector_cache x.1.2 = selector_cache st
   /\ (x.1.1 = Ok None \/ (is_ok x.1.1 = false /\ In (EvClose false) x.2)))
  /\ (existsb is_page_work x.2 = true -> existsb page_loaded x.2 = true).
Proof.
  unfold with_browser, load_page, bind, call, try_except, ret.
  crunch.
  all: repeat match goal with
       | H : try_candidates _ ?br ?pg ?t ?h ?c ?v ?l ?s = _ |- _ =>
           pose proof (loop_event_not_load _ c v t _
                         (try_candidates_emits br pg t h c v l s))
             as [Nf Nl];
           rewrite H in Nf, Nl; clear H; cbn in Nf, Nl
       end.
  all: rewrite ?app_nil_r, ?existsb_app, ?Nf; cbn.
  all: split; [|done].
  all: intros Hf; try discriminate Hf; clear Hf.
  all: cbn; intuition auto.
Qed.

(** When the initial page load fails for good (the viewport cannot be
    set, the full-screen script raises, or the second [page.goto] raises
    after the first did), the call does nothing with the page or the
    LLM: the markup is not read, no selector is probed and nothing is
    clicked; [browser.close()] is called once; [state] and the selector
    cache are as before; and no outcome is returned. *)
Theorem failed_page_load_ends_call (env : Env) (target : string)
    (selectors : list dict) (st : St env) :
  let x := _try_selectors env target selectors st in
  existsb load_failure x.2 = true ->
  List.filter is_page_work x.2 = []
  /\ closes x.2 = 1%nat
  /\ state x.1.2 = state st
  /\ selector_cache x.1.2 = selector_cache st
  /\ (x.1.1 = Ok None
      \/ (is_ok x.1.1 = false
          /\ (In (EvClose false) x.2 \/ In (EvStop false) x.2))).
Proof.
  cbv zeta.
  destruct (try_selectors_unfold env target selectors st)
    as [E|[(e & w & E)|(p & w & r & st2 & ev2 & x & w3 & _ & Hb & E)]];
    rewrite E; cbn; [done..|].
  pose proof (with_browser_load target
                (List.filter (not_clicked (clicked_at st)) selectors)
                (clicked_at st) (visited_at st) p
                (mkSt w (state st) (selector_cache st))) as [Hl _].
  rewrite Hb in Hl. cbn in Hl.
  rewrite existsb_app. cbn. rewrite orb_false_r. intros Hf.
  destruct (Hl Hf) as (Hw & Hc & Hs & Hk & Hr).
  unfold closes in *. rewrite !List.filter_app, Hw, length_app, Hc.
  split; [done|]. split; [done|]. split; [done|]. split; [done|].
  destruct x as [[]|e]; cbn.
  - destruct Hr as [->|[Hr Hin]]; [by left|]. right. split; [done|].
    left. right. apply in_or_app. by left.
  - right. split; [done|]. right. right. apply in_or_app. right. by left.
Qed.

(** On the example site that cannot be loaded. *)
Lemma failed_page_load_ends_call_witness :
  existsb load_failure
    (_try_selectors (Toy.env Toy.site_down) Toy.home Toy.candidates
                    (Toy.start Toy.site_down Toy.fresh)).2 = true
  /\ List.filter is_page_work
       (_try_selectors (Toy.env Toy.site_down) Toy.home Toy.candidates
                       (Toy.start Toy.site_down Toy.fresh)).2 = []
  /\ closes (_try_selectors (Toy.env Toy.site_down) Toy.home Toy.candidates
                            (Toy.start Toy.site_down Toy.fresh)).2 = 1%nat.
Proof.
  split; [vm_compute; reflexivity|].
  pose proof (failed_page_load_ends_call (Toy.env Toy.site_down) Toy.home
                Toy.candidates (Toy.start Toy.site_down Toy.fresh)
                eq_refl) as (Hw & Hc & _).
  split; [exact Hw | exact Hc].
Defined.

(** The markup is read, the LLM is asked, a selector is probed or an
    element is clicked only in a call in which one of the two
    [page.goto] calls went through. *)
Theorem page_work_needs_loaded_page (env : Env) (target : string)
    (selectors : list dict) (st : St env) :
  let x := _try_selectors env target selectors st in
  existsb is_page_work x.2 = true ->
  existsb page_loaded x.2 = true /\ existsb load_failure x.2 = false.
Proof.
  cbv zeta.
  destruct (try_selectors_unfold env target selectors st)
    as [E|[(e & w & E)|(p & w & r & st2 & ev2 & x & w3 & _ & Hb & E)]];
    rewrite E; cbn; [done..|].
  pose proof (with_browser_load target
                (List.filter (not_clicked (clicked_at st)) selectors)
                (clicked_at st) (visited_at st) p
                (mkSt w (state st) (selector_cache st))) as [Hl Hp].
  rewrite Hb in Hl, Hp. cbn in Hl, Hp.
  rewrite !existsb_app. cbn. rewrite !orb_false_r. intros Hw.
  split; [by apply Hp|].
  destruct (existsb load_failure ev2) eqn:Hf; [|done].
  destruct (Hl eq_refl) as (Hn & _).
  assert (existsb is_page_work ev2 = false) as Hno; [|congruence].
  clear -Hn. induction ev2 as [|e l IH]; [done|].
  cbn in *. destruct (is_page_work e); [done|]. by apply IH.
Qed.

(** On the example site. *)
Lemma page_work_needs_loaded_page_witness :
  existsb is_page_work
    (_try_selectors (Toy.env Toy.site) Toy.home Toy.candidates
                    (Toy.start Toy.site Toy.fresh)).2 = true
  /\ existsb page_loaded
       (_try_selectors (Toy.env Toy.site) Toy.home Toy.candidates
                       (Toy.start Toy.site Toy.fresh)).2 = true
  /\ existsb load_failure
       (_try_selectors (Toy.env Toy.site) Toy.home Toy.candidates
                       (Toy.start Toy.site Toy.fresh)).2 = false.
Proof.
  split; [vm_compute; reflexivity|].
  exact (page_work_needs_loaded_page (Toy.env Toy.site) Toy.home
           Toy.candidates (Toy.start Toy.site Toy.fresh) eq_refl).
Defined.

End ResolverExtras.

(** ** The CSV of form fields *)

Module FormsExtras.
Import Forms.

Lemma field_row_form_dict (f : tag) : field_row (form_dict f) = Done unknown_row.
Proof. reflexivity. Qed.

Lemma traverse_form_dicts (fs : list tag) :
  traverse field_row (List.map form_dict fs)
  = Done (repeat unknown_row (length fs)).
Proof.
  induction fs as [|f fs IH]; [done|].
  cbn [List.map traverse length repeat].
  by rewrite field_row_form_dict, IH.
Qed.

(** The rows written for the forms that [extract_form_fields_node]
    collects never show a field of the page: [save_form_fields_csv]
    reads [name], [label], [type] and [options] from each element of
    [parsed_forms], and [extract_forms] puts there one dictionary per
    [form] element with the keys [action], [method] and [inputs].
    Whatever the pages and the answers of the LLM, the CSV holds the
    header and then one row [unknown, unknown, N/A] per [form] element;
    the names and types of the inputs, kept under [inputs], are not
    written. *)
Theorem csv_rows_ignore_parsed_inputs (soup_of : string -> option tag)
    (pages : list (pyval * string)) :
  save_form_fields_csv
    (PList (List.map (fun p => forms_entry soup_of (fst p) (snd p)) pages))
  = Done ([PStr "field_name"; PStr "type"; PStr "options"]
          :: repeat unknown_row
               (length (List.flat_map
                          (fun p => extract_forms soup_of (snd p)) pages))).
Proof.
  unfold save_form_fields_csv, field_rows. cbn [iter and_then].
  assert (traverse form_rows
            (List.map (fun p => forms_entry soup_of (fst p) (snd p)) pages)
          = Done (List.map
                    (fun p => repeat unknown_row
                                (length (extract_forms soup_of (snd p))))
                    pages)) as ->.
  { induction pages as [|[llm html] pages IH]; [done|].
    cbn [List.map traverse]. rewrite IH.
    unfold form_rows at 1, forms_entry at 1. cbn [get and_then].
    change (dict_get _ "parsed_forms" (PList []))
      with (PList (extract_forms soup_of html)).
    cbn [iter and_then fst snd].
    unfold extract_forms. destruct (soup_of html) as [soup|]; [|done].
    by rewrite traverse_form_dicts, length_map. }
  cbn [and_then]. do 2 f_equal.
  induction pages as [|[llm html] pages IH]; [done|].
  cbn [List.map List.concat List.flat_map snd].
  by rewrite IH, length_app, repeat_app.
Qed.

(** Every row that [save_form_fields_csv] writes after the header has
    three cells; the name is never empty, [None] or otherwise false, and
    the options cell is a string. *)
Theorem csv_rows_have_a_name (forms_data : pyval)
    (written : list (list pyval)) :
  save_form_fields_csv forms_data = Done written ->
  exists rows,
    written = [PStr "field_name"; PStr "type"; PStr "options"] :: rows
    /\ Forall (fun row => exists name ftype options_str,
                 row = [name; ftype; PStr options_str]
                 /\ truthy name = true) rows.
Proof.
  unfold save_form_fields_csv, field_rows, and_then.
  destruct (iter forms_data) as [forms|]; [|done].
  destruct (traverse form_rows forms) as [rss|] eqn:Hrss; [|done].
  intros [= <-]. eexists. split; [done|].
  assert (forall fields rows, traverse field_row fields = Done rows ->
            Forall (fun row => exists name ftype options_str,
                      row = [name; ftype; PStr options_str]
                      /\ truthy name = true) rows) as Hrow.
  { induction fields as [|field fields IH]; intros rows; cbn.
    - intros [= <-]. constructor.
    - destruct (field_row field) as [row|] eqn:Hf; [|done]. cbn.
      destruct (traverse field_row fields) as [rows'|]; [|done]. cbn.
      intros [= <-]. constructor; [|by apply IH].
      clear -Hf. unfold field_row, and_then, get in Hf.
      destruct field as [| | | | |d]; try done.
      destruct (truthy (dict_get d "name" PNone)) eqn:Hn.
      + destruct (if truthy (dict_get d "options" (PList [])) then _ else _)
          as [s|]; [|done].
        injection Hf as <-. by eexists _, _, _.
      + destruct (truthy (dict_get d "label" PNone)) eqn:Hl;
          destruct (if truthy (dict_get d "options" (PList [])) then _ else _)
            as [s|]; try done; injection Hf as <-; by eexists _, _, _. }
  revert rss Hrss. induction forms as [|form forms IH]; intros rss; cbn.
  - intros [= <-]. constructor.
  - destruct (form_rows form) as [rs|] eqn:Hf; [|done]. cbn.
    destruct (traverse form_rows forms) as [rss'|]; [|done]. cbn.
    intros [= <-]. cbn. apply Forall_app. split; [|by apply IH].
    unfold form_rows, and_then in Hf.
    destruct (get form "parsed_forms" (PList [])) as [fields|]; [|done].
    destruct (iter fields) as [items|]; [|done]. by eapply Hrow.
Qed.

(** On the page with the loan form, paired with an answer of the LLM
    that names two fields. *)
Lemma csv_rows_have_a_name_witness :
  exists rows,
    [ [PStr "field_name"; PStr "type"; PStr "options"];
      [PStr "email"; PStr "email"; PStr "N/A"];
      [PStr "Term"; PStr "select"; PStr "12, 24"] ]
    = [PStr "field_name"; PStr "type"; PStr "options"] :: rows
    /\ Forall (fun row => exists name ftype options_str,
                 row = [name; ftype; PStr options_str]
                 /\ truthy name = true) rows.
Proof.
  apply (csv_rows_have_a_name
           (PList [PDict [("parsed_forms",
                           PList [PDict [("name", PStr "email");
                                         ("type", PStr "email")];
                                  PDict [("label", PStr "Term");
                                         ("type", PStr "select");
                                         ("options",
                                          PList [PStr "12"; PStr "24"])]])]])).
  reflexivity.
Defined.

(** On the page with the loan form: the three controls are found, also
    the two below the [div], with their names and types; the CSV gets
    one row for the form, and none of the names. *)
Example loan_form_rows :
  let soup_of := fun _ : string => Some loan_page in
  extract_forms soup_of "<html/>"
  = [PDict
       [("action", PStr "/apply"); ("method", PStr "post");
        ("inputs",
         PList
           [PDict [("tag", PStr "input"); ("type", PStr "email");
                   ("name", PStr "email"); ("id", PNone);
                   ("attrs", PDict [("type", PStr "email");
                                    ("name", PStr "email")])];
            PDict [("tag", PStr "input"); ("type", PStr "text");
                   ("name", PStr "amount"); ("id", PNone);
                   ("attrs", PDict [("name", PStr "amount")])];
            PDict [("tag", PStr "select"); ("type", PStr "select");
                   ("name", PStr "term"); ("id", PNone);
                   ("attrs", PDict [("name", PStr "term")])]])]]
  /\ save_form_fields_csv
       (PList [forms_entry soup_of (PDict [("multi_step", PBool false)])
                           "<html/>"])
     = Done [[PStr "field_name"; PStr "type"; PStr "options"];
             unknown_row].
Proof. cbv zeta. split; reflexivity. Qed.

End FormsExtras.

(** ** The nodes that call the resolver *)

Module NodesExtras.
Import PyStr Runs RunChecks Nodes ResolverTraces ResolverExtras.

Lemma with_browser_launched {env} (target : string) (selectors : list dict)
    (clicked visited : gset string) (p : PlaywrightH env) (st : St env) :
  let x := with_browser env target selectors clicked visited p st in
  is_ok x.1.1 = true -> existsb is_launched x.2 = true.
Proof.
  unfold with_browser, load_page, bind, call, try_except, ret.
  crunch; cbn; done.
Qed.

(** What a call leaves to its caller: after an outcome the browser is
    still open and the session has just been stopped; after [None] the
    browser, if one was launched, has been closed and [state] is as
    before. *)
Lemma try_selectors_handover (env : Env) (target : string)
    (selectors : list dict) (st : St env) :
  let x := _try_selectors env target selectors st in
  match x.1.1 with
  | Ok (Some o) =>
      closes x.2 = 0%nat /\ existsb is_launched x.2 = true
      /\ (exists pre, x.2 = (pre ++ [EvStop true])%list)
      /\ state x.1.2 = recorded (state st) o
  | Ok None =>
      closes x.2 = (if existsb is_launched x.2 then 1 else 0)%nat
      /\ state x.1.2 = state st
  | Raise _ => True
  end.
Proof.
  cbv zeta.
  destruct (try_selectors_unfold env target selectors st)
    as [E|[(e & w & E)|(p & w & r & st2 & ev2 & x & w3 & _ & Hb & E)]];
    rewrite E; cbn; [done..|].
  pose proof (with_browser_run target
                (List.filter (not_clicked (clicked_at st)) selectors)
                (clicked_at st) (visited_at st) p
                (mkSt w (state st) (selector_cache st)))
    as (Eff & _ & Hn & Hs).
  pose proof (with_browser_launched target
                (List.filter (not_clicked (clicked_at st)) selectors)
                (clicked_at st) (visited_at st) p
                (mkSt w (state st) (selector_cache st))) as Hl.
  rewrite Hb in Eff, Hn, Hs, Hl. unfold loop_effect in Eff.
  cbn in Eff, Hn, Hs, Hl.
  destruct x as [[]|e]; [|done].
  unfold closes in *. rewrite List.filter_app, length_app, existsb_app.
  cbn. rewrite orb_false_r, Nat.add_0_r.
  destruct r as [[o|]|e]; [| |done].
  - rewrite (Hs o eq_refl), (Hl eq_refl).
    split; [done|]. split; [done|]. split; [|tauto].
    by exists (EvStart true :: ev2).
  - by rewrite (Hn eq_refl), (Hl eq_refl).
Qed.

(** The part the two nodes share: the call, then [browser.close()] on
    the browser of the outcome, with its failure ignored. *)
Lemma nav_then_close (env : Env) (target : string) (selectors : list dict)
    (found : Outcome env -> Update) (none : Update) (st st1 : St env)
    (u : Update) (evs : list Event) :
  bind env (_try_selectors env target selectors)
    (fun nav_result =>
       match nav_result with
       | Some o =>
           bind env (close_quietly env (browser o))
                (fun _ => ret env (found o))
       | None => ret env none
       end) st = (Ok u, st1, evs) ->
  closes evs = (if existsb is_launched evs then 1 else 0)%nat
  /\ ((exists o pre ok,
         u = found o
         /\ evs = (pre ++ [EvStop true; EvClose ok])%list
         /\ state st1 = recorded (state st) o)
      \/ (u = none /\ state st1 = state st)).
Proof.
  unfold bind at 1.
  pose proof (try_selectors_handover env target selectors st) as H.
  cbv zeta in H.
  destruct (_try_selectors env target selectors st)
    as [[[[o|]|e] st0] ev0]; cbn in H |- *; [| |done].
  - destruct H as (Hc & Hl & (pre & ->) & Hst).
    unfold bind, close_quietly, try_except, call, ret.
    destruct (close env (browser o) (world st0)) as [[[]|e] w]; cbn.
    all: intros [= <- <- <-].
    all: unfold closes in *;
      rewrite ?app_nil_r, ?List.filter_app, ?length_app, ?existsb_app in *;
      cbn in *; rewrite ?orb_false_r in *.
    all: rewrite Hl, Hc; split; [done|].
    all: left; eexists o, pre, _; split; [done|]; split; [|done].
    all: by rewrite <- app_assoc.
  - intros [= <- <- <-]. destruct H as [Hc Hst]. rewrite app_nil_r.
    split; [done|]. by right.
Qed.

(** When [landing_page_node] or [intermediate_page_node] returns, every
    browser that was launched has been closed exactly once (none was
    launched when the call returned early).  When the update reports a
    navigation, the last two calls were the stop of the Playwright
    session and then [browser.close()], whose failure is ignored. *)
Theorem nodes_close_the_browser (env : Env)
    (html_to_text : string -> string)
    (buttons options : string -> World env -> Res (list dict) * World env)
    (state_url state_snippet : string) (visits : Z) (st : St env)
    (u : Update) :
  let x := landing_page_node env html_to_text buttons
             state_url state_snippet st in
  let y := intermediate_page_node env html_to_text options
             state_url state_snippet visits st in
  (x.1.1 = Ok u ->
   closes x.2 = (if existsb is_launched x.2 then 1 else 0)%nat
   /\ (is_some (upd_url u) = true ->
       exists pre ok, x.2 = (pre ++ [EvStop true; EvClose ok])%list))
  /\ (y.1.1 = Ok u ->
      closes y.2 = (if existsb is_launched y.2 then 1 else 0)%nat
      /\ (is_some (upd_url u) = true ->
          exists pre ok, y.2 = (pre ++ [EvStop true; EvClose ok])%list)).
Proof.
  cbv zeta. split.
  - destruct (landing_page_node env html_to_text buttons state_url
                state_snippet st) as [[r st'] evs] eqn:Ex.
    cbn. intros ->. revert Ex.
    unfold landing_page_node. unfold bind at 1, call.
    destruct (buttons state_snippet (world st)) as [[nav|e] w]; [|done].
    match goal with
    | |- context [bind env (_try_selectors env ?t ?l) ?k ?s] =>
        destruct (bind env (_try_selectors env t l) k s)
          as [[r st1] ev1] eqn:E
    end.
    intros [= -> -> <-]. apply nav_then_close in E as [Hc Hd].
    unfold closes in *. cbn. split; [done|].
    destruct Hd as [(o & pre & ok & -> & -> & _)|(-> & _)]; [|done].
    intros _. by exists (EvLLM state_snippet true :: pre), ok.
  - destruct (intermediate_page_node env html_to_text options state_url
                state_snippet visits st) as [[r st'] evs] eqn:Ex.
    cbn. intros ->. revert Ex.
    unfold intermediate_page_node. unfold bind at 1, call.
    destruct (options state_snippet (world st)) as [[nav|e] w]; [|done].
    match goal with
    | |- context [bind env ?m ?k ?s] =>
        change (bind env m k s)
          with (bind env (_try_selectors env
                            (current_or_url (state s) state_url) nav) k s);
        destruct (bind env (_try_selectors env
                              (current_or_url (state s) state_url) nav) k s)
          as [[r st1] ev1] eqn:E
    end.
    intros [= -> -> <-]. apply nav_then_close in E as [Hc Hd].
    unfold closes in *. cbn. split; [done|].
    destruct Hd as [(o & pre & ok & -> & -> & _)|(-> & _)]; [|done].
    intros _. by exists (EvLLM state_snippet true :: pre), ok.
Qed.

(** The update a node returns agrees with what the call did to
    [state]: when it carries a URL, [state] has that URL as
    [current_url] and at the end of [visited_urls], and the selector the
    action names at the end of [already_clicked]; when it carries none,
    [state] is as the node found it.  [intermediate_page_node] counts
    the visit in both cases. *)
Theorem node_update_agrees_with_state (env : Env)
    (html_to_text : string -> string)
    (buttons options : string -> World env -> Res (list dict) * World env)
    (state_url state_snippet : string) (visits : Z) (st : St env)
    (u : Update) :
  let x := landing_page_node env html_to_text buttons
             state_url state_snippet st in
  let y := intermediate_page_node env html_to_text options
             state_url state_snippet visits st in
  (x.1.1 = Ok u ->
   match upd_url u with
   | Some nav =>
       exists sel,
         upd_action u = FoundLoanApplication sel
         /\ state x.1.2
            = mkGraphState
                (Some (get_list (already_clicked (state st)) ++ [sel])%list)
                (Some (get_list (visited_urls (state st)) ++ [nav])%list)
                (Some nav)
   | None =>
       state x.1.2 = state st
       /\ exists candidates, upd_action u = LoanApplicationNotFound candidates
   end)
  /\ (y.1.1 = Ok u ->
      upd_intermediate_visits u = Some (visits + 1)
      /\ upd_current_url u = upd_url u
      /\ match upd_url u with
         | Some nav =>
             exists sel,
               upd_action u = IntermediateOptionSelected sel
               /\ state y.1.2
                  = mkGraphState
                      (Some (get_list (already_clicked (state st))
                             ++ [sel])%list)
                      (Some (get_list (visited_urls (state st))
                             ++ [nav])%list)
                      (Some nav)
         | None =>
             state y.1.2 = state st /\ upd_action u = NoOptionSelected
         end).
Proof.
  cbv zeta. split.
  - destruct (landing_page_node env html_to_text buttons state_url
                state_snippet st) as [[r st'] evs] eqn:Ex.
    cbn. intros ->. revert Ex.
    unfold landing_page_node. unfold bind at 1, call.
    destruct (buttons state_snippet (world st)) as [[nav|e] w]; [|done].
    match goal with
    | |- context [bind env (_try_selectors env ?t ?l) ?k ?s] =>
        destruct (bind env (_try_selectors env t l) k s)
          as [[r st1] ev1] eqn:E
    end.
    intros [= -> -> <-]. apply nav_then_close in E as [_ Hd].
    destruct Hd as [(o & pre & ok & -> & _ & ->)|(-> & ->)]; cbn.
    + by exists (selector o).
    + split; [done|]. by exists nav.
  - destruct (intermediate_page_node env html_to_text options state_url
                state_snippet visits st) as [[r st'] evs] eqn:Ex.
    cbn. intros ->. revert Ex.
    unfold intermediate_page_node. unfold bind at 1, call.
    destruct (options state_snippet (world st)) as [[nav|e] w]; [|done].
    match goal with
    | |- context [bind env ?m ?k ?s] =>
        change (bind env m k s)
          with (bind env (_try_selectors env
                            (current_or_url (state s) state_url) nav) k s);
        destruct (bind env (_try_selectors env
                              (current_or_url (state s) state_url) nav) k s)
          as [[r st1] ev1] eqn:E
    end.
    intros [= -> -> <-]. apply nav_then_close in E as [_ Hd].
    destruct Hd as [(o & pre & ok & -> & _ & ->)|(-> & ->)]; cbn.
    + split; [done|]. split; [done|]. by exists (selector o).
    + done.
Qed.

(** The two nodes on the example site, where the LLM names the
    candidates of the site: the link is found, the session is stopped
    and then the browser is closed; the second node, started from the
    state the first one left, navigates nowhere, leaves [state] as it
    is, and still counts its visit. *)
Example nodes_on_the_site :
  let x := landing_page_node (Toy.env Toy.site) (fun s => s)
             (toy_buttons Toy.site) Toy.home "Apply"
             (Toy.start Toy.site Toy.fresh) in
  let y := intermediate_page_node (Toy.env Toy.site) (fun s => s)
             (toy_buttons Toy.site) Toy.home "Apply" 0 x.1.2 in
  x.1.1 = Ok (mkUpdate (Some Toy.form_url)
                (Some ("<html>" ++ Toy.form_url ++ "</html>"))
                (Some ("<html>" ++ Toy.form_url ++ "</html>"))
                (FoundLoanApplication Toy.apply_xpath) None None)
  /\ closes x.2 = 1%nat
  /\ last x.2 = Some (EvClose true)
  /\ y.1.1 = Ok (mkUpdate None None None NoOptionSelected (Some 1) None)
  /\ state y.1.2 = state x.1.2.
Proof.
  cbv zeta.
  split; [vm_compute; reflexivity|].
  split; [vm_compute; reflexivity|].
  split; [vm_compute; reflexivity|].
  split; vm_compute; reflexivity.
Qed.

End NodesExtras.

(** ** Classification and routing *)

Module GraphExtras.
Import Forms Graph.

(** Form extraction is reached only for a page the LLM called [form]:
    in a state that carries the classification [classify_page_node]
    returned for the answer [llm_result], the edge leads to
    [extract_form_fields_node] only when the answer has the string
    [form] under [page_type].  A missing [page_type], or any other
    value, leads to [intermediate_page_node], or to [end_node] once two
    intermediate visits were counted; and the edge names one of these
    three nodes whenever the counter is a number. *)
Theorem unknown_page_type_never_extracted
    (state llm_result : list (string * pyval)) (node : string) :
  lookup "classification" state = Some (classification llm_result) ->
  after_classify state = Done node ->
  (node = "extract_form_fields_node"
   -> dict_get llm_result "page_type" PNone = PStr "form")
  /\ (node = "intermediate_page_node"
      -> dict_get llm_result "page_type" PNone <> PStr "form")
  /\ (node = "end_node" \/ node = "intermediate_page_node"
      \/ node = "extract_form_fields_node").
Proof.
  intros Hc. unfold after_classify, and_then.
  destruct (at_least_two _) as [[]|]; [| |done].
  { intros [= <-]. split; [done|]. split; [done|]. by left. }
  unfold dict_get at 1. rewrite Hc. unfold classification.
  destruct (dict_get llm_result "page_type" PNone) as [| | |s| |]; cbn;
    try (intros [= <-]; split; [done|]; split; [done|]; right; by left).
  destruct (String.eqb_spec s "intermediate") as [->|Hi]; cbn.
  { intros [= <-]. split; [done|]. split; [done|]. right; by left. }
  destruct (String.eqb_spec s "form") as [->|Hf]; cbn.
  { intros [= <-]. split; [done|]. split; [done|]. right; by right. }
  intros [= <-]. split; [done|]. split; [congruence|]. right; by left.
Qed.

(** A first visit, for an answer without [page_type]. *)
Lemma unknown_page_type_never_extracted_witness :
  let llm_result := [("raw_text", PStr "no JSON"); ("confidence", PInt 0)] in
  let state := [("intermediate_visits", PInt 0);
                ("classification", classification llm_result)] in
  after_classify state = Done "intermediate_page_node"
  /\ ("intermediate_page_node" = "extract_form_fields_node"
      -> dict_get llm_result "page_type" PNone = PStr "form")
  /\ ("intermediate_page_node" = "intermediate_page_node"
      -> dict_get llm_result "page_type" PNone <> PStr "form")
  /\ ("intermediate_page_node" = "end_node"
      \/ "intermediate_page_node" = "intermediate_page_node"
      \/ "intermediate_page_node" = "extract_form_fields_node").
Proof.
  cbv zeta. split; [reflexivity|].
  apply (unknown_page_type_never_extracted
           [("intermediate_visits", PInt 0);
            ("classification",
             classification [("raw_text", PStr "no JSON");
                             ("confidence", PInt 0)])]
           [("raw_text", PStr "no JSON"); ("confidence", PInt 0)]
           "intermediate_page_node");
    reflexivity.
Defined.

End GraphExtras.
